(** * Product catalog service: domain model, read model and list query

    A shallow embedding of the Go packages
    [internal/app/product/domain] (money.go, discount.go, product.go,
    domain_events.go, domain_errors.go), [internal/models/m_product],
    [internal/app/product/contracts], [internal/app/product/repo]
    (read_model_repo.go) and [internal/app/product/queries/list_products],
    followed by the properties of the specification that concern them.

    Conventions.
    - [time.Time] is an instant on the time line, a [Z]; [Before] and
      [After] are the strict order on instants.
    - a [big.Rat] is a rational in lowest terms with a positive
      denominator, which is what [Qc] is.
    - [int64] and [int] values are [Z]; where the source does machine
      arithmetic on them the 64-bit two's complement wrap-around is
      written out with [wrap64].
    - A Go [string] is a sequence of bytes, a [string] here; [len] is
      [String.length].
    - A method with a pointer receiver that returns [error] becomes a
      function from the receiver to the receiver after the call paired
      with [option error] ([None] is Go's [nil]). *)

From Stdlib Require Import ZArith QArith Qcanon Lia.
From stdpp Require Import base decidable option list sorting gmap strings.

Local Open Scope string_scope.
Local Open Scope Z_scope.

(** ** Instants *)

Module time.
Definition Time := Z.
Definition Before (t u : Time) : bool := t <? u.
Definition After (t u : Time) : bool := u <? t.
Definition Equal (t u : Time) : bool := t =? u.
End time.
Export time.

(** ** 64-bit machine integers *)

Definition wrap64 (z : Z) : Z := (z + 2 ^ 63) mod 2 ^ 64 - 2 ^ 63.

Definition MinInt64 : Z := - 2 ^ 63.
Definition MaxInt64 : Z := 2 ^ 63 - 1.
Definition is_int64 (z : Z) : Prop := MinInt64 <= z <= MaxInt64.

(** ** math/big rationals *)

Module big.
Definition Rat := Qc.

(** [big.NewRat(a, b)]: the fraction a/b in lowest terms (the source
    never calls it with b = 0, where Go panics; here it yields 0). *)
Definition NewRat (a b : Z) : Rat := Q2Qc (inject_Z a / inject_Z b).

Definition Sign (x : Rat) : Z := Z.sgn (Qnum (this x)).
Definition Add (x y : Rat) : Rat := (x + y)%Qc.
Definition Sub (x y : Rat) : Rat := (x - y)%Qc.
Definition Mul (x y : Rat) : Rat := (x * y)%Qc.

(** [x.Cmp(y)] is -1, 0 or +1. *)
Definition Cmp (x y : Rat) : Z :=
  match (x ?= y)%Qc with Lt => -1 | Eq => 0 | Gt => 1 end.
End big.

(** ** package domain *)

Module domain.

(** *** domain_errors.go *)

Inductive error : Set :=
  | ErrProductNotFound
  | ErrProductNotActive
  | ErrProductAlreadyActive
  | ErrProductArchived
  | ErrProductInactive
  | ErrEmptyProductName
  | ErrEmptyCategory
  | ErrInvalidProductStatus
  | ErrProductNameTooLong
  | ErrCategoryTooLong
  | ErrInvalidMoney
  | ErrNegativeMoney
  | ErrZeroPrice
  | ErrInvalidDiscountPercentage
  | ErrInvalidDiscountPeriod
  | ErrDiscountNotActive
  | ErrDiscountAlreadyExists
  | ErrNoDiscountToRemove
  | ErrDiscountExpired
  | ErrDiscountNotStarted
  | ErrCannotActivateArchived
  | ErrCannotDeactivateArchived
  | ErrCannotArchiveActive
  | ErrCannotUpdateArchived.

Definition MaxProductNameLength : nat := 255.
Definition MaxCategoryLength : nat := 100.

(** A fallible constructor returns the value or the error. *)
Inductive result (A : Type) : Type :=
  | Ok (a : A)
  | Err (e : error).
Arguments Ok {A} a.
Arguments Err {A} e.

(** *** money.go *)

Record Money : Type := mkMoney { amount : big.Rat }.

Definition NewMoney (numerator denominator : Z) : result Money :=
  if denominator =? 0 then Err ErrInvalidMoney
  else if numerator <? 0 then Err ErrNegativeMoney
  else Ok {| amount := big.NewRat numerator denominator |}.

(** [amount] is a pointer to a [big.Rat]; [None] is the nil pointer. *)
Definition NewMoneyFromRat (amount : option big.Rat) : result Money :=
  match amount with
  | None => Err ErrInvalidMoney
  | Some a =>
      if big.Sign a <? 0 then Err ErrNegativeMoney
      else Ok {| amount := a |}
  end.

Definition Zero : Money := {| amount := big.NewRat 0 1 |}.

Definition Add (m other : Money) : Money :=
  let result := big.Add (amount m) (amount other) in
  {| amount := result |}.

Definition Subtract (m other : Money) : result Money :=
  let result := big.Sub (amount m) (amount other) in
  if big.Sign result <? 0 then Err ErrNegativeMoney
  else Ok {| amount := result |}.

Definition Multiply (m : Money) (factor : big.Rat) : result Money :=
  if big.Sign factor <? 0 then Err ErrNegativeMoney
  else
    let result := big.Mul (amount m) factor in
    Ok {| amount := result |}.

Definition ApplyPercentage (m : Money) (percentage : Z) : Money :=
  let factor := big.NewRat percentage 100 in
  let result := big.Mul (amount m) factor in
  {| amount := result |}.

Definition SubtractPercentage (m : Money) (percentage : Z) : Money :=
  let discount := ApplyPercentage m percentage in
  let result := big.Sub (amount m) (amount discount) in
  {| amount := result |}.

Definition IsZero (m : Money) : bool := big.Sign (amount m) =? 0.
Definition IsPositive (m : Money) : bool := 0 <? big.Sign (amount m).

(** [Equals] of [Money]; [other] is a pointer, [None] when nil. *)
Definition Money_Equals (m : Money) (other : option Money) : bool :=
  match other with
  | None => false
  | Some o => big.Cmp (amount m) (amount o) =? 0
  end.

Definition GreaterThan (m other : Money) : bool :=
  0 <? big.Cmp (amount m) (amount other).
Definition LessThan (m other : Money) : bool :=
  big.Cmp (amount m) (amount other) <? 0.

(** *** discount.go *)

Record Discount : Type := mkDiscount {
  percentage : Z;
  startDate : Time;
  endDate : Time
}.

Definition NewDiscount (percentage : Z) (startDate endDate : Time)
  : result Discount :=
  if (percentage <=? 0) || (100 <? percentage) then
    Err ErrInvalidDiscountPercentage
  else if Before endDate startDate then Err ErrInvalidDiscountPeriod
  else Ok {| percentage := percentage;
             startDate := startDate;
             endDate := endDate |}.

Definition IsValidAt (d : Discount) (t : Time) : bool :=
  negb (Before t (startDate d)) && negb (After t (endDate d)).

Definition IsExpired (d : Discount) (now : Time) : bool :=
  After now (endDate d).

Definition HasStarted (d : Discount) (now : Time) : bool :=
  negb (Before now (startDate d)).

Definition Apply (d : Discount) (price : Money) : Money :=
  SubtractPercentage price (percentage d).

(** [Equals] of [Discount]; [other] is a pointer, [None] when nil. *)
Definition Discount_Equals (d : Discount) (other : option Discount) : bool :=
  match other with
  | None => false
  | Some o =>
      (percentage d =? percentage o)
      && Equal (startDate d) (startDate o)
      && Equal (endDate d) (endDate o)
  end.

(** *** domain_events.go

    The seven event structs, each with its [BaseEvent] (aggregate id and
    occurrence time) first. *)

Inductive DomainEvent : Type :=
  | ProductCreatedEvent (aggregateID : string) (occurredAt : Time)
      (Name Description Category : string) (BasePrice : Money)
  | ProductUpdatedEvent (aggregateID : string) (occurredAt : Time)
      (Name Description Category : string)
  | ProductActivatedEvent (aggregateID : string) (occurredAt : Time)
  | ProductDeactivatedEvent (aggregateID : string) (occurredAt : Time)
  | ProductArchivedEvent (aggregateID : string) (occurredAt : Time)
  | DiscountAppliedEvent (aggregateID : string) (occurredAt : Time)
      (Percentage : Z) (StartDate EndDate : Time)
  | DiscountRemovedEvent (aggregateID : string) (occurredAt : Time).

Definition EventType (e : DomainEvent) : string :=
  match e with
  | ProductCreatedEvent _ _ _ _ _ _ => "product.created"
  | ProductUpdatedEvent _ _ _ _ _ => "product.updated"
  | ProductActivatedEvent _ _ => "product.activated"
  | ProductDeactivatedEvent _ _ => "product.deactivated"
  | ProductArchivedEvent _ _ => "product.archived"
  | DiscountAppliedEvent _ _ _ _ _ => "product.discount_applied"
  | DiscountRemovedEvent _ _ => "product.discount_removed"
  end.

Definition NewProductCreatedEvent (id name description category : string)
    (basePrice : Money) (occurredAt : Time) : DomainEvent :=
  ProductCreatedEvent id occurredAt name description category basePrice.

Definition NewProductUpdatedEvent (id name description category : string)
    (occurredAt : Time) : DomainEvent :=
  ProductUpdatedEvent id occurredAt name description category.

Definition NewProductActivatedEvent (id : string) (occurredAt : Time)
  : DomainEvent := ProductActivatedEvent id occurredAt.

Definition NewProductDeactivatedEvent (id : string) (occurredAt : Time)
  : DomainEvent := ProductDeactivatedEvent id occurredAt.

Definition NewProductArchivedEvent (id : string) (occurredAt : Time)
  : DomainEvent := ProductArchivedEvent id occurredAt.

Definition NewDiscountAppliedEvent (id : string) (percentage : Z)
    (startDate endDate occurredAt : Time) : DomainEvent :=
  DiscountAppliedEvent id occurredAt percentage startDate endDate.

Definition NewDiscountRemovedEvent (id : string) (occurredAt : Time)
  : DomainEvent := DiscountRemovedEvent id occurredAt.

(** *** product.go *)

Definition FieldName : string := "name".
Definition FieldDescription : string := "description".
Definition FieldCategory : string := "category".
Definition FieldBasePrice : string := "base_price".
Definition FieldDiscount : string := "discount".
Definition FieldStatus : string := "status".
Definition FieldArchivedAt : string := "archived_at".

(** [type ProductStatus string] *)
Definition ProductStatus := string.
Definition ProductStatusDraft : ProductStatus := "draft".
Definition ProductStatusActive : ProductStatus := "active".
Definition ProductStatusInactive : ProductStatus := "inactive".
Definition ProductStatusArchived : ProductStatus := "archived".

Definition IsValid (s : ProductStatus) : bool :=
  bool_decide (s = ProductStatusDraft)
  || bool_decide (s = ProductStatusActive)
  || bool_decide (s = ProductStatusInactive)
  || bool_decide (s = ProductStatusArchived).

(** [ChangeTracker]: the [map[string]bool] of dirty fields. *)
Record ChangeTracker : Type := mkChangeTracker {
  dirtyFields : gmap string bool
}.

Definition NewChangeTracker : ChangeTracker := {| dirtyFields := ∅ |}.

Definition MarkDirty (ct : ChangeTracker) (field : string) : ChangeTracker :=
  {| dirtyFields := <[field := true]> (dirtyFields ct) |}.

(** Reading a missing key of a Go map gives the zero value, [false]. *)
Definition Dirty (ct : ChangeTracker) (field : string) : bool :=
  default false (dirtyFields ct !! field).

Definition HasChanges (ct : ChangeTracker) : bool :=
  bool_decide (0 < size (dirtyFields ct))%nat.

(** The keys, in the order of the map's enumeration (Go leaves the
    order of [range] over a map unspecified). *)
Definition DirtyFields (ct : ChangeTracker) : list string :=
  (map_to_list (dirtyFields ct)).*1.

Definition Reset (ct : ChangeTracker) : ChangeTracker := NewChangeTracker.

(** The aggregate.  [basePrice] is never nil in a product built by
    [NewProduct] (which rejects nil) or loaded by the repository (which
    builds it with [NewMoney]), so the field holds a [Money]. *)
Record Product : Type := mkProduct {
  id : string;
  name : string;
  description : string;
  category : string;
  basePrice : Money;
  discount : option Discount;
  status : ProductStatus;
  createdAt : Time;
  updatedAt : Time;
  archivedAt : option Time;
  changes : ChangeTracker;
  events : list DomainEvent;
  isNew : bool
}.

(** Field assignments [p.f = v]. *)
Definition set_name (p : Product) (v : string) : Product :=
  mkProduct (id p) v (description p) (category p) (basePrice p) (discount p)
    (status p) (createdAt p) (updatedAt p) (archivedAt p) (changes p)
    (events p) (isNew p).
Definition set_description (p : Product) (v : string) : Product :=
  mkProduct (id p) (name p) v (category p) (basePrice p) (discount p)
    (status p) (createdAt p) (updatedAt p) (archivedAt p) (changes p)
    (events p) (isNew p).
Definition set_category (p : Product) (v : string) : Product :=
  mkProduct (id p) (name p) (description p) v (basePrice p) (discount p)
    (status p) (createdAt p) (updatedAt p) (archivedAt p) (changes p)
    (events p) (isNew p).
Definition set_discount (p : Product) (v : option Discount) : Product :=
  mkProduct (id p) (name p) (description p) (category p) (basePrice p) v
    (status p) (createdAt p) (updatedAt p) (archivedAt p) (changes p)
    (events p) (isNew p).
Definition set_status (p : Product) (v : ProductStatus) : Product :=
  mkProduct (id p) (name p) (description p) (category p) (basePrice p)
    (discount p) v (createdAt p) (updatedAt p) (archivedAt p) (changes p)
    (events p) (isNew p).
Definition set_updatedAt (p : Product) (v : Time) : Product :=
  mkProduct (id p) (name p) (description p) (category p) (basePrice p)
    (discount p) (status p) (createdAt p) v (archivedAt p) (changes p)
    (events p) (isNew p).
Definition set_archivedAt (p : Product) (v : option Time) : Product :=
  mkProduct (id p) (name p) (description p) (category p) (basePrice p)
    (discount p) (status p) (createdAt p) (updatedAt p) v (changes p)
    (events p) (isNew p).
Definition set_changes (p : Product) (v : ChangeTracker) : Product :=
  mkProduct (id p) (name p) (description p) (category p) (basePrice p)
    (discount p) (status p) (createdAt p) (updatedAt p) (archivedAt p) v
    (events p) (isNew p).
Definition set_events (p : Product) (v : list DomainEvent) : Product :=
  mkProduct (id p) (name p) (description p) (category p) (basePrice p)
    (discount p) (status p) (createdAt p) (updatedAt p) (archivedAt p)
    (changes p) v (isNew p).

(** [p.changes.MarkDirty(field)] and [p.events = append(p.events, e)]. *)
Definition mark (p : Product) (field : string) : Product :=
  set_changes p (MarkDirty (changes p) field).
Definition emit (p : Product) (e : DomainEvent) : Product :=
  set_events p (events p ++ [e]).

(** [basePrice] is a pointer; [None] is nil. *)
Definition NewProduct (id name description category : string)
    (basePrice : option Money) (now : Time) : result Product :=
  if bool_decide (name = "") then Err ErrEmptyProductName
  else if bool_decide (MaxProductNameLength < String.length name)%nat then
    Err ErrProductNameTooLong
  else if bool_decide (category = "") then Err ErrEmptyCategory
  else if bool_decide (MaxCategoryLength < String.length category)%nat then
    Err ErrCategoryTooLong
  else
    match basePrice with
    | None => Err ErrZeroPrice
    | Some basePrice =>
        if IsZero basePrice then Err ErrZeroPrice
        else
          let p := {| id := id;
                      name := name;
                      description := description;
                      category := category;
                      basePrice := basePrice;
                      discount := None;
                      status := ProductStatusDraft;
                      createdAt := now;
                      updatedAt := now;
                      archivedAt := None;
                      changes := NewChangeTracker;
                      events := [];
                      isNew := true |} in
          let p := emit p (NewProductCreatedEvent id name description
                             category basePrice now) in
          Ok p
    end.

Definition Reconstitute (id name description category : string)
    (basePrice : Money) (discount : option Discount) (status : ProductStatus)
    (createdAt updatedAt : Time) (archivedAt : option Time) : Product :=
  {| id := id;
     name := name;
     description := description;
     category := category;
     basePrice := basePrice;
     discount := discount;
     status := status;
     createdAt := createdAt;
     updatedAt := updatedAt;
     archivedAt := archivedAt;
     changes := NewChangeTracker;
     events := [];
     isNew := false |}.

Definition ClearEvents (p : Product) : Product := set_events p [].

Definition IsActive (p : Product) : bool :=
  bool_decide (status p = ProductStatusActive).

Definition IsArchived (p : Product) : bool :=
  bool_decide (status p = ProductStatusArchived).

Definition EffectivePrice (p : Product) (now : Time) : Money :=
  match discount p with
  | None => basePrice p
  | Some d => if negb (IsValidAt d now) then basePrice p
              else Apply d (basePrice p)
  end.

Definition HasActiveDiscount (p : Product) (now : Time) : bool :=
  match discount p with
  | None => false
  | Some d => IsValidAt d now
  end.

Definition Update (p : Product) (name' description' category' : string)
    (now : Time) : Product * option error :=
  if IsArchived p then (p, Some ErrCannotUpdateArchived)
  else if bool_decide (name' = "") then (p, Some ErrEmptyProductName)
  else if bool_decide (MaxProductNameLength < String.length name')%nat then
    (p, Some ErrProductNameTooLong)
  else if bool_decide (category' = "") then (p, Some ErrEmptyCategory)
  else if bool_decide (MaxCategoryLength < String.length category')%nat then
    (p, Some ErrCategoryTooLong)
  else
    let changed := false in
    let '(p, changed) :=
      if bool_decide (name p ≠ name') then
        (mark (set_name p name') FieldName, true)
      else (p, changed) in
    let '(p, changed) :=
      if bool_decide (description p ≠ description') then
        (mark (set_description p description') FieldDescription, true)
      else (p, changed) in
    let '(p, changed) :=
      if bool_decide (category p ≠ category') then
        (mark (set_category p category') FieldCategory, true)
      else (p, changed) in
    let p :=
      if changed then
        let p := set_updatedAt p now in
        emit p (NewProductUpdatedEvent (id p) name' description' category' now)
      else p in
    (p, None).

Definition Activate (p : Product) (now : Time) : Product * option error :=
  if IsArchived p then (p, Some ErrCannotActivateArchived)
  else if IsActive p then (p, Some ErrProductAlreadyActive)
  else
    let p := set_status p ProductStatusActive in
    let p := set_updatedAt p now in
    let p := mark p FieldStatus in
    let p := emit p (NewProductActivatedEvent (id p) now) in
    (p, None).

Definition Deactivate (p : Product) (now : Time) : Product * option error :=
  if IsArchived p then (p, Some ErrCannotDeactivateArchived)
  else if bool_decide (status p = ProductStatusInactive) then
    (p, Some ErrProductInactive)
  else
    let p := set_status p ProductStatusInactive in
    let p := set_updatedAt p now in
    let p := mark p FieldStatus in
    let p := emit p (NewProductDeactivatedEvent (id p) now) in
    (p, None).

Definition Archive (p : Product) (now : Time) : Product * option error :=
  if IsArchived p then (p, Some ErrProductArchived)
  else if IsActive p then (p, Some ErrCannotArchiveActive)
  else
    let p := set_status p ProductStatusArchived in
    let p := set_archivedAt p (Some now) in
    let p := set_updatedAt p now in
    let p := mark p FieldStatus in
    let p := mark p FieldArchivedAt in
    let p := emit p (NewProductArchivedEvent (id p) now) in
    (p, None).

(** [discount] is dereferenced, so it is not nil. *)
Definition ApplyDiscount (p : Product) (discount : Discount) (now : Time)
  : Product * option error :=
  if negb (IsActive p) then (p, Some ErrProductNotActive)
  else
  let expired :=
    if negb (IsValidAt discount now) && negb (HasStarted discount now) then
      if IsExpired discount now then true else false
    else false in
  if expired then (p, Some ErrDiscountExpired)
  else
    let p := set_discount p (Some discount) in
    let p := set_updatedAt p now in
    let p := mark p FieldDiscount in
    let p := emit p (NewDiscountAppliedEvent (id p) (percentage discount)
                       (startDate discount) (endDate discount) now) in
    (p, None).

Definition RemoveDiscount (p : Product) (now : Time)
  : Product * option error :=
  match discount p with
  | None => (p, Some ErrNoDiscountToRemove)
  | Some _ =>
      let p := set_discount p None in
      let p := set_updatedAt p now in
      let p := mark p FieldDiscount in
      let p := emit p (NewDiscountRemovedEvent (id p) now) in
      (p, None)
  end.

(** Accessors of the events, through the embedded [BaseEvent]. *)
Definition AggregateID (e : DomainEvent) : string :=
  match e with
  | ProductCreatedEvent a _ _ _ _ _ => a
  | ProductUpdatedEvent a _ _ _ _ => a
  | ProductActivatedEvent a _ => a
  | ProductDeactivatedEvent a _ => a
  | ProductArchivedEvent a _ => a
  | DiscountAppliedEvent a _ _ _ _ => a
  | DiscountRemovedEvent a _ => a
  end.

Definition OccurredAt (e : DomainEvent) : Time :=
  match e with
  | ProductCreatedEvent _ t _ _ _ _ => t
  | ProductUpdatedEvent _ t _ _ _ => t
  | ProductActivatedEvent _ t => t
  | ProductDeactivatedEvent _ t => t
  | ProductArchivedEvent _ t => t
  | DiscountAppliedEvent _ t _ _ _ => t
  | DiscountRemovedEvent _ t => t
  end.

(** [err.Error()] of the sentinel errors of domain_errors.go. *)
Definition Error (e : error) : string :=
  match e with
  | ErrProductNotFound => "product not found"
  | ErrProductNotActive => "product is not active"
  | ErrProductAlreadyActive => "product is already active"
  | ErrProductArchived => "product is archived"
  | ErrProductInactive => "product is inactive"
  | ErrEmptyProductName => "product name cannot be empty"
  | ErrEmptyCategory => "category cannot be empty"
  | ErrInvalidProductStatus => "invalid product status"
  | ErrProductNameTooLong => "product name exceeds maximum length"
  | ErrCategoryTooLong => "category exceeds maximum length"
  | ErrInvalidMoney => "invalid money value"
  | ErrNegativeMoney => "money cannot be negative"
  | ErrZeroPrice => "price cannot be zero"
  | ErrInvalidDiscountPercentage =>
      "discount percentage must be between 1 and 100"
  | ErrInvalidDiscountPeriod => "discount end date must be after start date"
  | ErrDiscountNotActive => "discount is not active at current time"
  | ErrDiscountAlreadyExists => "product already has an active discount"
  | ErrNoDiscountToRemove => "product has no discount to remove"
  | ErrDiscountExpired => "discount period has expired"
  | ErrDiscountNotStarted => "discount period has not started yet"
  | ErrCannotActivateArchived => "cannot activate archived product"
  | ErrCannotDeactivateArchived => "cannot deactivate archived product"
  | ErrCannotArchiveActive => "must deactivate product before archiving"
  | ErrCannotUpdateArchived => "cannot update archived product"
  end.

End domain.

(** ** package services (domain service, pricing_calculator.go) *)

Module services.
Import domain.

Definition ValidateDiscountApplication (product : Product)
    (discount : Discount) (now : Time) : option error :=
  if negb (IsActive product) then Some ErrProductNotActive
  else if IsExpired discount now then Some ErrDiscountExpired
  else None.

Definition CalculateEffectivePrice (product : Product) (now : Time) : Money :=
  EffectivePrice product now.

(** [discount] is a pointer; [None] is nil. *)
Definition CalculateDiscountAmount (basePrice : Money)
    (discount : option Discount) : Money :=
  match discount with
  | None => Zero
  | Some d => ApplyPercentage basePrice (percentage d)
  end.

(** The error of [Multiply] is dropped; the result is nil ([None]) when
    [Multiply] fails. *)
Definition CalculateSavings (basePrice : Money) (discount : option Discount)
    (quantity : Z) : option Money :=
  match discount with
  | None => Some Zero
  | Some _ =>
      if quantity <=? 0 then Some Zero
      else
        let singleDiscount := CalculateDiscountAmount basePrice discount in
        let factor := big.NewRat quantity 1 in
        match Multiply singleDiscount factor with
        | Ok total => Some total
        | Err _ => None
        end
  end.

Record PriceBreakdown : Type := mkPriceBreakdown {
  pb_BasePrice : Money;
  pb_DiscountPercent : Z;
  pb_DiscountAmount : Money;
  pb_EffectivePrice : Money;
  pb_HasDiscount : bool
}.

Definition GetPriceBreakdown (product : Product) (now : Time)
  : PriceBreakdown :=
  let BasePrice := basePrice product in
  let EffectivePrice := EffectivePrice product now in
  let HasDiscount := HasActiveDiscount product now in
  if HasActiveDiscount product now then
    let discount := discount product in
    {| pb_BasePrice := BasePrice;
       pb_DiscountPercent :=
         match discount with Some d => percentage d | None => 0 end;
       pb_DiscountAmount :=
         CalculateDiscountAmount (basePrice product) discount;
       pb_EffectivePrice := EffectivePrice;
       pb_HasDiscount := HasDiscount |}
  else
    {| pb_BasePrice := BasePrice;
       pb_DiscountPercent := 0;
       pb_DiscountAmount := Zero;
       pb_EffectivePrice := EffectivePrice;
       pb_HasDiscount := HasDiscount |}.

End services.

(** ** package m_product: the database row *)

Module m_product.

Definition TableName : string := "products".
Definition ProductID : string := "product_id".
Definition Name : string := "name".
Definition Description : string := "description".
Definition Category : string := "category".
Definition BasePriceNumerator : string := "base_price_numerator".
Definition BasePriceDenominator : string := "base_price_denominator".
Definition DiscountPercent : string := "discount_percent".
Definition DiscountStartDate : string := "discount_start_date".
Definition DiscountEndDate : string := "discount_end_date".
Definition Status : string := "status".
Definition CreatedAt : string := "created_at".
Definition UpdatedAt : string := "updated_at".
Definition ArchivedAt : string := "archived_at".

(** [spanner.NullTime] and [spanner.NullNumeric] are options ([Valid]
    is [Some]).  The NUMERIC column [discount_percent] is only ever
    written as [big.NewRat(d.Percentage(), 1)], an integer between 1 and
    100; on integers of that size [Float64()] followed by [int64(...)]
    is exact, so the column is kept as the integer it holds. *)
Record Product : Type := mkProduct {
  row_ProductID : string;
  row_Name : string;
  row_Description : string;
  row_Category : string;
  row_BasePriceNumerator : Z;
  row_BasePriceDenominator : Z;
  row_DiscountPercent : option Z;
  row_DiscountStartDate : option Time;
  row_DiscountEndDate : option Time;
  row_Status : string;
  row_CreatedAt : Time;
  row_UpdatedAt : Time;
  row_ArchivedAt : option Time
}.

End m_product.

(** ** package contracts (read_model.go) *)

Module contracts.

Record ProductReadModel : Type := mkProductReadModel {
  ID : string;
  Name : string;
  Description : string;
  Category : string;
  BasePriceNumerator : Z;
  BasePriceDenominator : Z;
  EffectivePriceNum : Z;
  EffectivePriceDenom : Z;
  DiscountPercent : option Z;
  DiscountStartDate : option Time;
  DiscountEndDate : option Time;
  Status : string;
  CreatedAt : Time;
  UpdatedAt : Time;
  ArchivedAt : option Time
}.

Record ProductListFilters : Type := mkProductListFilters {
  filter_Category : option string;
  filter_Status : option string;
  filter_ActiveOnly : bool
}.

Record Pagination : Type := mkPagination {
  Limit : Z;
  Offset : Z
}.

Record ProductListResult : Type := mkProductListResult {
  Products : list ProductReadModel;
  TotalCount : Z;
  HasMore : bool
}.

End contracts.

(** ** Cloud Spanner, as far as the read side uses it

    The [products] table is a list of rows.  [List] assembles its SQL
    text by appending [" AND <column> = @<param>"] and
    [" AND <column> != @<param>"] to ["... WHERE 1=1"], and for the page
    query [" ORDER BY created_at DESC LIMIT @limit OFFSET @offset"]; a
    statement is kept as that list of conditions, the flag for the
    ordering and paging suffix, and the parameter map. *)

Module spanner.

Inductive Param : Type :=
  | PString (s : string)
  | PInt64 (n : Z).

#[global] Instance Param_eq_dec : EqDecision Param.
Proof. solve_decision. Defined.

Inductive Cond : Type :=
  | ColEq (column param : string)
  | ColNe (column param : string).

Record Statement : Type := mkStatement {
  Where : list Cond;
  Paged : bool;
  Params : gmap string Param
}.

(** The columns a condition may mention. *)
Definition column (r : m_product.Product) (c : string) : option Param :=
  if bool_decide (c = m_product.Status) then
    Some (PString (m_product.row_Status r))
  else if bool_decide (c = m_product.Category) then
    Some (PString (m_product.row_Category r))
  else None.

(** Truth of one condition on a row; a condition on an unknown column
    or an unbound parameter holds of no row (the statements built by
    [List] bind every parameter they mention). *)
Definition holds (params : gmap string Param) (r : m_product.Product)
    (c : Cond) : bool :=
  match c with
  | ColEq col prm =>
      match column r col, params !! prm with
      | Some v, Some w => bool_decide (v = w)
      | _, _ => false
      end
  | ColNe col prm =>
      match column r col, params !! prm with
      | Some v, Some w => bool_decide (v ≠ w)
      | _, _ => false
      end
  end.

Definition selected (st : Statement) (r : m_product.Product) : bool :=
  forallb (holds (Params st) r) (Where st).

(** [ORDER BY created_at DESC]: newest first (rows with equal
    [created_at] stay in table order, one of the orders SQL allows). *)
Definition newer_first (a b : m_product.Product) : Prop :=
  m_product.row_CreatedAt b <= m_product.row_CreatedAt a.

#[global] Instance newer_first_dec : RelDecision newer_first.
Proof. intros a b. unfold newer_first. apply _. Defined.

(** [SELECT COUNT FROM products WHERE ...]: the number of selected rows. *)
Definition QueryCount (table : list m_product.Product) (st : Statement) : Z :=
  Z.of_nat (length (List.filter (selected st) table)).

(** [SELECT <columns> FROM products WHERE ...], ordered and paged when
    the statement carries the suffix.  A negative [LIMIT] or [OFFSET],
    or a missing one, is rejected by the server: [None]. *)
Definition Query (table : list m_product.Product) (st : Statement)
  : option (list m_product.Product) :=
  let rows := List.filter (selected st) table in
  if Paged st then
    match Params st !! "limit", Params st !! "offset" with
    | Some (PInt64 l), Some (PInt64 o) =>
        if (l <? 0) || (o <? 0) then None
        else Some (take (Z.to_nat l)
                     (drop (Z.to_nat o) (merge_sort newer_first rows)))
    | _, _ => None
    end
  else Some rows.

End spanner.

(** ** package repo *)

Module repo.
Import contracts.

(** *** product_repo.go: the row written for an aggregate

    [Numerator()] and [Denominator()] are [Int64()] of the reduced
    fraction's parts, its low 64 bits. *)
Definition Numerator (m : domain.Money) : Z :=
  wrap64 (Qnum (this (domain.amount m))).
Definition Denominator (m : domain.Money) : Z :=
  wrap64 (Z.pos (Qden (this (domain.amount m)))).

Definition productToDBModel (p : domain.Product) : m_product.Product :=
  {| m_product.row_ProductID := domain.id p;
     m_product.row_Name := domain.name p;
     m_product.row_Description := domain.description p;
     m_product.row_Category := domain.category p;
     m_product.row_BasePriceNumerator := Numerator (domain.basePrice p);
     m_product.row_BasePriceDenominator := Denominator (domain.basePrice p);
     m_product.row_DiscountPercent :=
       match domain.discount p with
       | Some d => Some (domain.percentage d)
       | None => None
       end;
     m_product.row_DiscountStartDate :=
       match domain.discount p with
       | Some d => Some (domain.startDate d)
       | None => None
       end;
     m_product.row_DiscountEndDate :=
       match domain.discount p with
       | Some d => Some (domain.endDate d)
       | None => None
       end;
     m_product.row_Status := domain.status p;
     m_product.row_CreatedAt := domain.createdAt p;
     m_product.row_UpdatedAt := domain.updatedAt p;
     m_product.row_ArchivedAt := domain.archivedAt p |}.

(** *** read_model_repo.go

    [client] is the [products] table the Spanner client reads, [clock]
    the instant its clock shows while the query runs. *)
Record ReadModelRepo : Type := mkReadModelRepo {
  client : list m_product.Product;
  clock : Time
}.

(** The effective price pair computed from a row, in [int64]. *)
Definition effectivePrice (r : ReadModelRepo) (dbProduct : m_product.Product)
  : Z * Z :=
  let EffectivePriceNum := m_product.row_BasePriceNumerator dbProduct in
  let EffectivePriceDenom := m_product.row_BasePriceDenominator dbProduct in
  match m_product.row_DiscountPercent dbProduct with
  | Some pct =>
      let now := clock r in
      match m_product.row_DiscountStartDate dbProduct,
            m_product.row_DiscountEndDate dbProduct with
      | Some startDate, Some endDate =>
          if negb (Before now startDate) && negb (After now endDate) then
            (wrap64 (m_product.row_BasePriceNumerator dbProduct
                     * wrap64 (100 - pct)),
             wrap64 (m_product.row_BasePriceDenominator dbProduct * 100))
          else (EffectivePriceNum, EffectivePriceDenom)
      | _, _ => (EffectivePriceNum, EffectivePriceDenom)
      end
  | None => (EffectivePriceNum, EffectivePriceDenom)
  end.

(** A row read with all columns of the table decodes without error. *)
Definition rowToReadModel (r : ReadModelRepo) (dbProduct : m_product.Product)
  : ProductReadModel :=
  let dates :=
    match m_product.row_DiscountPercent dbProduct,
          m_product.row_DiscountStartDate dbProduct,
          m_product.row_DiscountEndDate dbProduct with
    | Some _, Some startDate, Some endDate => (Some startDate, Some endDate)
    | _, _, _ => (None, None)
    end in
  {| ID := m_product.row_ProductID dbProduct;
     Name := m_product.row_Name dbProduct;
     Description := m_product.row_Description dbProduct;
     Category := m_product.row_Category dbProduct;
     BasePriceNumerator := m_product.row_BasePriceNumerator dbProduct;
     BasePriceDenominator := m_product.row_BasePriceDenominator dbProduct;
     EffectivePriceNum := fst (effectivePrice r dbProduct);
     EffectivePriceDenom := snd (effectivePrice r dbProduct);
     DiscountPercent := m_product.row_DiscountPercent dbProduct;
     DiscountStartDate := fst dates;
     DiscountEndDate := snd dates;
     Status := m_product.row_Status dbProduct;
     CreatedAt := m_product.row_CreatedAt dbProduct;
     UpdatedAt := m_product.row_UpdatedAt dbProduct;
     ArchivedAt := m_product.row_ArchivedAt dbProduct |}.

Definition List (r : ReadModelRepo) (filters : ProductListFilters)
    (pagination : Pagination) : option ProductListResult :=
  let query : list spanner.Cond := [] in
  let params : gmap string spanner.Param := ∅ in
  (* Apply filters *)
  let '(query, params) :=
    if filter_ActiveOnly filters then
      ((query ++ [spanner.ColEq m_product.Status "status"])%list,
       <["status" := spanner.PString domain.ProductStatusActive]> params)
    else
      match filter_Status filters with
      | Some st =>
          ((query ++ [spanner.ColEq m_product.Status "status"])%list,
           <["status" := spanner.PString st]> params)
      | None => (query, params)
      end in
  let '(query, params) :=
    match filter_Category filters with
    | Some cat =>
        if bool_decide (cat ≠ "") then
          ((query ++ [spanner.ColEq m_product.Category "category"])%list,
           <["category" := spanner.PString cat]> params)
        else (query, params)
    | None => (query, params)
    end in
  (* Exclude archived by default *)
  let query :=
    (query ++ [spanner.ColNe m_product.Status "archivedStatus"])%list in
  let params :=
    <["archivedStatus" := spanner.PString domain.ProductStatusArchived]>
      params in
  (* Count total *)
  let countQuery : list spanner.Cond := [] in
  let countQuery :=
    if filter_ActiveOnly filters then
      (countQuery ++ [spanner.ColEq m_product.Status "status"])%list
    else
      match filter_Status filters with
      | Some _ => (countQuery ++ [spanner.ColEq m_product.Status "status"])%list
      | None => countQuery
      end in
  let countQuery :=
    match filter_Category filters with
    | Some cat =>
        if bool_decide (cat ≠ "") then
          (countQuery ++ [spanner.ColEq m_product.Category "category"])%list
        else countQuery
    | None => countQuery
    end in
  let countQuery :=
    (countQuery ++ [spanner.ColNe m_product.Status "archivedStatus"])%list in
  let totalCount :=
    spanner.QueryCount (client r)
      {| spanner.Where := countQuery;
         spanner.Paged := false;
         spanner.Params := params |} in
  (* Add ordering and pagination *)
  let params := <["limit" := spanner.PInt64 (Limit pagination)]> params in
  let params := <["offset" := spanner.PInt64 (Offset pagination)]> params in
  let stmt := {| spanner.Where := query;
                 spanner.Paged := true;
                 spanner.Params := params |} in
  match spanner.Query (client r) stmt with
  | None => None
  | Some rows =>
      let products := rowToReadModel r <$> rows in
      let hasMore :=
        wrap64 (Offset pagination + Z.of_nat (length products))
        <? totalCount in
      Some {| Products := products;
              TotalCount := totalCount;
              HasMore := hasMore |}
  end.

(** [CountByCategory]: the count query returns its one row. *)
Definition CountByCategory (r : ReadModelRepo) (category : string) : Z :=
  let params : gmap string spanner.Param :=
    <["archivedStatus" := spanner.PString domain.ProductStatusArchived]>
    (<["category" := spanner.PString category]> ∅) in
  spanner.QueryCount (client r)
    {| spanner.Where :=
         [spanner.ColEq m_product.Category "category";
          spanner.ColNe m_product.Status "archivedStatus"];
       spanner.Paged := false;
       spanner.Params := params |}.

End repo.

(** ** package list_products (dto.go and the query handler) *)

Module list_products.

Record ProductListItemDTO : Type := mkProductListItemDTO {
  ID : string;
  Name : string;
  Description : string;
  Category : string;
  BasePriceNumerator : Z;
  BasePriceDenominator : Z;
  EffectivePriceNum : Z;
  EffectivePriceDenom : Z;
  DiscountPercent : option Z;
  Status : string;
  CreatedAt : Time
}.

Record ListResultDTO : Type := mkListResultDTO {
  Products : list ProductListItemDTO;
  TotalCount : Z;
  HasMore : bool
}.

(** [Limit] and [Offset] are Go [int]s; a limit left out of the request
    is 0. *)
Record Request : Type := mkRequest {
  req_Category : option string;
  req_Status : option string;
  req_ActiveOnly : bool;
  req_Limit : Z;
  req_Offset : Z
}.

Definition mapToListResult (result : contracts.ProductListResult)
  : ListResultDTO :=
  let products :=
    (fun p : contracts.ProductReadModel =>
       {| ID := contracts.ID p;
          Name := contracts.Name p;
          Description := contracts.Description p;
          Category := contracts.Category p;
          BasePriceNumerator := contracts.BasePriceNumerator p;
          BasePriceDenominator := contracts.BasePriceDenominator p;
          EffectivePriceNum := contracts.EffectivePriceNum p;
          EffectivePriceDenom := contracts.EffectivePriceDenom p;
          DiscountPercent := contracts.DiscountPercent p;
          Status := contracts.Status p;
          CreatedAt := contracts.CreatedAt p |})
    <$> contracts.Products result in
  {| Products := products;
     TotalCount := contracts.TotalCount result;
     HasMore := contracts.HasMore result |}.

(** The page size handed to the repository. *)
Definition pageLimit (limit : Z) : Z :=
  let limit := if limit <=? 0 then 20 else limit in
  let limit := if 100 <? limit then 100 else limit in
  limit.

Definition Execute (readModel : repo.ReadModelRepo) (req : Request)
  : option ListResultDTO :=
  let filters := {| contracts.filter_Category := req_Category req;
                    contracts.filter_Status := req_Status req;
                    contracts.filter_ActiveOnly := req_ActiveOnly req |} in
  let pagination := {| contracts.Limit := pageLimit (req_Limit req);
                       contracts.Offset := req_Offset req |} in
  match repo.List readModel filters pagination with
  | None => None
  | Some result => Some (mapToListResult result)
  end.

End list_products.

(** ** The write side of Cloud Spanner

    A mutation is what [spanner.InsertMap] and [spanner.UpdateMap]
    build: a table name and a map from column names to values.  The
    values are the Go values the code stores: strings, [int64],
    [time.Time], [spanner.NullNumeric] (kept as the integer it holds,
    see [m_product.Product]), [spanner.NullTime] and [spanner.NullJSON].
    A JSON payload is kept as the map that [json.Marshal] encodes; its
    values are strings, [int64], [time.Time] and [map[string]int64]. *)

Module json.

Inductive Value : Type :=
  | JString (s : string)
  | JInt64 (n : Z)
  | JTime (t : Time)
  | JInt64Map (m : gmap string Z).

Definition Object := gmap string Value.

End json.

Module mutation.

Inductive Value : Type :=
  | VString (s : string)
  | VInt64 (n : Z)
  | VTime (t : Time)
  | VNullNumeric (n : option Z)
  | VNullTime (t : option Time)
  | VNullJSON (doc : option json.Object).

Inductive Mutation : Type :=
  | InsertMap (table : string) (cols : gmap string Value)
  | UpdateMap (table : string) (cols : gmap string Value)
  | InsertOrUpdateMap (table : string) (cols : gmap string Value).

End mutation.

(** ** package m_product: the mutations of the model (data.go) *)

Module m_product_model.
Import mutation.

Definition columns (p : m_product.Product) : gmap string Value :=
  <[m_product.ProductID := VString (m_product.row_ProductID p)]>
  (<[m_product.Name := VString (m_product.row_Name p)]>
  (<[m_product.Description := VString (m_product.row_Description p)]>
  (<[m_product.Category := VString (m_product.row_Category p)]>
  (<[m_product.BasePriceNumerator :=
       VInt64 (m_product.row_BasePriceNumerator p)]>
  (<[m_product.BasePriceDenominator :=
       VInt64 (m_product.row_BasePriceDenominator p)]>
  (<[m_product.DiscountPercent :=
       VNullNumeric (m_product.row_DiscountPercent p)]>
  (<[m_product.DiscountStartDate :=
       VNullTime (m_product.row_DiscountStartDate p)]>
  (<[m_product.DiscountEndDate :=
       VNullTime (m_product.row_DiscountEndDate p)]>
  (<[m_product.Status := VString (m_product.row_Status p)]>
  (<[m_product.CreatedAt := VTime (m_product.row_CreatedAt p)]>
  (<[m_product.UpdatedAt := VTime (m_product.row_UpdatedAt p)]>
  (<[m_product.ArchivedAt := VNullTime (m_product.row_ArchivedAt p)]>
     ∅)))))))))))).

Definition InsertMut (p : m_product.Product) : Mutation :=
  InsertMap m_product.TableName (columns p).

Definition UpdateMut (productID : string) (updates : gmap string Value)
  : Mutation :=
  let updates := <[m_product.ProductID := VString productID]> updates in
  UpdateMap m_product.TableName updates.

Definition InsertOrUpdateMut (p : m_product.Product) : Mutation :=
  InsertOrUpdateMap m_product.TableName (columns p).

End m_product_model.

(** ** package m_outbox *)

Module m_outbox.
Import mutation.

Definition TableName : string := "outbox_events".
Definition EventID : string := "event_id".
Definition EventType : string := "event_type".
Definition AggregateID : string := "aggregate_id".
Definition Payload : string := "payload".
Definition Status : string := "status".
Definition CreatedAt : string := "created_at".
Definition ProcessedAt : string := "processed_at".

Definition StatusPending : string := "pending".
Definition StatusProcessed : string := "processed".
Definition StatusFailed : string := "failed".

Record OutboxEvent : Type := mkOutboxEvent {
  row_EventID : string;
  row_EventType : string;
  row_AggregateID : string;
  row_Payload : option json.Object;
  row_Status : string;
  row_CreatedAt : Time;
  row_ProcessedAt : option Time
}.

Definition InsertMut (e : OutboxEvent) : Mutation :=
  InsertMap TableName
    (<[EventID := VString (row_EventID e)]>
    (<[EventType := VString (row_EventType e)]>
    (<[AggregateID := VString (row_AggregateID e)]>
    (<[Payload := VNullJSON (row_Payload e)]>
    (<[Status := VString (row_Status e)]>
    (<[CreatedAt := VTime (row_CreatedAt e)]> ∅)))))).

(** [processedAt] is a pointer; [None] is nil. *)
Definition UpdateStatusMut (eventID status : string)
    (processedAt : option Time) : Mutation :=
  let updates : gmap string Value :=
    <[EventID := VString eventID]> (<[Status := VString status]> ∅) in
  let updates :=
    match processedAt with
    | Some t => <[ProcessedAt := VTime t]> updates
    | None => updates
    end in
  UpdateMap TableName updates.

Definition MarkProcessedMut (eventID : string) (processedAt : Time)
  : Mutation :=
  UpdateStatusMut eventID StatusProcessed (Some processedAt).

Definition MarkFailedMut (eventID : string) : Mutation :=
  UpdateStatusMut eventID StatusFailed None.

End m_outbox.

(** ** package repo, the write side (product_repo.go, outbox_repo.go) *)

Module product_repo.
Import mutation domain.

(** [InsertMut] and [UpdateMut] return a pointer; [None] is nil. *)
Definition InsertMut (product : Product) : option Mutation :=
  if negb (isNew product) then None
  else
    let dbProduct := repo.productToDBModel product in
    Some (m_product_model.InsertMut dbProduct).

Definition UpdateMut (product : Product) : option Mutation :=
  if isNew product then None
  else
    let changes := changes product in
    if negb (HasChanges changes) then None
    else
      let updates : gmap string Value := ∅ in
      let updates :=
        if Dirty changes FieldName then
          <[m_product.Name := VString (name product)]> updates
        else updates in
      let updates :=
        if Dirty changes FieldDescription then
          <[m_product.Description := VString (description product)]> updates
        else updates in
      let updates :=
        if Dirty changes FieldCategory then
          <[m_product.Category := VString (category product)]> updates
        else updates in
      let updates :=
        if Dirty changes FieldStatus then
          <[m_product.Status := VString (status product)]> updates
        else updates in
      let updates :=
        if Dirty changes FieldDiscount then
          match discount product with
          | Some d =>
              <[m_product.DiscountEndDate := VNullTime (Some (endDate d))]>
              (<[m_product.DiscountStartDate :=
                   VNullTime (Some (startDate d))]>
              (<[m_product.DiscountPercent :=
                   VNullNumeric (Some (percentage d))]> updates))
          | None =>
              <[m_product.DiscountEndDate := VNullTime None]>
              (<[m_product.DiscountStartDate := VNullTime None]>
              (<[m_product.DiscountPercent := VNullNumeric None]> updates))
          end
        else updates in
      let updates :=
        if Dirty changes FieldArchivedAt then
          match archivedAt product with
          | Some archivedAt =>
              <[m_product.ArchivedAt := VNullTime (Some archivedAt)]> updates
          | None => <[m_product.ArchivedAt := VNullTime None]> updates
          end
        else updates in
      if bool_decide (size updates = 0%nat) then None
      else
        let updates :=
          <[m_product.UpdatedAt := VTime (updatedAt product)]> updates in
        Some (m_product_model.UpdateMut (id product) updates).

(** A row read with all columns decodes without error; what can fail
    is the construction of the value objects. *)
Definition rowToProduct (row : m_product.Product) : result Product :=
  match NewMoney (m_product.row_BasePriceNumerator row)
          (m_product.row_BasePriceDenominator row) with
  | Err e => Err e
  | Ok basePrice =>
      let discount :=
        match m_product.row_DiscountPercent row,
              m_product.row_DiscountStartDate row,
              m_product.row_DiscountEndDate row with
        | Some percentage, Some startDate, Some endDate =>
            match NewDiscount percentage startDate endDate with
            | Ok d => Ok (Some d)
            | Err e => Err e
            end
        | _, _, _ => Ok None
        end in
      match discount with
      | Err e => Err e
      | Ok discount =>
          Ok (Reconstitute
                (m_product.row_ProductID row)
                (m_product.row_Name row)
                (m_product.row_Description row)
                (m_product.row_Category row)
                basePrice
                discount
                (m_product.row_Status row)
                (m_product.row_CreatedAt row)
                (m_product.row_UpdatedAt row)
                (m_product.row_ArchivedAt row))
      end
  end.

(** The [products] table by primary key; a missing key is Spanner's
    NotFound. *)
Definition GetByID (client : gmap string m_product.Product) (id : string)
  : result Product :=
  match client !! id with
  | None => Err ErrProductNotFound
  | Some row => rowToProduct row
  end.

End product_repo.

Module outbox_repo.
Import mutation domain.

(** contracts.OutboxEvent *)
Record OutboxEvent : Type := mkOutboxEvent {
  ID : string;
  EventType : string;
  AggregateID : string;
  Payload : json.Object;
  Status : string
}.

Record OutboxRepo : Type := mkOutboxRepo { clock : Time }.

(** The map [serializeEvent] hands to [json.Marshal], which cannot fail
    on these values. *)
Definition serializeEvent (event : DomainEvent) : json.Object :=
  let eventData : json.Object :=
    <["occurred_at" := json.JTime (domain.OccurredAt event)]>
    (<["aggregate_id" := json.JString (domain.AggregateID event)]>
    (<["event_type" := json.JString (domain.EventType event)]> ∅)) in
  match event with
  | ProductCreatedEvent _ _ Name Description Category BasePrice =>
      <["base_price" :=
          json.JInt64Map
            (<["denominator" := repo.Denominator BasePrice]>
            (<["numerator" := repo.Numerator BasePrice]> ∅))]>
      (<["category" := json.JString Category]>
      (<["description" := json.JString Description]>
      (<["name" := json.JString Name]> eventData)))
  | ProductUpdatedEvent _ _ Name Description Category =>
      <["category" := json.JString Category]>
      (<["description" := json.JString Description]>
      (<["name" := json.JString Name]> eventData))
  | ProductActivatedEvent _ _ => eventData
  | ProductDeactivatedEvent _ _ => eventData
  | ProductArchivedEvent _ _ => eventData
  | DiscountAppliedEvent _ _ Percentage StartDate EndDate =>
      <["end_date" := json.JTime EndDate]>
      (<["start_date" := json.JTime StartDate]>
      (<["percentage" := json.JInt64 Percentage]> eventData))
  | DiscountRemovedEvent _ _ => eventData
  end.

Definition InsertMut (r : OutboxRepo) (event : OutboxEvent) : Mutation :=
  let dbEvent :=
    {| m_outbox.row_EventID := ID event;
       m_outbox.row_EventType := EventType event;
       m_outbox.row_AggregateID := AggregateID event;
       m_outbox.row_Payload := Some (Payload event);
       m_outbox.row_Status := Status event;
       m_outbox.row_CreatedAt := clock r;
       m_outbox.row_ProcessedAt := None |} in
  m_outbox.InsertMut dbEvent.

(** [uuid] is the identifier [uuid.New()] draws for this event. *)
Definition InsertFromDomainEventMut (r : OutboxRepo) (event : DomainEvent)
    (uuid : string) : Mutation :=
  let payload := serializeEvent event in
  let outboxEvent :=
    {| ID := uuid;
       EventType := domain.EventType event;
       AggregateID := domain.AggregateID event;
       Payload := payload;
       Status := m_outbox.StatusPending |} in
  InsertMut r outboxEvent.

End outbox_repo.

(** ** The database, as the server applies mutations to it

    The two tables by primary key.  An insert needs every column the
    code writes, with a value of the column's type, and a key that is
    not taken; an update needs an existing key and changes the columns
    it names; a mutation on another table, with another column or with a
    value of the wrong type is refused.  A list of mutations is applied
    as a whole or not at all. *)

Module storage.
Import mutation.

Record DB : Type := mkDB {
  products : gmap string m_product.Product;
  outbox_events : gmap string m_outbox.OutboxEvent
}.

(** The value of a column after an update: the old value when the
    update does not name the column, [None] on a value of another
    type. *)
Definition newString (cols : gmap string Value) (col : string)
    (old : string) : option string :=
  match cols !! col with
  | None => Some old
  | Some (VString s) => Some s
  | Some _ => None
  end.

Definition newInt64 (cols : gmap string Value) (col : string) (old : Z)
  : option Z :=
  match cols !! col with
  | None => Some old
  | Some (VInt64 n) => Some n
  | Some _ => None
  end.

Definition newTime (cols : gmap string Value) (col : string) (old : Time)
  : option Time :=
  match cols !! col with
  | None => Some old
  | Some (VTime t) => Some t
  | Some _ => None
  end.

Definition newNullNumeric (cols : gmap string Value) (col : string)
    (old : option Z) : option (option Z) :=
  match cols !! col with
  | None => Some old
  | Some (VNullNumeric n) => Some n
  | Some _ => None
  end.

Definition newNullTime (cols : gmap string Value) (col : string)
    (old : option Time) : option (option Time) :=
  match cols !! col with
  | None => Some old
  | Some (VNullTime t) => Some t
  | Some (VTime t) => Some (Some t)
  | Some _ => None
  end.

Definition newNullJSON (cols : gmap string Value) (col : string)
    (old : option json.Object) : option (option json.Object) :=
  match cols !! col with
  | None => Some old
  | Some (VNullJSON d) => Some d
  | Some _ => None
  end.

Definition productColumns : gset string :=
  {[ m_product.ProductID; m_product.Name; m_product.Description;
     m_product.Category; m_product.BasePriceNumerator;
     m_product.BasePriceDenominator; m_product.DiscountPercent;
     m_product.DiscountStartDate; m_product.DiscountEndDate;
     m_product.Status; m_product.CreatedAt; m_product.UpdatedAt;
     m_product.ArchivedAt ]}.

Definition outboxColumns : gset string :=
  {[ m_outbox.EventID; m_outbox.EventType; m_outbox.AggregateID;
     m_outbox.Payload; m_outbox.Status; m_outbox.CreatedAt;
     m_outbox.ProcessedAt ]}.

(** The row [old] with the columns of [cols] written over it. *)
Definition updateProduct (cols : gmap string Value) (old : m_product.Product)
  : option m_product.Product :=
  if negb (bool_decide (dom cols ⊆ productColumns)) then None
  else
    id ← newString cols m_product.ProductID (m_product.row_ProductID old);
    name ← newString cols m_product.Name (m_product.row_Name old);
    description ←
      newString cols m_product.Description (m_product.row_Description old);
    category ←
      newString cols m_product.Category (m_product.row_Category old);
    num ←
      newInt64 cols m_product.BasePriceNumerator
        (m_product.row_BasePriceNumerator old);
    den ←
      newInt64 cols m_product.BasePriceDenominator
        (m_product.row_BasePriceDenominator old);
    pct ←
      newNullNumeric cols m_product.DiscountPercent
        (m_product.row_DiscountPercent old);
    ds ←
      newNullTime cols m_product.DiscountStartDate
        (m_product.row_DiscountStartDate old);
    de ←
      newNullTime cols m_product.DiscountEndDate
        (m_product.row_DiscountEndDate old);
    status ← newString cols m_product.Status (m_product.row_Status old);
    created ←
      newTime cols m_product.CreatedAt (m_product.row_CreatedAt old);
    updated ←
      newTime cols m_product.UpdatedAt (m_product.row_UpdatedAt old);
    archived ←
      newNullTime cols m_product.ArchivedAt (m_product.row_ArchivedAt old);
    Some (m_product.mkProduct id name description category num den pct ds de
            status created updated archived).

(** A column an insert must give. *)
Definition required (cols : gmap string Value) (required : list string)
  : bool :=
  forallb (fun c => bool_decide (is_Some (cols !! c))) required.

Definition insertProduct (cols : gmap string Value)
  : option m_product.Product :=
  if negb (required cols
             [m_product.ProductID; m_product.Name; m_product.Description;
              m_product.Category; m_product.BasePriceNumerator;
              m_product.BasePriceDenominator; m_product.Status;
              m_product.CreatedAt; m_product.UpdatedAt]) then None
  else
    updateProduct cols
      (m_product.mkProduct "" "" "" "" 0 0 None None None "" 0 0 None).

Definition updateOutbox (cols : gmap string Value)
    (old : m_outbox.OutboxEvent) : option m_outbox.OutboxEvent :=
  if negb (bool_decide (dom cols ⊆ outboxColumns)) then None
  else
    id ← newString cols m_outbox.EventID (m_outbox.row_EventID old);
    type ← newString cols m_outbox.EventType (m_outbox.row_EventType old);
    aggregate ←
      newString cols m_outbox.AggregateID (m_outbox.row_AggregateID old);
    payload ← newNullJSON cols m_outbox.Payload (m_outbox.row_Payload old);
    status ← newString cols m_outbox.Status (m_outbox.row_Status old);
    created ← newTime cols m_outbox.CreatedAt (m_outbox.row_CreatedAt old);
    processed ←
      newNullTime cols m_outbox.ProcessedAt (m_outbox.row_ProcessedAt old);
    Some (m_outbox.mkOutboxEvent id type aggregate payload status created
            processed).

Definition insertOutbox (cols : gmap string Value)
  : option m_outbox.OutboxEvent :=
  if negb (required cols
             [m_outbox.EventID; m_outbox.EventType; m_outbox.AggregateID;
              m_outbox.Payload; m_outbox.Status; m_outbox.CreatedAt])
  then None
  else updateOutbox cols (m_outbox.mkOutboxEvent "" "" "" None "" 0 None).

(** The primary key a mutation names. *)
Definition key (cols : gmap string Value) (col : string) : option string :=
  match cols !! col with
  | Some (VString k) => Some k
  | _ => None
  end.

Definition apply1 (db : DB) (m : Mutation) : option DB :=
  match m with
  | InsertMap table cols =>
      if bool_decide (table = m_product.TableName) then
        k ← key cols m_product.ProductID;
        row ← insertProduct cols;
        match products db !! k with
        | Some _ => None
        | None => Some (mkDB (<[k := row]> (products db)) (outbox_events db))
        end
      else if bool_decide (table = m_outbox.TableName) then
        k ← key cols m_outbox.EventID;
        row ← insertOutbox cols;
        match outbox_events db !! k with
        | Some _ => None
        | None => Some (mkDB (products db) (<[k := row]> (outbox_events db)))
        end
      else None
  | UpdateMap table cols =>
      if bool_decide (table = m_product.TableName) then
        k ← key cols m_product.ProductID;
        old ← products db !! k;
        row ← updateProduct cols old;
        Some (mkDB (<[k := row]> (products db)) (outbox_events db))
      else if bool_decide (table = m_outbox.TableName) then
        k ← key cols m_outbox.EventID;
        old ← outbox_events db !! k;
        row ← updateOutbox cols old;
        Some (mkDB (products db) (<[k := row]> (outbox_events db)))
      else None
  | InsertOrUpdateMap table cols =>
      if bool_decide (table = m_product.TableName) then
        k ← key cols m_product.ProductID;
        row ← match products db !! k with
              | Some old => updateProduct cols old
              | None => insertProduct cols
              end;
        Some (mkDB (<[k := row]> (products db)) (outbox_events db))
      else if bool_decide (table = m_outbox.TableName) then
        k ← key cols m_outbox.EventID;
        row ← match outbox_events db !! k with
              | Some old => updateOutbox cols old
              | None => insertOutbox cols
              end;
        Some (mkDB (products db) (<[k := row]> (outbox_events db)))
      else None
  end.

(** [client.Apply(ctx, mutations)]: all of them, in order, or none. *)
Fixpoint Apply (db : DB) (ms : list Mutation) : option DB :=
  match ms with
  | [] => Some db
  | m :: ms =>
      match apply1 db m with
      | Some db => Apply db ms
      | None => None
      end
  end.

End storage.

(** ** package committer *)

Module committer.
Import mutation.

Record CommitPlan : Type := mkCommitPlan { mutations : list Mutation }.

Definition NewPlan : CommitPlan := {| mutations := [] |}.

(** [m] is a pointer; [None] is nil. *)
Definition Add (p : CommitPlan) (m : option Mutation) : CommitPlan :=
  match m with
  | Some m => {| mutations := (mutations p ++ [m])%list |}
  | None => p
  end.

Definition AddAll (p : CommitPlan) (ms : list (option Mutation))
  : CommitPlan :=
  fold_left Add ms p.

Definition Mutations (p : CommitPlan) : list Mutation := mutations p.

Definition IsEmpty (p : CommitPlan) : bool :=
  bool_decide (length (mutations p) = 0%nat).

Definition Count (p : CommitPlan) : nat := length (mutations p).

(** An error of a use case: a sentinel of the domain, or whatever the
    Spanner client returns. *)
Inductive error : Type :=
  | Domain (e : domain.error)
  | Spanner.

(** [SpannerCommitter.Apply], on the database it is connected to. *)
Definition Apply (client : storage.DB) (plan : CommitPlan)
  : storage.DB * option error :=
  if IsEmpty plan then (client, None)
  else
    match storage.Apply client (Mutations plan) with
    | Some db => (db, None)
    | None => (client, Some Spanner)
    end.

End committer.

(** ** package usecases

    An interactor works on the database its repositories and committer
    are connected to; [clock] is the instant its clock shows during the
    command and [uuid k] the k-th identifier [uuid.New()] draws. *)

Module usecases.
Import domain committer.

Record Interactor : Type := mkInteractor {
  clock : Time;
  uuid : nat -> string
}.

(** The loop over [product.DomainEvents()]: one outbox insert per
    event, in order, each with its own identifier. *)
Fixpoint addEvents (it : Interactor) (first : nat) (plan : CommitPlan)
    (events : list DomainEvent) : CommitPlan :=
  match events with
  | [] => plan
  | event :: events =>
      let outboxMut :=
        outbox_repo.InsertFromDomainEventMut
          {| outbox_repo.clock := clock it |} event (uuid it first) in
      let plan := Add plan (Some outboxMut) in
      addEvents it (S first) plan events
  end.

(** Steps 3 to 6 of the commands that change a loaded product. *)
Definition commitUpdate (it : Interactor) (db : storage.DB)
    (product : Product) : storage.DB * option error :=
  let plan := NewPlan in
  let plan :=
    match product_repo.UpdateMut product with
    | Some mut => Add plan (Some mut)
    | None => plan
    end in
  let plan := addEvents it 0 plan (events product) in
  Apply db plan.

Record CreateRequest : Type := mkCreateRequest {
  create_Name : string;
  create_Description : string;
  create_Category : string;
  create_BasePriceNumerator : Z;
  create_BasePriceDenominator : Z
}.

(** create_product: the id of the new product and the error. *)
Definition create_product (it : Interactor) (db : storage.DB)
    (req : CreateRequest) : storage.DB * (string * option error) :=
  match NewMoney (create_BasePriceNumerator req)
          (create_BasePriceDenominator req) with
  | Err e => (db, ("", Some (Domain e)))
  | Ok basePrice =>
      let productID := uuid it 0 in
      match NewProduct productID (create_Name req) (create_Description req)
              (create_Category req) (Some basePrice) (clock it) with
      | Err e => (db, ("", Some (Domain e)))
      | Ok product =>
          let plan := NewPlan in
          let plan :=
            match product_repo.InsertMut product with
            | Some mut => Add plan (Some mut)
            | None => plan
            end in
          let plan := addEvents it 1 plan (events product) in
          match Apply db plan with
          | (db, Some err) => (db, ("", Some err))
          | (db, None) => (db, (id product, None))
          end
      end
  end.

Record UpdateRequest : Type := mkUpdateRequest {
  update_ProductID : string;
  update_Name : string;
  update_Description : string;
  update_Category : string
}.

Definition update_product (it : Interactor) (db : storage.DB)
    (req : UpdateRequest) : storage.DB * option error :=
  match product_repo.GetByID (storage.products db) (update_ProductID req)
  with
  | Err e => (db, Some (Domain e))
  | Ok product =>
      match Update product (update_Name req) (update_Description req)
              (update_Category req) (clock it) with
      | (_, Some e) => (db, Some (Domain e))
      | (product, None) => commitUpdate it db product
      end
  end.

Definition deactivate_product (it : Interactor) (db : storage.DB)
    (ProductID : string) : storage.DB * option error :=
  match product_repo.GetByID (storage.products db) ProductID with
  | Err e => (db, Some (Domain e))
  | Ok product =>
      match Deactivate product (clock it) with
      | (_, Some e) => (db, Some (Domain e))
      | (product, None) => commitUpdate it db product
      end
  end.

Definition remove_discount (it : Interactor) (db : storage.DB)
    (ProductID : string) : storage.DB * option error :=
  match product_repo.GetByID (storage.products db) ProductID with
  | Err e => (db, Some (Domain e))
  | Ok product =>
      match RemoveDiscount product (clock it) with
      | (_, Some e) => (db, Some (Domain e))
      | (product, None) => commitUpdate it db product
      end
  end.

Record ApplyDiscountRequest : Type := mkApplyDiscountRequest {
  apply_ProductID : string;
  apply_Percentage : Z;
  apply_StartDate : Time;
  apply_EndDate : Time
}.

Definition apply_discount (it : Interactor) (db : storage.DB)
    (req : ApplyDiscountRequest) : storage.DB * option error :=
  match product_repo.GetByID (storage.products db) (apply_ProductID req)
  with
  | Err e => (db, Some (Domain e))
  | Ok product =>
      match NewDiscount (apply_Percentage req) (apply_StartDate req)
              (apply_EndDate req) with
      | Err e => (db, Some (Domain e))
      | Ok discount =>
          match ApplyDiscount product discount (clock it) with
          | (_, Some e) => (db, Some (Domain e))
          | (product, None) => commitUpdate it db product
          end
      end
  end.

End usecases.

(** ** google.golang.org/grpc/codes: the four codes the handler uses *)

Module codes.

Inductive Code : Set :=
  | NotFound
  | InvalidArgument
  | FailedPrecondition
  | Internal.

End codes.

(** ** proto/product/v1: the messages of CreateProduct

    A message field that is not set is the nil pointer, [None]; a
    getter on nil returns the zero value. *)

Module pb.

Record Money : Type := mkMoney {
  Numerator : Z;
  Denominator : Z
}.

Record CreateProductRequest : Type := mkCreateProductRequest {
  Name : string;
  Description : string;
  Category : string;
  BasePrice : option Money
}.

Record CreateProductReply : Type := mkCreateProductReply {
  ProductId : string
}.

Definition GetNumerator (m : option Money) : Z :=
  match m with
  | Some m => Numerator m
  | None => 0
  end.

Definition GetDenominator (m : option Money) : Z :=
  match m with
  | Some m => Denominator m
  | None => 0
  end.

End pb.

(** ** package product (transport/grpc): validation, mapping, errors,
    and the CreateProduct handler *)

Module product.
Import domain.

#[global] Instance error_eq_dec : EqDecision domain.error.
Proof. solve_decision. Defined.

#[global] Instance committer_error_eq_dec : EqDecision committer.error.
Proof. solve_decision. Defined.

Inductive ValidationError : Set :=
  | ErrMissingProductID
  | ErrMissingName
  | ErrMissingCategory
  | ErrMissingBasePrice
  | ErrInvalidPercentage
  | ErrMissingStartDate
  | ErrMissingEndDate
  | ErrInvalidDenominator
  | ErrInvalidNumerator.

Definition validateCreateRequest (req : pb.CreateProductRequest)
  : option ValidationError :=
  if bool_decide (pb.Name req = "") then Some ErrMissingName
  else if bool_decide (pb.Category req = "") then Some ErrMissingCategory
  else if bool_decide (pb.BasePrice req = None) then Some ErrMissingBasePrice
  else if pb.GetDenominator (pb.BasePrice req) <=? 0 then
    Some ErrInvalidDenominator
  else if pb.GetNumerator (pb.BasePrice req) <=? 0 then
    Some ErrInvalidNumerator
  else None.

Definition mapToCreateProductRequest (req : pb.CreateProductRequest)
  : usecases.CreateRequest :=
  let '(num, denom) :=
    match pb.BasePrice req with
    | Some _ =>
        let num := pb.GetNumerator (pb.BasePrice req) in
        let denom := pb.GetDenominator (pb.BasePrice req) in
        let denom := if denom =? 0 then 1 else denom in
        (num, denom)
    | None => (0, 1)
    end in
  {| usecases.create_Name := pb.Name req;
     usecases.create_Description := pb.Description req;
     usecases.create_Category := pb.Category req;
     usecases.create_BasePriceNumerator := num;
     usecases.create_BasePriceDenominator := denom |}.

Definition validationErrors : list domain.error :=
  [ErrEmptyProductName; ErrEmptyCategory; ErrInvalidProductStatus;
   ErrProductNameTooLong; ErrCategoryTooLong; ErrInvalidMoney;
   ErrNegativeMoney; ErrZeroPrice; ErrInvalidDiscountPercentage;
   ErrInvalidDiscountPeriod].

Definition businessErrors : list domain.error :=
  [ErrProductNotActive; ErrProductAlreadyActive; ErrProductArchived;
   ErrProductInactive; ErrDiscountNotActive; ErrDiscountAlreadyExists;
   ErrNoDiscountToRemove; ErrDiscountExpired; ErrDiscountNotStarted;
   ErrCannotActivateArchived; ErrCannotDeactivateArchived;
   ErrCannotArchiveActive; ErrCannotUpdateArchived].

(** [errors.Is(err, target)] for a sentinel [target]. *)
Definition Is (err : committer.error) (target : domain.error) : bool :=
  bool_decide (err = committer.Domain target).

(** The code of the status [mapDomainErrorToGRPC] returns; [None] is
    nil. *)
Definition mapDomainErrorToGRPC (err : option committer.error)
  : option codes.Code :=
  match err with
  | None => None
  | Some err =>
      if Is err ErrProductNotFound then Some codes.NotFound
      else if existsb (Is err) validationErrors then
        Some codes.InvalidArgument
      else if existsb (Is err) businessErrors then
        Some codes.FailedPrecondition
      else Some codes.Internal
  end.

(** [Handler.CreateProduct]: the database after the call, the reply
    and the code of the status. *)
Definition CreateProduct (it : usecases.Interactor) (db : storage.DB)
    (req : pb.CreateProductRequest)
  : storage.DB * (option pb.CreateProductReply * option codes.Code) :=
  match validateCreateRequest req with
  | Some _ => (db, (None, Some codes.InvalidArgument))
  | None =>
      let appReq := mapToCreateProductRequest req in
      match usecases.create_product it db appReq with
      | (db, (_, Some err)) => (db, (None, mapDomainErrorToGRPC (Some err)))
      | (db, (productID, None)) =>
          (db, (Some {| pb.ProductId := productID |}, None))
      end
  end.

End product.

(** ** Vocabulary of the specification *)

Module spec.
Import domain.

(** The state machine of section 4.3: Draft to Active or Archived,
    Active to Inactive, Inactive to Active or Archived, nothing out of
    Archived. *)
Inductive transition : ProductStatus -> ProductStatus -> Prop :=
  | draft_active : transition ProductStatusDraft ProductStatusActive
  | draft_archived : transition ProductStatusDraft ProductStatusArchived
  | active_inactive : transition ProductStatusActive ProductStatusInactive
  | inactive_active : transition ProductStatusInactive ProductStatusActive
  | inactive_archived :
      transition ProductStatusInactive ProductStatusArchived.

(** One call of a mutating method of the aggregate. *)
Inductive Op : Type :=
  | OpUpdate (name description category : string) (now : Time)
  | OpActivate (now : Time)
  | OpDeactivate (now : Time)
  | OpArchive (now : Time)
  | OpApplyDiscount (d : Discount) (now : Time)
  | OpRemoveDiscount (now : Time).

Definition call (p : Product) (op : Op) : Product * option error :=
  match op with
  | OpUpdate n d c now => Update p n d c now
  | OpActivate now => Activate p now
  | OpDeactivate now => Deactivate p now
  | OpArchive now => Archive p now
  | OpApplyDiscount d now => ApplyDiscount p d now
  | OpRemoveDiscount now => RemoveDiscount p now
  end.

(** A finite sequence of calls on the same aggregate; a call that
    returns an error is followed by the next one all the same. *)
Definition run (p : Product) (ops : list Op) : Product :=
  fold_left (fun p op => fst (call p op)) ops p.

(** [archivedAt] is set exactly when the status is Archived. *)
Definition archived_inv (p : Product) : Prop :=
  is_Some (archivedAt p) <-> status p = ProductStatusArchived.


(** The rows the WHERE clause of [List] selects for a filter, as a
    predicate on rows: the status filter (the active-only shortcut
    first), the category filter (an empty category is no filter), and
    the exclusion of archived rows. *)
Definition matches (f : contracts.ProductListFilters)
    (r : m_product.Product) : bool :=
  (if contracts.filter_ActiveOnly f then
     bool_decide (m_product.row_Status r = ProductStatusActive)
   else
     match contracts.filter_Status f with
     | Some st => bool_decide (m_product.row_Status r = st)
     | None => true
     end)
  && match contracts.filter_Category f with
     | Some cat =>
         if bool_decide (cat ≠ "") then
           bool_decide (m_product.row_Category r = cat)
         else true
     | None => true
     end
  && bool_decide (m_product.row_Status r ≠ ProductStatusArchived).

Definition filtersOf (req : list_products.Request)
  : contracts.ProductListFilters :=
  {| contracts.filter_Category := list_products.req_Category req;
     contracts.filter_Status := list_products.req_Status req;
     contracts.filter_ActiveOnly := list_products.req_ActiveOnly req |}.

(** The page of a request: the matching rows newest first, without the
    first [offset] ones, cut at [limit]. *)
Definition page (table : list m_product.Product)
    (f : contracts.ProductListFilters) (limit offset : Z)
  : list m_product.Product :=
  take (Z.to_nat limit)
    (drop (Z.to_nat offset)
       (merge_sort spanner.newer_first (List.filter (matches f) table))).

(** A change tracker as the code builds it: created empty, then marked
    field by field. *)
Definition marks (fields : list string) : ChangeTracker :=
  fold_left MarkDirty fields NewChangeTracker.

(** The time passed to a call, and the type of the event the method
    records. *)
Definition op_time (op : Op) : Time :=
  match op with
  | OpUpdate _ _ _ now => now
  | OpActivate now => now
  | OpDeactivate now => now
  | OpArchive now => now
  | OpApplyDiscount _ now => now
  | OpRemoveDiscount now => now
  end.

Definition op_event (op : Op) : string :=
  match op with
  | OpUpdate _ _ _ _ => "product.updated"
  | OpActivate _ => "product.activated"
  | OpDeactivate _ => "product.deactivated"
  | OpArchive _ => "product.archived"
  | OpApplyDiscount _ _ => "product.discount_applied"
  | OpRemoveDiscount _ => "product.discount_removed"
  end.

(** An [Update] with the values the product already has. *)
Definition same_values (p : Product) (op : Op) : bool :=
  match op with
  | OpUpdate n d c _ =>
      bool_decide (name p = n /\ description p = d /\ category p = c)
  | _ => false
  end.

(** The constraints [NewProduct] and [Update] check on a name and a
    category. *)
Definition valid_name (s : string) : Prop :=
  s <> "" /\ (String.length s <= MaxProductNameLength)%nat.
Definition valid_category (s : string) : Prop :=
  s <> "" /\ (String.length s <= MaxCategoryLength)%nat.

(** The aggregate as it is read back from storage: the persistent
    fields of [p], a clean change tracker, no events, not new. *)
Definition persistent (p : Product) : Product :=
  Reconstitute (id p) (name p) (description p) (category p) (basePrice p)
    (discount p) (status p) (createdAt p) (updatedAt p) (archivedAt p).

(** What the update mutation of [p], if there is one, makes of the
    stored row. *)
Definition written (row : m_product.Product) (p : Product)
  : option m_product.Product :=
  match product_repo.UpdateMut p with
  | None => Some row
  | Some (mutation.UpdateMap _ cols) => storage.updateProduct cols row
  | Some _ => None
  end.

(** The six fields of the aggregate that [UpdateMut] writes. *)
Definition persisted_fields : list string :=
  [FieldName; FieldDescription; FieldCategory; FieldStatus; FieldDiscount;
   FieldArchivedAt].

(** Whether one of the six is dirty. *)
Definition modified (p : Product) : bool :=
  existsb (Dirty (changes p)) persisted_fields.

(** The stored row [row] once the changes of [p] are written over it:
    the key and [updated_at] of [p] and the columns of each dirty field,
    when a field is dirty; [row] as it is otherwise. *)
Definition stored (row : m_product.Product) (p : Product)
  : m_product.Product :=
  if modified p then
    {| m_product.row_ProductID := id p;
       m_product.row_Name :=
         if Dirty (changes p) FieldName then name p
         else m_product.row_Name row;
       m_product.row_Description :=
         if Dirty (changes p) FieldDescription then description p
         else m_product.row_Description row;
       m_product.row_Category :=
         if Dirty (changes p) FieldCategory then category p
         else m_product.row_Category row;
       m_product.row_BasePriceNumerator :=
         m_product.row_BasePriceNumerator row;
       m_product.row_BasePriceDenominator :=
         m_product.row_BasePriceDenominator row;
       m_product.row_DiscountPercent :=
         if Dirty (changes p) FieldDiscount then percentage <$> discount p
         else m_product.row_DiscountPercent row;
       m_product.row_DiscountStartDate :=
         if Dirty (changes p) FieldDiscount then startDate <$> discount p
         else m_product.row_DiscountStartDate row;
       m_product.row_DiscountEndDate :=
         if Dirty (changes p) FieldDiscount then endDate <$> discount p
         else m_product.row_DiscountEndDate row;
       m_product.row_Status :=
         if Dirty (changes p) FieldStatus then status p
         else m_product.row_Status row;
       m_product.row_CreatedAt := m_product.row_CreatedAt row;
       m_product.row_UpdatedAt := updatedAt p;
       m_product.row_ArchivedAt :=
         if Dirty (changes p) FieldArchivedAt then archivedAt p
         else m_product.row_ArchivedAt row |}
  else row.

(** A discount as [NewDiscount] accepts it, and a sequence of calls
    that applies only such discounts (the use case builds the discount
    with [NewDiscount] before it calls [ApplyDiscount]). *)
Definition valid_discount (d : Discount) : Prop :=
  1 <= percentage d <= 100 /\ startDate d <= endDate d.

Definition valid_ops (ops : list Op) : Prop :=
  forall d now, OpApplyDiscount d now ∈ ops -> valid_discount d.

(** The commands on an existing product, and the use case that runs
    each. *)
Inductive Command : Type :=
  | CmdUpdate (req : usecases.UpdateRequest)
  | CmdDeactivate (ProductID : string)
  | CmdRemoveDiscount (ProductID : string)
  | CmdApplyDiscount (req : usecases.ApplyDiscountRequest).

Definition execute (it : usecases.Interactor) (db : storage.DB)
    (cmd : Command) : storage.DB * option committer.error :=
  match cmd with
  | CmdUpdate req => usecases.update_product it db req
  | CmdDeactivate k => usecases.deactivate_product it db k
  | CmdRemoveDiscount k => usecases.remove_discount it db k
  | CmdApplyDiscount req => usecases.apply_discount it db req
  end.

(** The product a command is about. *)
Definition target (cmd : Command) : string :=
  match cmd with
  | CmdUpdate req => usecases.update_ProductID req
  | CmdDeactivate k => k
  | CmdRemoveDiscount k => k
  | CmdApplyDiscount req => usecases.apply_ProductID req
  end.

(** The call a command makes on the aggregate, when it gets that far
    (applying a discount does not when [NewDiscount] refuses it). *)
Definition call_of (it : usecases.Interactor) (cmd : Command)
  : result Op :=
  match cmd with
  | CmdUpdate req =>
      Ok (OpUpdate (usecases.update_Name req)
            (usecases.update_Description req)
            (usecases.update_Category req) (usecases.clock it))
  | CmdDeactivate _ => Ok (OpDeactivate (usecases.clock it))
  | CmdRemoveDiscount _ => Ok (OpRemoveDiscount (usecases.clock it))
  | CmdApplyDiscount req =>
      match NewDiscount (usecases.apply_Percentage req)
              (usecases.apply_StartDate req) (usecases.apply_EndDate req)
      with
      | Ok d => Ok (OpApplyDiscount d (usecases.clock it))
      | Err e => Err e
      end
  end.

(** The outbox row written for an event. *)
Definition outbox_row (it : usecases.Interactor) (k : nat)
    (e : DomainEvent) : m_outbox.OutboxEvent :=
  {| m_outbox.row_EventID := usecases.uuid it k;
     m_outbox.row_EventType := EventType e;
     m_outbox.row_AggregateID := AggregateID e;
     m_outbox.row_Payload := Some (outbox_repo.serializeEvent e);
     m_outbox.row_Status := m_outbox.StatusPending;
     m_outbox.row_CreatedAt := usecases.clock it;
     m_outbox.row_ProcessedAt := None |}.



(** *** Sample data *)

Definition price_19_99 : Money := {| amount := big.NewRat 1999 100 |}.

Definition laptop : Product :=
  {| id := "p-1";
     name := "Laptop";
     description := "High-performance laptop";
     category := "Electronics";
     basePrice := price_19_99;
     discount := None;
     status := ProductStatusDraft;
     createdAt := 1000;
     updatedAt := 1000;
     archivedAt := None;
     changes := NewChangeTracker;
     events := [NewProductCreatedEvent "p-1" "Laptop"
                  "High-performance laptop" "Electronics" price_19_99 1000];
     isNew := true |}.

Definition twenty_percent : Discount :=
  {| percentage := 20; startDate := 2000; endDate := 3000 |}.

(** A base price of 2 * 10^17, and the same product once activated and
    discounted by 20 percent. *)
Definition huge_price : Money :=
  {| amount := big.NewRat 200000000000000000 1 |}.

Definition huge_discounted : Product :=
  Reconstitute "p-2" "Tower" "" "Real estate" huge_price
    (Some twenty_percent) ProductStatusActive 1000 2000 None.

Definition row (id status category : string) (created : Time)
  : m_product.Product :=
  {| m_product.row_ProductID := id;
     m_product.row_Name := "item";
     m_product.row_Description := "";
     m_product.row_Category := category;
     m_product.row_BasePriceNumerator := 1999;
     m_product.row_BasePriceDenominator := 100;
     m_product.row_DiscountPercent := None;
     m_product.row_DiscountStartDate := None;
     m_product.row_DiscountEndDate := None;
     m_product.row_Status := status;
     m_product.row_CreatedAt := created;
     m_product.row_UpdatedAt := created;
     m_product.row_ArchivedAt :=
       if bool_decide (status = ProductStatusArchived) then Some created
       else None |}.

(** Three active, one inactive and one archived product of one
    category. *)
Definition catalog : repo.ReadModelRepo :=
  {| repo.client := [ row "a" "active" "books" 1;
                      row "b" "active" "books" 2;
                      row "c" "inactive" "books" 3;
                      row "d" "archived" "books" 4;
                      row "e" "active" "books" 5 ];
     repo.clock := 10 |}.

(** A database with two of these products and no outbox rows, and an
    interactor whose clock shows 2500. *)
Definition shop : storage.DB :=
  {| storage.products :=
       <["a" := row "a" "active" "books" 1]>
       (<["c" := row "c" "inactive" "books" 3]> ∅);
     storage.outbox_events := ∅ |}.

Definition desk : usecases.Interactor :=
  {| usecases.clock := 2500;
     usecases.uuid :=
       fun k => if bool_decide (k = 0%nat) then "u-0" else "u-1" |}.

End spec.

(** * Properties *)

(** ** Rationals *)

Section RatFacts.
Local Open Scope Qc_scope.

Lemma this_NewRat a b :
  (this (big.NewRat a b) == inject_Z a / inject_Z b)%Q.
Proof. unfold big.NewRat. simpl. apply Qred_correct. Qed.

Lemma this_Mul x y : (this (big.Mul x y) == this x * this y)%Q.
Proof. unfold big.Mul. simpl. apply Qred_correct. Qed.

Lemma this_Sub x y : (this (big.Sub x y) == this x - this y)%Q.
Proof.
  unfold big.Sub, Qcminus, Qcplus, Qcopp. simpl.
  rewrite !Qred_correct. reflexivity.
Qed.

Lemma Sign_neg (x : Qc) : (big.Sign x <? 0)%Z = true <-> x < 0.
Proof.
  unfold big.Sign, Qclt, Qlt. simpl. rewrite Z.ltb_lt.
  destruct (Qnum (this x)); simpl; lia.
Qed.

Lemma Sign_nonneg (x : Qc) : (big.Sign x <? 0)%Z = false <-> 0 <= x.
Proof.
  unfold big.Sign, Qcle, Qle. simpl. rewrite Z.ltb_ge.
  destruct (Qnum (this x)); simpl; lia.
Qed.

Lemma Sign_zero (x : Qc) : (big.Sign x =? 0)%Z = true <-> x = 0.
Proof.
  unfold big.Sign. rewrite Z.eqb_eq. split.
  - intros H. apply Qc_is_canon. unfold Qeq. simpl.
    destruct (Qnum (this x)); simpl in *; lia.
  - intros ->. reflexivity.
Qed.

Lemma NewRat_nonneg a b : (0 <= a)%Z -> (0 < b)%Z -> 0 <= big.NewRat a b.
Proof.
  intros Ha Hb. unfold big.NewRat, Qcle.
  change (Qred 0 <= Qred (inject_Z a / inject_Z b))%Q.
  rewrite !Qred_correct.
  destruct b as [|b|b]; try lia.
  unfold Qdiv, Qinv, Qmult, Qle; simpl. lia.
Qed.

Lemma NewRat_neg a b : (0 < a)%Z -> (b < 0)%Z -> big.NewRat a b < 0.
Proof.
  intros Ha Hb. unfold big.NewRat, Qclt.
  change (Qred (inject_Z a / inject_Z b) < Qred 0)%Q.
  rewrite !Qred_correct.
  destruct b as [|b|b]; try lia.
  unfold Qdiv, Qinv, Qmult, Qlt; simpl. lia.
Qed.

Lemma Sub_Add_cancel (a b : Qc) : big.Sub (big.Add a b) b = a.
Proof. change (a + b - b = a). ring. Qed.

(** m - m * pct/100 is m * (100 - pct)/100. *)
Lemma percent_factor (m : Qc) (pct : Z) :
  big.Sub m (big.Mul m (big.NewRat pct 100))
  = big.Mul m (big.NewRat (100 - pct) 100).
Proof.
  apply Qc_is_canon.
  rewrite this_Sub, !this_Mul, !this_NewRat.
  unfold Z.sub. rewrite inject_Z_plus, inject_Z_opp. field.
Qed.

End RatFacts.

(** ** Money *)

Section MoneyFacts.
Import domain.
Local Open Scope Qc_scope.

Lemma NewMoney_zero_denominator n : NewMoney n 0 = Err ErrInvalidMoney.
Proof. reflexivity. Qed.

Lemma NewMoney_negative_numerator n d :
  d <> 0%Z -> (n < 0)%Z -> NewMoney n d = Err ErrNegativeMoney.
Proof.
  intros Hd Hn. unfold NewMoney.
  destruct (Z.eqb_spec d 0); [done|].
  destruct (Z.ltb_spec n 0); [done|lia].
Qed.

Lemma NewMoney_ok n d :
  d <> 0%Z -> (0 <= n)%Z ->
  NewMoney n d = Ok {| amount := big.NewRat n d |}.
Proof.
  intros Hd Hn. unfold NewMoney.
  destruct (Z.eqb_spec d 0); [done|].
  destruct (Z.ltb_spec n 0); [lia|done].
Qed.

(** With a positive denominator the constructor keeps the invariant. *)
Lemma NewMoney_positive_denominator n d m :
  (0 < d)%Z -> NewMoney n d = Ok m -> 0 <= amount m.
Proof.
  intros Hd. unfold NewMoney.
  destruct (Z.eqb_spec d 0); [done|].
  destruct (Z.ltb_spec n 0); [done|].
  intros [= <-]. simpl. by apply NewRat_nonneg.
Qed.

Lemma NewMoneyFromRat_nonneg a m :
  NewMoneyFromRat a = Ok m -> 0 <= amount m.
Proof.
  destruct a as [a|]; [|done]. simpl.
  destruct (big.Sign a <? 0)%Z eqn:E; [done|].
  intros [= <-]. simpl. by apply Sign_nonneg.
Qed.

Lemma Add_nonneg m other :
  0 <= amount m -> 0 <= amount other -> 0 <= amount (Add m other).
Proof.
  intros Hm Ho. unfold Add, big.Add. simpl.
  replace 0 with (0 + 0) by ring. by apply Qcplus_le_compat.
Qed.

Lemma Subtract_nonneg m other r :
  Subtract m other = Ok r -> 0 <= amount r.
Proof.
  unfold Subtract.
  destruct (big.Sign _ <? 0)%Z eqn:E; [done|].
  intros [= <-]. simpl. by apply Sign_nonneg.
Qed.

Lemma Multiply_nonneg m factor r :
  0 <= amount m -> Multiply m factor = Ok r -> 0 <= amount r.
Proof.
  intros Hm. unfold Multiply.
  destruct (big.Sign factor <? 0)%Z eqn:E; [done|].
  intros [= <-]. simpl. apply Sign_nonneg in E.
  unfold big.Mul. by apply Qcmult_nonneg_nonneg.
Qed.

Lemma SubtractPercentage_amount m pct :
  amount (SubtractPercentage m pct)
  = big.Mul (amount m) (big.NewRat (100 - pct) 100).
Proof. unfold SubtractPercentage, ApplyPercentage. apply percent_factor. Qed.

Lemma SubtractPercentage_nonneg m pct :
  0 <= amount m -> (0 <= pct <= 100)%Z ->
  0 <= amount (SubtractPercentage m pct).
Proof.
  intros Hm Hp. rewrite SubtractPercentage_amount.
  unfold big.Mul. apply Qcmult_nonneg_nonneg; [done|].
  apply NewRat_nonneg; lia.
Qed.

(** Adding and then taking away the same amount gives the first amount
    back, provided that amount is not negative. *)
Lemma Add_Subtract_roundtrip a b :
  0 <= amount a ->
  exists r, Subtract (Add a b) b = Ok r /\ Money_Equals r (Some a) = true.
Proof.
  intros Ha. exists a. unfold Subtract, Add. cbn [amount].
  rewrite Sub_Add_cancel.
  apply Sign_nonneg in Ha. rewrite Ha. destruct a as [a]. split; [done|].
  unfold Money_Equals, big.Cmp. simpl.
  by rewrite (proj1 (Qceq_alt _ _) eq_refl).
Qed.

(** C3.  [NewMoney] looks at the sign of the numerator only: with a
    positive numerator and a negative denominator it succeeds and the
    Money it returns is negative, the very value that the other
    constructor, [NewMoneyFromRat], rejects with [ErrNegativeMoney].
    (The operations keep a non-negative value non-negative: see
    [Add_nonneg], [Subtract_nonneg], [Multiply_nonneg] and
    [SubtractPercentage_nonneg].) *)
Theorem NewMoney_negative_denominator (n d : Z) :
  (0 < n)%Z -> (d < 0)%Z ->
  exists m, NewMoney n d = Ok m
            /\ amount m < 0
            /\ NewMoneyFromRat (Some (amount m)) = Err ErrNegativeMoney.
Proof.
  intros Hn Hd. eexists. split; [apply NewMoney_ok; lia|].
  cbn [amount]. pose proof (NewRat_neg n d Hn Hd) as Hneg.
  split; [done|]. simpl. apply Sign_neg in Hneg. by rewrite Hneg.
Qed.

Lemma NewMoney_negative_denominator_witness :
  exists m, NewMoney 1 (-1) = Ok m
            /\ amount m < 0
            /\ NewMoneyFromRat (Some (amount m)) = Err ErrNegativeMoney.
Proof. apply (NewMoney_negative_denominator 1 (-1)); lia. Defined.

(** C9.  A Money built by [NewMoney] from a positive numerator and a
    negative denominator is negative, so adding any [b] to it and
    subtracting [b] again fails with [ErrNegativeMoney] instead of
    giving it back.  (For an amount that is not negative the round trip
    succeeds: [Add_Subtract_roundtrip].) *)
Theorem Add_Subtract_negative_denominator (n d : Z) (a b : Money) :
  (0 < n)%Z -> (d < 0)%Z -> NewMoney n d = Ok a ->
  Subtract (Add a b) b = Err ErrNegativeMoney.
Proof.
  intros Hn Hd Ha. rewrite NewMoney_ok in Ha by lia. injection Ha as <-.
  unfold Subtract, Add. cbn [amount]. rewrite Sub_Add_cancel.
  pose proof (NewRat_neg n d Hn Hd) as Hneg.
  apply Sign_neg in Hneg. by rewrite Hneg.
Qed.

Lemma Add_Subtract_negative_denominator_witness :
  Subtract (Add {| amount := big.NewRat 1 (-1) |} Zero) Zero
  = Err ErrNegativeMoney.
Proof.
  apply (Add_Subtract_negative_denominator 1 (-1)); [lia | lia | reflexivity].
Defined.

End MoneyFacts.

(** ** The aggregate *)

Section ProductFacts.
Import domain.

Ltac unfold_status :=
  unfold ProductStatusDraft, ProductStatusActive, ProductStatusInactive,
    ProductStatusArchived in *.

Ltac method :=
  unfold Update, Activate, Deactivate, Archive, ApplyDiscount, RemoveDiscount,
    IsArchived, IsActive, mark, emit;
  unfold_status;
  repeat case_bool_decide; simpl in *; try congruence; try done.

(** A call that returns an error has changed nothing. *)
Lemma call_error p op e :
  snd (spec.call p op) = Some e -> fst (spec.call p op) = p.
Proof.
  destruct op; simpl; method.
  - unfold IsValidAt, HasStarted, IsExpired.
    destruct (_ && _); [destruct (After _ _)|]; simpl; done.
  - destruct (discount p); simpl; done.
Qed.

(** *** Life cycle *)

Lemma Activate_transition p now :
  IsValid (status p) = true ->
  snd (Activate p now) = None ->
  spec.transition (status p) (status (fst (Activate p now))).
Proof.
  unfold IsValid, Activate, IsArchived, IsActive.
  repeat case_bool_decide; simpl; try done; intros _ _.
  all: match goal with H : status _ = _ |- _ => rewrite H end; constructor.
Qed.

Lemma Archive_transition p now :
  IsValid (status p) = true ->
  snd (Archive p now) = None ->
  spec.transition (status p) (status (fst (Archive p now))).
Proof.
  unfold IsValid, Archive, IsArchived, IsActive.
  repeat case_bool_decide; simpl; try done; intros _ _.
  all: match goal with H : status _ = _ |- _ => rewrite H end; constructor.
Qed.

Lemma Deactivate_transition p now :
  IsValid (status p) = true ->
  status p <> ProductStatusDraft ->
  snd (Deactivate p now) = None ->
  spec.transition (status p) (status (fst (Deactivate p now))).
Proof.
  unfold IsValid, Deactivate, IsArchived.
  repeat case_bool_decide; simpl; try done; intros _ _ _.
  all: match goal with H : status _ = _ |- _ => rewrite H end; constructor.
Qed.

Lemma Activate_errors p now :
  snd (Activate p now) =
    if bool_decide (status p = ProductStatusArchived) then
      Some ErrCannotActivateArchived
    else if bool_decide (status p = ProductStatusActive) then
      Some ErrProductAlreadyActive
    else None.
Proof. method. Qed.

Lemma Archive_active p now :
  status p = ProductStatusActive ->
  Archive p now = (p, Some ErrCannotArchiveActive).
Proof. intros H. method. Qed.

Lemma Archived_is_terminal p now :
  status p = ProductStatusArchived ->
  Activate p now = (p, Some ErrCannotActivateArchived)
  /\ Deactivate p now = (p, Some ErrCannotDeactivateArchived)
  /\ Archive p now = (p, Some ErrProductArchived).
Proof. intros H. repeat split; method. Qed.

(** Every step of the state machine is taken by one of the three
    methods. *)
Lemma transition_effected p s' now :
  spec.transition (status p) s' ->
  (snd (Activate p now) = None /\ status (fst (Activate p now)) = s')
  \/ (snd (Deactivate p now) = None /\ status (fst (Deactivate p now)) = s')
  \/ (snd (Archive p now) = None /\ status (fst (Archive p now)) = s').
Proof.
  intros H. inversion H as [Hs|Hs|Hs|Hs|Hs]; symmetry in Hs.
  - left. method.
  - right; right. method.
  - right; left. method.
  - left. method.
  - right; right. method.
Qed.

(** C1.  [Deactivate] refuses an Archived and an Inactive product and
    nothing else: called on a Draft product it returns no error and
    leaves the product Inactive, a step that is not in the state machine
    (where Draft leads to Active or Archived only). *)
Theorem Deactivate_draft p now :
  status p = ProductStatusDraft ->
  snd (Deactivate p now) = None
  /\ status (fst (Deactivate p now)) = ProductStatusInactive
  /\ ~ spec.transition (status p) (status (fst (Deactivate p now))).
Proof.
  intros H. method. repeat split. rewrite H. inversion 1.
Qed.

Lemma Deactivate_draft_witness :
  snd (Deactivate spec.laptop 1500) = None
  /\ status (fst (Deactivate spec.laptop 1500)) = ProductStatusInactive
  /\ ~ spec.transition (status spec.laptop)
         (status (fst (Deactivate spec.laptop 1500))).
Proof. apply (Deactivate_draft spec.laptop 1500). reflexivity. Defined.

(** The sample product is what the constructor returns. *)
Lemma laptop_new :
  NewProduct "p-1" "Laptop" "High-performance laptop" "Electronics"
    (Some spec.price_19_99) 1000 = Ok spec.laptop.
Proof. reflexivity. Qed.

(** *** Discounts *)

Lemma NewDiscount_ok pct s e d :
  NewDiscount pct s e = Ok d ->
  1 <= pct <= 100 /\ s <= e
  /\ d = {| percentage := pct; startDate := s; endDate := e |}.
Proof.
  unfold NewDiscount, Before.
  destruct (Z.leb_spec pct 0); [done|].
  destruct (Z.ltb_spec 100 pct); [done|]. simpl.
  destruct (Z.ltb_spec e s); [done|].
  intros [= <-]. repeat split; lia.
Qed.

(** The rejection test of [ApplyDiscount] asks for a time that is both
    before the start and after the end. *)
Lemma ApplyDiscount_rejects d now :
  negb (IsValidAt d now) && negb (HasStarted d now) && IsExpired d now = true
  <-> endDate d < now < startDate d.
Proof.
  unfold IsValidAt, HasStarted, IsExpired, Before, After.
  destruct (Z.ltb_spec now (startDate d)), (Z.ltb_spec (endDate d) now);
    simpl; split; intros; try done; lia.
Qed.

Lemma ApplyDiscount_NotActive_iff p d now :
  snd (ApplyDiscount p d now) = Some ErrProductNotActive
  <-> status p <> ProductStatusActive.
Proof.
  unfold ApplyDiscount, IsActive. case_bool_decide; simpl; [|done].
  split; [|done].
  destruct (negb (IsValidAt d now) && negb (HasStarted d now));
    [destruct (IsExpired d now)|]; simpl; done.
Qed.

(** On an Active product every discount with start <= end is accepted,
    whatever the time. *)
Lemma ApplyDiscount_accepts p d now :
  status p = ProductStatusActive ->
  startDate d <= endDate d ->
  let p' := fst (ApplyDiscount p d now) in
  snd (ApplyDiscount p d now) = None
  /\ discount p' = Some d
  /\ updatedAt p' = now
  /\ changes p' = MarkDirty (changes p) FieldDiscount
  /\ events p' = (events p ++ [DiscountAppliedEvent (id p) now (percentage d)
                                 (startDate d) (endDate d)])%list
  /\ id p' = id p /\ name p' = name p /\ description p' = description p
  /\ category p' = category p /\ basePrice p' = basePrice p
  /\ status p' = status p /\ createdAt p' = createdAt p
  /\ archivedAt p' = archivedAt p /\ isNew p' = isNew p.
Proof.
  intros Ha Hd. unfold ApplyDiscount, IsActive.
  rewrite bool_decide_eq_true_2 by done. simpl.
  assert (negb (IsValidAt d now) && negb (HasStarted d now)
          && IsExpired d now = false) as Hrej.
  { apply not_true_is_false. rewrite ApplyDiscount_rejects. lia. }
  destruct (negb (IsValidAt d now) && negb (HasStarted d now));
    [simpl in Hrej; rewrite Hrej|]; simpl; repeat split.
Qed.

(** A discount that starts in the future is accepted. *)
Lemma ApplyDiscount_future p d now :
  status p = ProductStatusActive ->
  startDate d <= endDate d -> now < startDate d ->
  snd (ApplyDiscount p d now) = None
  /\ discount (fst (ApplyDiscount p d now)) = Some d.
Proof.
  intros Ha Hd _. destruct (ApplyDiscount_accepts p d now Ha Hd) as (?&?&_).
  done.
Qed.

(** C2.  On an Active product a discount whose whole period lies in the
    past is accepted by [ApplyDiscount] (no error, the discount is
    attached): the [ErrDiscountExpired] return is guarded by "not yet
    started", which an elapsed discount with start <= end never is.
    The domain service [ValidateDiscountApplication] rejects the same
    input with [ErrDiscountExpired]. *)
Theorem ApplyDiscount_elapsed p d now :
  status p = ProductStatusActive ->
  startDate d <= endDate d -> endDate d < now ->
  snd (ApplyDiscount p d now) = None
  /\ discount (fst (ApplyDiscount p d now)) = Some d
  /\ services.ValidateDiscountApplication p d now = Some ErrDiscountExpired.
Proof.
  intros Ha Hd He. destruct (ApplyDiscount_accepts p d now Ha Hd) as (?&?&_).
  repeat split; try done.
  unfold services.ValidateDiscountApplication, IsActive, IsExpired, After.
  rewrite bool_decide_eq_true_2 by done. simpl.
  destruct (Z.ltb_spec (endDate d) now); [done|lia].
Qed.

Lemma ApplyDiscount_elapsed_witness :
  let p := fst (Activate spec.laptop 1100) in
  snd (ApplyDiscount p spec.twenty_percent 4000) = None
  /\ discount (fst (ApplyDiscount p spec.twenty_percent 4000))
     = Some spec.twenty_percent
  /\ services.ValidateDiscountApplication p spec.twenty_percent 4000
     = Some ErrDiscountExpired.
Proof.
  apply (ApplyDiscount_elapsed (fst (Activate spec.laptop 1100))
           spec.twenty_percent 4000); [reflexivity | simpl; lia | simpl; lia].
Defined.

End ProductFacts.

Section UpdateFacts.
Import domain.



End UpdateFacts.

Section InvariantFacts.
Import domain.

Lemma NewProduct_archived_inv id name description category basePrice now p :
  NewProduct id name description category basePrice now = Ok p ->
  spec.archived_inv p.
Proof.
  unfold NewProduct. repeat case_bool_decide; try done.
  destruct basePrice as [bp|]; [|done]. destruct (IsZero bp); [done|].
  intros [= <-]. unfold spec.archived_inv. simpl. split.
  - intros [? ?]. done.
  - discriminate.
Qed.

Lemma call_archived_inv p op :
  spec.archived_inv p -> spec.archived_inv (fst (spec.call p op)).
Proof.
  unfold spec.archived_inv. intros Hp.
  destruct op as [n d c now|now|now|now|d now|now]; simpl.
  - unfold Update, IsArchived.
    repeat case_bool_decide; simpl; done.
  - unfold Activate, IsArchived, IsActive.
    repeat case_bool_decide; simpl; try done.
    split; [|discriminate]. intros Hs. apply Hp in Hs. done.
  - unfold Deactivate, IsArchived.
    repeat case_bool_decide; simpl; try done.
    split; [|discriminate]. intros Hs. apply Hp in Hs. done.
  - unfold Archive, IsArchived, IsActive.
    repeat case_bool_decide; simpl; try done.
  - unfold ApplyDiscount, IsActive.
    case_bool_decide; simpl; [|done].
    destruct (negb (IsValidAt d now) && negb (HasStarted d now));
      [destruct (IsExpired d now)|]; simpl; done.
  - unfold RemoveDiscount. destruct (discount p); simpl; done.
Qed.

Lemma run_archived_inv ops : forall p,
  spec.archived_inv p -> spec.archived_inv (spec.run p ops).
Proof.
  induction ops as [|op ops IH]; intros p Hp; simpl; [done|].
  apply IH. by apply call_archived_inv.
Qed.

(** C8.  For a product returned by [NewProduct] and then taken through
    any finite sequence of [Update], [Activate], [Deactivate],
    [Archive], [ApplyDiscount] and [RemoveDiscount] calls (failed calls
    included), [archivedAt] is set if and only if the status is
    Archived. *)
Theorem archivedAt_iff_archived
    id name description category basePrice now p ops :
  NewProduct id name description category basePrice now = Ok p ->
  is_Some (archivedAt (spec.run p ops))
  <-> status (spec.run p ops) = ProductStatusArchived.
Proof.
  intros Hnew. apply run_archived_inv.
  by apply NewProduct_archived_inv in Hnew.
Qed.

Lemma archivedAt_iff_archived_witness :
  is_Some (archivedAt (spec.run spec.laptop
                         [spec.OpActivate 1100; spec.OpArchive 1200;
                          spec.OpDeactivate 1300; spec.OpArchive 1400]))
  <-> status (spec.run spec.laptop
                [spec.OpActivate 1100; spec.OpArchive 1200;
                 spec.OpDeactivate 1300; spec.OpArchive 1400])
      = ProductStatusArchived.
Proof.
  apply (archivedAt_iff_archived "p-1" "Laptop" "High-performance laptop"
           "Electronics" (Some spec.price_19_99) 1000).
  reflexivity.
Defined.

(** The run of the witness ends archived, at the time of the last call. *)
Lemma sample_run_archived :
  archivedAt (spec.run spec.laptop
                [spec.OpActivate 1100; spec.OpArchive 1200;
                 spec.OpDeactivate 1300; spec.OpArchive 1400]) = Some 1400.
Proof. reflexivity. Qed.

End InvariantFacts.

Section RemoveDiscountFacts.
Import domain.







End RemoveDiscountFacts.

Section EffectivePriceFacts.
Import domain.
Local Open Scope Qc_scope.

(** *** The aggregate's effective price *)

Lemma IsValidAt_iff d t :
  IsValidAt d t = true <-> (startDate d <= t <= endDate d)%Z.
Proof.
  unfold IsValidAt, Before, After.
  destruct (Z.ltb_spec t (startDate d)), (Z.ltb_spec (endDate d) t);
    simpl; split; intros; try done; lia.
Qed.

Lemma EffectivePrice_no_discount p now :
  discount p = None -> EffectivePrice p now = basePrice p.
Proof. intros H. unfold EffectivePrice. by rewrite H. Qed.

Lemma EffectivePrice_outside p d now :
  discount p = Some d ->
  (now < startDate d \/ endDate d < now)%Z ->
  EffectivePrice p now = basePrice p.
Proof.
  intros H Hout. unfold EffectivePrice. rewrite H.
  destruct (IsValidAt d now) eqn:E; [|done].
  apply IsValidAt_iff in E. lia.
Qed.

Lemma EffectivePrice_inside p d now :
  discount p = Some d ->
  (startDate d <= now <= endDate d)%Z ->
  amount (EffectivePrice p now)
  = big.Mul (amount (basePrice p)) (big.NewRat (100 - percentage d) 100).
Proof.
  intros H Hin. unfold EffectivePrice. rewrite H.
  rewrite (proj2 (IsValidAt_iff d now) Hin). simpl.
  apply SubtractPercentage_amount.
Qed.

Lemma HasActiveDiscount_iff p now :
  HasActiveDiscount p now = true
  <-> exists d, discount p = Some d /\ (startDate d <= now <= endDate d)%Z.
Proof.
  unfold HasActiveDiscount. destruct (discount p) as [d|].
  - rewrite IsValidAt_iff. split; [eauto|]. by intros (? & [= <-] & ?).
  - split; [done|]. by intros (? & ? & _).
Qed.

(** *** The read model's effective price *)

Lemma wrap64_id z : is_int64 z -> wrap64 z = z.
Proof.
  unfold is_int64, MinInt64, MaxInt64, wrap64. intros H.
  rewrite Z.mod_small; lia.
Qed.

Lemma NewRat_mult a b c d :
  b <> 0%Z -> d <> 0%Z ->
  big.NewRat (a * c) (b * d) = big.Mul (big.NewRat a b) (big.NewRat c d).
Proof.
  intros Hb Hd. apply Qc_is_canon.
  rewrite this_Mul, !this_NewRat, !inject_Z_mult.
  field. split; intros E; unfold Qeq in E; simpl in E; lia.
Qed.

Lemma effectivePrice_no_discount r row :
  m_product.row_DiscountPercent row = None
  \/ m_product.row_DiscountStartDate row = None
  \/ m_product.row_DiscountEndDate row = None ->
  repo.effectivePrice r row
  = (m_product.row_BasePriceNumerator row,
     m_product.row_BasePriceDenominator row).
Proof.
  unfold repo.effectivePrice.
  destruct (m_product.row_DiscountPercent row),
    (m_product.row_DiscountStartDate row),
    (m_product.row_DiscountEndDate row); intros [?|[?|?]]; done.
Qed.

Lemma effectivePrice_outside r row pct s e :
  m_product.row_DiscountPercent row = Some pct ->
  m_product.row_DiscountStartDate row = Some s ->
  m_product.row_DiscountEndDate row = Some e ->
  (repo.clock r < s \/ e < repo.clock r)%Z ->
  repo.effectivePrice r row
  = (m_product.row_BasePriceNumerator row,
     m_product.row_BasePriceDenominator row).
Proof.
  intros Hp Hs He Hout. unfold repo.effectivePrice, Before, After.
  rewrite Hp, Hs, He.
  destruct (Z.ltb_spec (repo.clock r) s), (Z.ltb_spec e (repo.clock r));
    simpl; try done; lia.
Qed.

(** Inside the window, and as long as no product leaves [int64], the
    pair is the base price times (100 - pct)/100. *)
Lemma effectivePrice_inside r row pct s e :
  m_product.row_DiscountPercent row = Some pct ->
  m_product.row_DiscountStartDate row = Some s ->
  m_product.row_DiscountEndDate row = Some e ->
  (s <= repo.clock r <= e)%Z ->
  is_int64 (100 - pct) ->
  is_int64 (m_product.row_BasePriceNumerator row * (100 - pct)) ->
  is_int64 (m_product.row_BasePriceDenominator row * 100) ->
  m_product.row_BasePriceDenominator row <> 0%Z ->
  repo.effectivePrice r row
  = ((m_product.row_BasePriceNumerator row * (100 - pct))%Z,
     (m_product.row_BasePriceDenominator row * 100)%Z)
  /\ big.NewRat (fst (repo.effectivePrice r row))
       (snd (repo.effectivePrice r row))
     = big.Mul (big.NewRat (m_product.row_BasePriceNumerator row)
                  (m_product.row_BasePriceDenominator row))
         (big.NewRat (100 - pct) 100).
Proof.
  intros Hp Hs He Hin H1 H2 H3 Hden.
  assert (repo.effectivePrice r row
          = ((m_product.row_BasePriceNumerator row * (100 - pct))%Z,
             (m_product.row_BasePriceDenominator row * 100)%Z)) as Heq.
  { unfold repo.effectivePrice, Before, After. rewrite Hp, Hs, He.
    destruct (Z.ltb_spec (repo.clock r) s), (Z.ltb_spec e (repo.clock r));
      simpl; try lia.
    rewrite (wrap64_id (100 - pct)) by done. by rewrite !wrap64_id. }
  split; [done|]. rewrite Heq. simpl. by apply NewRat_mult.
Qed.

(** C4.  The aggregate's [EffectivePrice] is exact.  The read model
    multiplies in [int64]: for the product with base price 2 * 10^17
    and a 20 percent discount, read inside the discount's window, the
    aggregate gives 16 * 10^16 and the row written for it gives the pair
    (-2446744073709551616, 100), a negative price, since
    2 * 10^17 * 80 is beyond 2^63. *)
Theorem read_model_price_wraps :
  let p := spec.huge_discounted in
  let row := repo.productToDBModel p in
  let r := {| repo.client := [row]; repo.clock := 2500 |} in
  m_product.row_BasePriceNumerator row = 200000000000000000%Z
  /\ m_product.row_BasePriceDenominator row = 1%Z
  /\ amount (EffectivePrice p 2500) = big.NewRat 160000000000000000 1
  /\ repo.effectivePrice r row = ((-2446744073709551616)%Z, 100%Z)
  /\ big.NewRat (-2446744073709551616) 100 < 0.
Proof.
  cbv zeta. split; [reflexivity|]. split; [reflexivity|].
  split; [apply Qc_is_canon; reflexivity|].
  split; reflexivity.
Qed.

End EffectivePriceFacts.

Section ListFacts.
Import contracts.

Lemma holds_status_eq P r st :
  P !! "status" = Some (spanner.PString st) ->
  spanner.holds P r (spanner.ColEq m_product.Status "status")
  = bool_decide (m_product.row_Status r = st).
Proof.
  intros H. simpl. unfold spanner.column. rewrite H. simpl.
  apply bool_decide_ext. split; [by intros [= ?]|by intros ->].
Qed.

Lemma holds_category_eq P r cat :
  P !! "category" = Some (spanner.PString cat) ->
  spanner.holds P r (spanner.ColEq m_product.Category "category")
  = bool_decide (m_product.row_Category r = cat).
Proof.
  intros H. simpl. unfold spanner.column. rewrite H. simpl.
  apply bool_decide_ext. split; [by intros [= ?]|by intros ->].
Qed.

Lemma holds_status_ne P r st :
  P !! "archivedStatus" = Some (spanner.PString st) ->
  spanner.holds P r (spanner.ColNe m_product.Status "archivedStatus")
  = bool_decide (m_product.row_Status r ≠ st).
Proof.
  intros H. simpl. unfold spanner.column. rewrite H. simpl.
  apply bool_decide_ext. split; intros Hne E; apply Hne; congruence.
Qed.

Ltac lookup_params :=
  repeat (rewrite lookup_insert_eq || (rewrite lookup_insert_ne by done)).

(** What [List] returns, in closed form: the server refuses a negative
    limit or offset; otherwise the page holds the rows of [spec.page],
    the count is that of all matching rows, and [HasMore] compares the
    two. *)
Lemma List_eq r f pg :
  repo.List r f pg =
    if (Limit pg <? 0) || (Offset pg <? 0) then None
    else
      let rows := spec.page (repo.client r) f (Limit pg) (Offset pg) in
      let total :=
        Z.of_nat (length (List.filter (spec.matches f) (repo.client r))) in
      Some {| Products := repo.rowToReadModel r <$> rows;
              TotalCount := total;
              HasMore :=
                wrap64 (Offset pg + Z.of_nat (length (repo.rowToReadModel r <$> rows)))
                <? total |}.
Proof.
  destruct f as [cat st ao]. unfold repo.List, spec.page, spec.matches.
  cbn [filter_ActiveOnly filter_Status filter_Category].
  destruct ao; [|destruct st as [st|]];
    (destruct cat as [cat|]; [case_bool_decide|]);
    cbn [app]; unfold spanner.Query, spanner.QueryCount;
    cbn [spanner.Paged spanner.Params spanner.Where];
    rewrite lookup_insert_ne by done; rewrite lookup_insert_eq;
    rewrite lookup_insert_eq;
    destruct ((Limit pg <? 0) || (Offset pg <? 0)); try done; cbv zeta.
  all: match goal with
       | |- _ = Some {| Products := _ <$> take _ (drop _ (merge_sort _
                          (List.filter ?g _)));
                        TotalCount := _; HasMore := _ |} =>
           repeat match goal with
           | |- context [List.filter (spanner.selected ?s) _] =>
               rewrite (List.filter_ext (spanner.selected s) g)
                 by (intros row; unfold spanner.selected;
                     cbn [forallb spanner.Where spanner.Params];
                     erewrite ?holds_status_eq, ?holds_category_eq,
                       ?holds_status_ne
                       by (lookup_params; reflexivity);
                     rewrite ?andb_true_r, ?andb_assoc; reflexivity)
           end
       end; reflexivity.
Qed.

Lemma matches_not_archived f row :
  spec.matches f row = true ->
  m_product.row_Status row <> domain.ProductStatusArchived.
Proof.
  unfold spec.matches. rewrite andb_true_iff, bool_decide_eq_true.
  by intros [_ ?].
Qed.

Lemma matches_archived_filter f row :
  filter_ActiveOnly f = false ->
  filter_Status f = Some domain.ProductStatusArchived ->
  spec.matches f row = false.
Proof.
  intros Ha Hs. unfold spec.matches. rewrite Ha, Hs.
  case_bool_decide as E; [|done]. rewrite andb_comm.
  rewrite (bool_decide_eq_false_2 (_ ≠ _)); [done|]. by intros Hne.
Qed.

Lemma filter_none {A} (g : A -> bool) l :
  (forall x, g x = false) -> List.filter g l = [].
Proof.
  intros Hg. induction l as [|x l IH]; simpl; [done|]. by rewrite Hg.
Qed.

Lemma page_Forall tbl f limit offset (P : m_product.Product -> Prop) :
  (forall row, spec.matches f row = true -> P row) ->
  Forall P (spec.page tbl f limit offset).
Proof.
  intros HP. unfold spec.page. apply Forall_take, Forall_drop.
  rewrite merge_sort_Permutation. apply Forall_forall. intros row Hin.
  apply list_elem_of_In, filter_In in Hin as [_ Hm]. by apply HP.
Qed.



(** C5.  [List] appends the condition "status is not archived" to every
    query, also when the status filter asks for archived rows: no row it
    returns is archived, and with the status filter set to "archived"
    (and active-only off) it returns no row at all and a total of 0,
    whatever the table holds. *)
Theorem List_never_returns_archived r f pg res :
  repo.List r f pg = Some res ->
  Forall (fun m => Status m <> domain.ProductStatusArchived) (Products res)
  /\ (filter_ActiveOnly f = false ->
      filter_Status f = Some domain.ProductStatusArchived ->
      Products res = [] /\ TotalCount res = 0).
Proof.
  rewrite List_eq. destruct (_ || _); [done|]. cbv zeta. intros [= <-].
  cbn [Products TotalCount]. split.
  - apply Forall_fmap. eapply Forall_impl.
    + apply page_Forall. intros row Hm. exact (matches_not_archived f row Hm).
    + intros row Hrow. exact Hrow.
  - intros Ha Hs. unfold spec.page.
    rewrite (filter_none (spec.matches f))
      by (intros; by apply matches_archived_filter).
    split; [|done].
    change (merge_sort spanner.newer_first []) with (@nil m_product.Product).
    by rewrite drop_nil, take_nil.
Qed.

Lemma List_never_returns_archived_witness :
  let f := {| filter_Category := None;
              filter_Status := Some domain.ProductStatusArchived;
              filter_ActiveOnly := false |} in
  let pg := {| Limit := 20; Offset := 0 |} in
  spec.row "d" "archived" "books" 4 ∈ repo.client spec.catalog
  /\ repo.List spec.catalog f pg
     = Some {| Products := []; TotalCount := 0; HasMore := false |}.
Proof.
  cbv zeta. split; [set_solver|].
  destruct (repo.List spec.catalog
              {| filter_Category := None;
                 filter_Status := Some domain.ProductStatusArchived;
                 filter_ActiveOnly := false |}
              {| Limit := 20; Offset := 0 |}) as [res|] eqn:E.
  - destruct (List_never_returns_archived _ _ _ _ E) as [_ H].
    destruct H as [Hp Ht]; [reflexivity | reflexivity |].
    rewrite List_eq in E. simpl in E. injection E as <-. reflexivity.
  - rewrite List_eq in E. discriminate E.
Defined.

(** *** The list query *)


Lemma Execute_eq readModel req :
  list_products.Execute readModel req
  = list_products.mapToListResult
      <$> repo.List readModel (spec.filtersOf req)
            {| Limit := list_products.pageLimit (list_products.req_Limit req);
               Offset := list_products.req_Offset req |}.
Proof.
  unfold list_products.Execute, spec.filtersOf.
  by destruct (repo.List _ _ _).
Qed.




(** The second page of the same request holds the remaining row, and
    nothing is left after it. *)
Lemma catalog_second_page :
  list_products.Execute spec.catalog
    {| list_products.req_Category := Some "books";
       list_products.req_Status := None;
       list_products.req_ActiveOnly := true;
       list_products.req_Limit := 2;
       list_products.req_Offset := 2 |}
  = Some {| list_products.Products :=
              [ {| list_products.ID := "a";
                   list_products.Name := "item";
                   list_products.Description := "";
                   list_products.Category := "books";
                   list_products.BasePriceNumerator := 1999;
                   list_products.BasePriceDenominator := 100;
                   list_products.EffectivePriceNum := 1999;
                   list_products.EffectivePriceDenom := 100;
                   list_products.DiscountPercent := None;
                   list_products.Status := "active";
                   list_products.CreatedAt := 1 |} ];
            list_products.TotalCount := 3;
            list_products.HasMore := false |}.
Proof. rewrite Execute_eq, List_eq. reflexivity. Qed.

End ListFacts.

(** * Further properties of the code *)

(** ** Money: comparison and arithmetic *)

Section MoneyOrder.
Import domain.
Local Open Scope Qc_scope.

Lemma LessThan_iff m o : LessThan m o = true <-> amount m < amount o.
Proof.
  unfold LessThan, big.Cmp. rewrite Qclt_alt.
  destruct (amount m ?= amount o); simpl; split; done.
Qed.

Lemma Equals_iff m o : Money_Equals m (Some o) = true <-> m = o.
Proof.
  unfold Money_Equals, big.Cmp. destruct m as [x], o as [y]. simpl.
  destruct (x ?= y) eqn:E; simpl; split; try done.
  - intros _. apply Qceq_alt in E. by subst.
  - intros [= ->]. by rewrite (proj1 (Qceq_alt y y) eq_refl) in E.
  - intros [= ->]. by rewrite (proj1 (Qceq_alt y y) eq_refl) in E.
Qed.

Lemma GreaterThan_swap m o : GreaterThan m o = LessThan o m.
Proof.
  unfold GreaterThan, LessThan, big.Cmp, Qccompare.
  rewrite <- (Qcompare_antisym (amount o) (amount m)).
  destruct (amount o ?= amount m)%Q; reflexivity.
Qed.

(** X1.  [LessThan], [Equals] and [GreaterThan] decide the exact order
    of the two amounts: [LessThan] is "smaller", [Equals] is "the same
    Money", [GreaterThan] is [LessThan] the other way round, and of the
    three exactly one answers true. *)
Theorem Money_comparisons m o :
  (LessThan m o = true <-> amount m < amount o)
  /\ (Money_Equals m (Some o) = true <-> m = o)
  /\ GreaterThan m o = LessThan o m
  /\ (Z.b2z (LessThan m o) + Z.b2z (Money_Equals m (Some o))
      + Z.b2z (GreaterThan m o) = 1)%Z.
Proof.
  split; [apply LessThan_iff|]. split; [apply Equals_iff|].
  split; [apply GreaterThan_swap|].
  unfold LessThan, GreaterThan, Money_Equals, big.Cmp.
  destruct (amount m ?= amount o); reflexivity.
Qed.

Lemma Qc_sub_neg (x y : Qc) : x - y < 0 <-> x < y.
Proof.
  rewrite (Qcplus_lt_mono_r (x - y) 0 y).
  replace (x - y + y) with x by ring. by rewrite Qcplus_0_l.
Qed.

Lemma Qc_sub_add (x y : Qc) : x - y + y = x.
Proof. ring. Qed.

Lemma Qc_part_rest (x f : Qc) : x * f + (x - x * f) = x.
Proof. ring. Qed.

(** X2.  [Subtract] fails, with [ErrNegativeMoney], exactly when the
    receiver is smaller than the argument; otherwise it returns the
    difference, which is not negative, and adding the argument back
    gives the receiver. *)
Theorem Subtract_iff m o :
  (Subtract m o = Err ErrNegativeMoney <-> LessThan m o = true)
  /\ (LessThan m o = false ->
      exists r, Subtract m o = Ok r /\ Add r o = m /\ 0 <= amount r).
Proof.
  assert ((big.Sign (big.Sub (amount m) (amount o)) <? 0)%Z = true
          <-> amount m < amount o) as Hs.
  { rewrite Sign_neg. apply Qc_sub_neg. }
  unfold Subtract. split.
  - rewrite LessThan_iff, <- Hs.
    destruct (_ <? _)%Z; split; done.
  - intros Hlt. destruct (_ <? _)%Z eqn:E.
    + assert (amount m < amount o) as Hlt' by (by apply Hs).
      apply LessThan_iff in Hlt'. congruence.
    + eexists. split; [done|]. split.
      * unfold Add. cbn [amount]. destruct m as [x]. f_equal.
        apply Qc_sub_add.
      * cbn [amount]. apply Qcnot_lt_le. intros Hneg.
        apply Qc_sub_neg, Hs in Hneg. done.
Qed.

(** X3.  The percentage of an amount and the amount less that
    percentage add up to the amount, for every percentage. *)
Theorem percentage_split m pct :
  Add (ApplyPercentage m pct) (SubtractPercentage m pct) = m.
Proof.
  unfold Add, SubtractPercentage, ApplyPercentage. cbn [amount].
  destruct m as [x]. f_equal. apply Qc_part_rest.
Qed.

Lemma NewRat_scale k n d :
  (0 < k)%Z -> d <> 0%Z -> big.NewRat (k * n) (k * d) = big.NewRat n d.
Proof.
  intros Hk Hd. apply Qc_is_canon. rewrite !this_NewRat, !inject_Z_mult.
  field. split; intros E; unfold Qeq in E; simpl in E; lia.
Qed.

(** X4.  [NewMoney] does not depend on how the fraction is written:
    scaling numerator and denominator by the same positive factor gives
    the same result, value or error. *)
Theorem NewMoney_scale k n d :
  (0 < k)%Z -> NewMoney (k * n) (k * d) = NewMoney n d.
Proof.
  intros Hk. unfold NewMoney.
  destruct (Z.eqb_spec d 0) as [->|Hd].
  - by rewrite Z.mul_0_r.
  - destruct (Z.eqb_spec (k * d) 0); [lia|].
    destruct (Z.ltb_spec n 0), (Z.ltb_spec (k * n) 0); try done; try lia.
    by rewrite NewRat_scale.
Qed.

Lemma NewMoney_scale_witness : NewMoney (10 * 1999) (10 * 100) = NewMoney 1999 100.
Proof. apply (NewMoney_scale 10 1999 100). lia. Defined.

End MoneyOrder.

(** ** Discounts *)

Section DiscountFacts.
Import domain.
Local Open Scope Qc_scope.

Lemma NewDiscount_valid d :
  spec.valid_discount d ->
  NewDiscount (percentage d) (startDate d) (endDate d) = Ok d.
Proof.
  intros [Hp Hse]. unfold NewDiscount, Before.
  destruct (Z.leb_spec (percentage d) 0), (Z.ltb_spec 100 (percentage d)),
    (Z.ltb_spec (endDate d) (startDate d)); simpl; try lia.
  by destruct d.
Qed.

(** X5.  [NewDiscount] succeeds exactly when the percentage is between
    1 and 100 and the end is not before the start, and then returns the
    discount with these three values; a percentage out of range is
    reported before a wrong period. *)
Theorem NewDiscount_iff pct s e :
  ((1 <= pct <= 100)%Z /\ (s <= e)%Z ->
   NewDiscount pct s e
   = Ok {| percentage := pct; startDate := s; endDate := e |})
  /\ (~ (1 <= pct <= 100)%Z ->
      NewDiscount pct s e = Err ErrInvalidDiscountPercentage)
  /\ ((1 <= pct <= 100)%Z /\ (e < s)%Z ->
      NewDiscount pct s e = Err ErrInvalidDiscountPeriod).
Proof.
  unfold NewDiscount, Before.
  destruct (Z.leb_spec pct 0), (Z.ltb_spec 100 pct), (Z.ltb_spec e s);
    simpl; repeat split; intros; try done; lia.
Qed.

(** X6.  For a discount built by [NewDiscount], every instant is in
    exactly one of three phases: before the start ([HasStarted] false),
    inside the period ([IsValidAt] true), after the end ([IsExpired]
    true); the period includes its first and its last instant. *)
Theorem Discount_phases pct s e d t :
  NewDiscount pct s e = Ok d ->
  (Z.b2z (negb (HasStarted d t)) + Z.b2z (IsValidAt d t)
   + Z.b2z (IsExpired d t) = 1)%Z
  /\ IsValidAt d t = HasStarted d t && negb (IsExpired d t)
  /\ IsValidAt d (startDate d) = true
  /\ IsValidAt d (endDate d) = true
  /\ IsValidAt d (startDate d - 1)%Z = false
  /\ IsValidAt d (endDate d + 1)%Z = false.
Proof.
  intros H. apply NewDiscount_ok in H as (_ & Hse & ->).
  unfold IsValidAt, HasStarted, IsExpired, Before, After. simpl.
  repeat split;
    repeat match goal with
           | |- context [(?a <? ?b)%Z] => destruct (Z.ltb_spec a b)
           end; simpl; try done; lia.
Qed.

Lemma Discount_phases_witness :
  (Z.b2z (negb (HasStarted spec.twenty_percent 2500))
   + Z.b2z (IsValidAt spec.twenty_percent 2500)
   + Z.b2z (IsExpired spec.twenty_percent 2500) = 1)%Z
  /\ IsValidAt spec.twenty_percent 2500 = true.
Proof.
  destruct (Discount_phases 20 2000 3000 spec.twenty_percent 2500 eq_refl)
    as (H & _). split; [exact H | reflexivity].
Defined.

(** X7.  Applying a discount built by [NewDiscount] to a price that is
    not negative gives a price between zero and the price, exactly
    price * (100 - percentage) / 100; a discount of 100 percent gives
    zero. *)
Theorem Discount_Apply_bounds pct s e d price :
  NewDiscount pct s e = Ok d ->
  0 <= amount price ->
  amount (Apply d price)
  = amount price * big.NewRat (100 - pct) 100
  /\ 0 <= amount (Apply d price)
  /\ amount (Apply d price) <= amount price
  /\ (pct = 100%Z -> IsZero (Apply d price) = true).
Proof.
  intros H Hp. apply NewDiscount_ok in H as (Hpct & _ & ->).
  unfold Apply. cbn [percentage].
  rewrite SubtractPercentage_amount. unfold big.Mul.
  assert (0 <= big.NewRat (100 - pct) 100) as H0
    by (apply NewRat_nonneg; lia).
  assert (big.NewRat (100 - pct) 100 <= 1) as H1.
  { unfold Qcle. change (this 1) with (1%Q). rewrite this_NewRat.
    apply Qle_shift_div_r; [reflexivity|].
    rewrite Qmult_1_l. change 100%Q with (inject_Z 100).
    rewrite <- Zle_Qle. lia. }
  split; [done|]. split; [by apply Qcmult_nonneg_nonneg|]. split.
  - rewrite <- (Qcmult_1_r (amount price)) at 2.
    by apply Qcmult_le_mono_nonneg_l.
  - intros ->. unfold IsZero. apply Sign_zero.
    rewrite SubtractPercentage_amount. unfold big.Mul.
    change (big.NewRat (100 - 100) 100) with (big.NewRat 0 100).
    replace (big.NewRat 0 100) with 0 by (apply Qc_is_canon; reflexivity).
    ring.
Qed.

Lemma Discount_Apply_bounds_witness :
  amount (Apply spec.twenty_percent spec.price_19_99)
  = amount spec.price_19_99 * big.NewRat (100 - 20) 100
  /\ 0 <= amount (Apply spec.twenty_percent spec.price_19_99)
  /\ amount (Apply spec.twenty_percent spec.price_19_99)
     <= amount spec.price_19_99.
Proof.
  destruct (Discount_Apply_bounds 20 2000 3000 spec.twenty_percent
              spec.price_19_99 eq_refl) as (H1 & H2 & H3 & _).
  { apply NewRat_nonneg; lia. }
  repeat split; assumption.
Defined.

(** [Equals] on discounts is equality of the three values: it
    answers true exactly for the same discount, and false for nil. *)
Lemma Discount_Equals_iff d o :
  (Discount_Equals d (Some o) = true <-> d = o)
  /\ Discount_Equals d None = false.
Proof.
  split; [|done]. destruct d as [p s e], o as [p' s' e'].
  unfold Discount_Equals, Equal. simpl.
  rewrite !andb_true_iff, !Z.eqb_eq. split.
  - by intros [[-> ->] ->].
  - by intros [= -> -> ->].
Qed.

End DiscountFacts.

(** ** The change tracker *)

Section ChangeTrackerFacts.
Import domain.

Lemma marks_dirtyFields fields :
  forall ct,
    dirtyFields (fold_left MarkDirty fields ct)
    = foldr (fun f m => <[f := true]> m) (dirtyFields ct) (reverse fields).
Proof.
  induction fields as [|f fields IH]; intros ct; simpl; [done|].
  rewrite IH, reverse_cons, foldr_app. done.
Qed.

Lemma marks_lookup fields f :
  dirtyFields (spec.marks fields) !! f
  = if bool_decide (f ∈ fields) then Some true else None.
Proof.
  unfold spec.marks. rewrite marks_dirtyFields. simpl.
  assert (forall l, foldr (fun f m => <[f := true]> m) (∅ : gmap string bool) l
                    !! f
                    = if bool_decide (f ∈ l) then Some true else None) as H.
  { induction l as [|g l IH]; simpl; [done|].
    destruct (decide (g = f)) as [->|Hne].
    - rewrite lookup_insert_eq. rewrite bool_decide_eq_true_2; [done|].
      apply list_elem_of_here.
    - rewrite lookup_insert_ne by done. rewrite IH.
      apply (f_equal (fun b : bool => if b then Some true else None)).
      apply bool_decide_ext. rewrite elem_of_cons.
      split; [by right|]. by intros [->|?]. }
  rewrite H. apply (f_equal (fun b : bool => if b then Some true else None)).
  apply bool_decide_ext. by rewrite elem_of_reverse.
Qed.

(** X8.  For a change tracker created empty and then marked with any
    fields, in any order and any number of times: a field is reported
    dirty exactly when it was marked; [DirtyFields] lists exactly the
    marked fields, each once; [HasChanges] holds exactly when something
    was marked; and after [Reset] nothing is dirty. *)
Theorem ChangeTracker_marks fields f :
  (Dirty (spec.marks fields) f = true <-> f ∈ fields)
  /\ (f ∈ DirtyFields (spec.marks fields) <-> f ∈ fields)
  /\ NoDup (DirtyFields (spec.marks fields))
  /\ (HasChanges (spec.marks fields) = true <-> fields <> [])
  /\ Dirty (Reset (spec.marks fields)) f = false
  /\ HasChanges (Reset (spec.marks fields)) = false.
Proof.
  split; [|split; [|split; [|split; [|split]]]].
  - unfold Dirty. rewrite marks_lookup. case_bool_decide; simpl; split; done.
  - unfold DirtyFields. rewrite list_elem_of_fmap. split.
    + intros [[k v] [-> Hin]]. apply elem_of_map_to_list in Hin.
      rewrite marks_lookup in Hin. simpl. by case_bool_decide.
    + intros Hin. exists (f, true). split; [done|].
      apply elem_of_map_to_list. rewrite marks_lookup.
      by rewrite bool_decide_eq_true_2.
  - unfold DirtyFields. apply NoDup_fst_map_to_list.
  - unfold HasChanges. rewrite bool_decide_eq_true. split.
    + intros Hs ->. unfold spec.marks in Hs. simpl in Hs.
      rewrite map_size_empty in Hs. lia.
    + intros Hne. destruct fields as [|g fields]; [done|].
      assert (dirtyFields (spec.marks (g :: fields)) !! g = Some true) as Hg.
      { rewrite marks_lookup. rewrite bool_decide_eq_true_2; [done|].
        apply list_elem_of_here. }
      destruct (decide (size (dirtyFields (spec.marks (g :: fields))) = 0%nat))
        as [Hz|Hnz]; [|lia].
      apply map_size_empty_inv in Hz. rewrite Hz in Hg. done.
  - reflexivity.
  - reflexivity.
Qed.

End ChangeTrackerFacts.

(** ** The aggregate, continued *)

Section AggregateFacts.
Import domain.
Local Open Scope Qc_scope.

Ltac methods :=
  unfold Update, Activate, Deactivate, Archive, ApplyDiscount, RemoveDiscount,
    IsArchived, IsActive, mark, emit.

Ltac split_discount d now :=
  destruct (negb (IsValidAt d now) && negb (HasStarted d now));
  [destruct (IsExpired d now)|].

Lemma NewProduct_inv pid pname pdescription pcategory price now p :
  NewProduct pid pname pdescription pcategory price now = Ok p ->
  spec.valid_name pname /\ spec.valid_category pcategory
  /\ (exists m, price = Some m /\ amount m <> 0)
  /\ name p = pname /\ category p = pcategory
  /\ Some (basePrice p) = price.
Proof.
  unfold spec.valid_name, spec.valid_category, NewProduct.
  repeat case_bool_decide; try done.
  destruct price as [m|]; [|done]. destruct (IsZero m) eqn:Ez; [done|].
  intros [= <-]. repeat split; try done; try lia.
  exists m. split; [done|]. intros Hzero. apply Sign_zero in Hzero.
  unfold IsZero in Ez. congruence.
Qed.

(** X9.  [NewProduct] succeeds exactly when the name and the category
    pass their checks and a price other than zero is given; the product
    it returns is new, in Draft, without discount or archive time, with
    a clean change tracker and one [ProductCreatedEvent] carrying the
    arguments. *)
Theorem NewProduct_iff pid pname pdescription pcategory price now :
  (forall p,
      NewProduct pid pname pdescription pcategory price now = Ok p ->
      spec.valid_name pname /\ spec.valid_category pcategory
      /\ exists m, price = Some m /\ amount m <> 0)
  /\ (forall m,
      spec.valid_name pname -> spec.valid_category pcategory ->
      price = Some m -> amount m <> 0 ->
      NewProduct pid pname pdescription pcategory price now
      = Ok {| id := pid; name := pname; description := pdescription;
              category := pcategory; basePrice := m; discount := None;
              status := ProductStatusDraft; createdAt := now;
              updatedAt := now; archivedAt := None;
              changes := NewChangeTracker;
              events := [ProductCreatedEvent pid now pname pdescription
                           pcategory m];
              isNew := true |}).
Proof.
  unfold spec.valid_name, spec.valid_category, NewProduct. split.
  - intros p. repeat case_bool_decide; try done.
    destruct price as [m|]; [|done]. destruct (IsZero m) eqn:Ez; [done|].
    intros _. repeat split; try done; try lia.
    exists m. split; [done|]. intros Hzero. apply Sign_zero in Hzero.
    unfold IsZero in Ez. congruence.
  - intros m [Hn Hnl] [Hc Hcl] -> Hm.
    rewrite (bool_decide_eq_false_2 (pname = _)) by done.
    rewrite (bool_decide_eq_false_2 (_ < String.length pname)%nat) by lia.
    rewrite (bool_decide_eq_false_2 (pcategory = _)) by done.
    rewrite (bool_decide_eq_false_2 (_ < String.length pcategory)%nat) by lia.
    destruct (IsZero m) eqn:Ez; [|done].
    unfold IsZero in Ez. apply Sign_zero in Ez. done.
Qed.

(** X10.  A call of a mutating method never removes an event.  A call
    that fails appends nothing.  A call that succeeds appends exactly
    one event, of the method's type, stamped with the product's id and
    the time of the call; the one exception is an [Update] with the
    values the product already has, which appends no event. *)
Theorem call_events p op :
  let p' := fst (spec.call p op) in
  (snd (spec.call p op) <> None -> events p' = events p)
  /\ (snd (spec.call p op) = None ->
      if spec.same_values p op then events p' = events p
      else exists e,
          events p' = (events p ++ [e])%list
          /\ AggregateID e = id p
          /\ OccurredAt e = spec.op_time op
          /\ EventType e = spec.op_event op).
Proof.
  destruct op as [n d c now|now|now|now|d now|now]; simpl; methods.
  - destruct p as [i n0 d0 c0 bp di st ca ua aa ch ev nw]. simpl.
    repeat case_bool_decide; simpl; split; intros; try done;
      try (eexists; repeat split; done); exfalso; intuition congruence.
  - repeat case_bool_decide; simpl; split; intros; try done;
      eexists; repeat split; done.
  - repeat case_bool_decide; simpl; split; intros; try done;
      eexists; repeat split; done.
  - repeat case_bool_decide; simpl; split; intros; try done;
      eexists; repeat split; done.
  - case_bool_decide; simpl; [split_discount d now|]; simpl;
      split; intros; try done; eexists; repeat split; done.
  - destruct (discount p); simpl; split; intros; try done;
      eexists; repeat split; done.
Qed.

Lemma Dirty_MarkDirty_or ct f g :
  Dirty (MarkDirty ct f) g = bool_decide (f = g) || Dirty ct g.
Proof.
  unfold Dirty, MarkDirty. cbn [dirtyFields].
  case_bool_decide as E.
  - subst. by rewrite lookup_insert_eq.
  - by rewrite lookup_insert_ne.
Qed.

Ltac decide_fields :=
  repeat match goal with
         | |- context [bool_decide (?a = ?b)] =>
             is_const a; is_const b;
             let v := eval vm_compute in (bool_decide (a = b)) in
             change (bool_decide (a = b)) with v
         | H : context [bool_decide (?a = ?b)] |- _ =>
             is_const a; is_const b;
             let v := eval vm_compute in (bool_decide (a = b)) in
             change (bool_decide (a = b)) with v in H
         end.

Ltac tracked :=
  cbn -[Dirty MarkDirty bool_decide] in *;
  repeat split; intros;
  rewrite ?Dirty_MarkDirty_or in *; decide_fields;
  cbn [orb] in *; try done; try congruence;
  try match goal with
      | H : Dirty _ ?f = true |- _ => rewrite H, ?orb_true_r; reflexivity
      end.

(** One call: no field changes, whether the call succeeds or not, other
    than under its dirty mark; marks are never taken back. *)
Lemma call_tracked p op :
  let p' := fst (spec.call p op) in
  (forall f, Dirty (changes p) f = true -> Dirty (changes p') f = true)
  /\ (Dirty (changes p') FieldName = false -> name p' = name p)
  /\ (Dirty (changes p') FieldDescription = false ->
      description p' = description p)
  /\ (Dirty (changes p') FieldCategory = false -> category p' = category p)
  /\ (Dirty (changes p') FieldDiscount = false -> discount p' = discount p)
  /\ (Dirty (changes p') FieldStatus = false -> status p' = status p)
  /\ (Dirty (changes p') FieldArchivedAt = false ->
      archivedAt p' = archivedAt p).
Proof.
  destruct op as [n d c now|now|now|now|d now|now]; simpl; methods.
  - destruct p as [i n0 d0 c0 bp di st ca ua aa ch ev nw]. simpl.
    repeat case_bool_decide; tracked.
  - repeat case_bool_decide; tracked.
  - repeat case_bool_decide; tracked.
  - repeat case_bool_decide; tracked.
  - case_bool_decide; simpl; [split_discount d now|]; tracked.
  - destruct (discount p) eqn:E; tracked.
Qed.

(** What a sequence of calls leaves alone: the fields whose mark is
    not set, and the four fields no method writes. *)
Lemma run_frame p ops :
  (let q := spec.run p ops in
    (forall f, Dirty (changes p) f = true -> Dirty (changes q) f = true)
    /\ (Dirty (changes q) FieldName = false -> name q = name p)
    /\ (Dirty (changes q) FieldDescription = false ->
        description q = description p)
    /\ (Dirty (changes q) FieldCategory = false -> category q = category p)
    /\ (Dirty (changes q) FieldDiscount = false -> discount q = discount p)
    /\ (Dirty (changes q) FieldStatus = false -> status q = status p)
    /\ (Dirty (changes q) FieldArchivedAt = false ->
        archivedAt q = archivedAt p))
  /\ (let q := spec.run p ops in
    id q = id p /\ basePrice q = basePrice p /\ createdAt q = createdAt p
    /\ isNew q = isNew p).
Proof.
  split.
  { revert p. induction ops as [|op ops IH]; intros p; simpl.
      { repeat split; done. }
      destruct (IH (fst (spec.call p op))) as (M & N & D & C & Di & S & A).
      destruct (call_tracked p op) as (M1 & N1 & D1 & C1 & Di1 & S1 & A1).
      cbv zeta in *.
      set (p1 := fst (spec.call p op)) in *.
      set (q := spec.run p1 ops) in *.
      assert (forall f, Dirty (changes q) f = false ->
                        Dirty (changes p1) f = false) as Hback.
      { intros f Hf. destruct (Dirty (changes p1) f) eqn:E; [|done].
        apply M in E. congruence. }
      split; [intros f Hf; by apply M, M1|].
      repeat split; intros Hq.
      - rewrite (N Hq). by apply N1, Hback.
      - rewrite (D Hq). by apply D1, Hback.
      - rewrite (C Hq). by apply C1, Hback.
      - rewrite (Di Hq). by apply Di1, Hback.
      - rewrite (S Hq). by apply S1, Hback.
      - rewrite (A Hq). by apply A1, Hback. }
  { revert p. induction ops as [|op ops IH]; intros p; simpl; [done|].
      destruct (IH (fst (spec.call p op))) as (H1 & H2 & H3 & H4).
      cbv zeta in *. rewrite H1, H2, H3, H4. clear.
      destruct op as [n d c now|now|now|now|d now|now]; simpl; methods.
      - destruct p as [i n0 d0 c0 bp di st ca ua aa ch ev nw]. simpl.
        repeat case_bool_decide; simpl; done.
      - repeat case_bool_decide; simpl; done.
      - repeat case_bool_decide; simpl; done.
      - repeat case_bool_decide; simpl; done.
      - case_bool_decide; simpl; [split_discount d now|]; simpl; done.
      - destruct (discount p); simpl; done. }
Qed.

(** X11.  Change tracking is complete: after any sequence of calls on a
    product, each of name, description, category, discount, status and
    archive time that is not marked dirty still has the value it had
    before the sequence; and a mark, once set, stays. *)
Theorem run_tracked p ops :
  let q := spec.run p ops in
  (forall f, Dirty (changes p) f = true -> Dirty (changes q) f = true)
  /\ (Dirty (changes q) FieldName = false -> name q = name p)
  /\ (Dirty (changes q) FieldDescription = false ->
      description q = description p)
  /\ (Dirty (changes q) FieldCategory = false -> category q = category p)
  /\ (Dirty (changes q) FieldDiscount = false -> discount q = discount p)
  /\ (Dirty (changes q) FieldStatus = false -> status q = status p)
  /\ (Dirty (changes q) FieldArchivedAt = false ->
      archivedAt q = archivedAt p).
Proof.
  intros q. subst q. destruct (proj1 (run_frame p ops)) as (M & Hrest).
  split; [exact M|exact Hrest].
Qed.

(** X12.  No mutating method touches the id, the base price, the
    creation time or the is-new flag: they are the same after any
    sequence of calls. *)
Theorem run_immutable p ops :
  let q := spec.run p ops in
  id q = id p /\ basePrice q = basePrice p /\ createdAt q = createdAt p
  /\ isNew q = isNew p.
Proof.
  intros q. subst q. destruct (proj2 (run_frame p ops)) as (Hid & Hrest).
  split; [exact Hid|exact Hrest].
Qed.

Lemma call_valid p op :
  spec.valid_name (name p) -> spec.valid_category (category p) ->
  spec.valid_name (name (fst (spec.call p op)))
  /\ spec.valid_category (category (fst (spec.call p op))).
Proof.
  unfold spec.valid_name, spec.valid_category. intros Hn Hc.
  destruct op as [n d c now|now|now|now|d now|now]; simpl; methods.
  - destruct p as [i n0 d0 c0 bp di st ca ua aa ch ev nw]. simpl in *.
    repeat case_bool_decide; simpl; try done; subst;
      repeat split; try tauto; lia.
  - repeat case_bool_decide; simpl; done.
  - repeat case_bool_decide; simpl; done.
  - repeat case_bool_decide; simpl; done.
  - case_bool_decide; simpl; [split_discount d now|]; simpl; done.
  - destruct (discount p); simpl; done.
Qed.

Lemma run_valid_names ops : forall p,
  spec.valid_name (name p) -> spec.valid_category (category p) ->
  spec.valid_name (name (spec.run p ops))
  /\ spec.valid_category (category (spec.run p ops)).
Proof.
  induction ops as [|op ops IH]; intros p Hn Hc; simpl; [done|].
  destruct (call_valid p op Hn Hc) as [Hn1 Hc1]. by apply IH.
Qed.

(** X13.  A product returned by [NewProduct] keeps, through any
    sequence of calls, a name and a category that are not empty and
    within their length bounds, and a base price other than zero. *)
Theorem run_valid pid pname pdescription pcategory price now p ops :
  NewProduct pid pname pdescription pcategory price now = Ok p ->
  spec.valid_name (name (spec.run p ops))
  /\ spec.valid_category (category (spec.run p ops))
  /\ amount (basePrice (spec.run p ops)) <> 0.
Proof.
  intros Hnew.
  destruct (NewProduct_inv _ _ _ _ _ _ _ Hnew)
    as (Hn & Hc & (m & -> & Hm) & <- & <- & [= <-]).
  destruct (proj2 (run_frame p ops)) as (_ & Hbp & _).
  cbv zeta in Hbp. rewrite Hbp.
  destruct (run_valid_names ops p Hn Hc) as [Hn' Hc'].
  repeat split; try apply Hn'; try apply Hc'. exact Hm.
Qed.

Lemma run_valid_witness :
  spec.valid_name
    (name (spec.run spec.laptop
             [spec.OpUpdate "" "x" "Electronics" 1100;
              spec.OpUpdate "Notebook" "x" "Computers" 1200]))
  /\ spec.valid_category
       (category (spec.run spec.laptop
                    [spec.OpUpdate "" "x" "Electronics" 1100;
                     spec.OpUpdate "Notebook" "x" "Computers" 1200]))
  /\ amount (basePrice (spec.run spec.laptop
                          [spec.OpUpdate "" "x" "Electronics" 1100;
                           spec.OpUpdate "Notebook" "x" "Computers" 1200]))
     <> 0.
Proof.
  apply (run_valid "p-1" "Laptop" "High-performance laptop" "Electronics"
           (Some spec.price_19_99) 1000 spec.laptop).
  reflexivity.
Defined.

End AggregateFacts.

(** ** Prices *)

Section PricingFacts.
Import domain.
Local Open Scope Qc_scope.

Lemma NewRat_lt_1 a b : (0 < b)%Z -> (a < b)%Z -> big.NewRat a b < 1.
Proof.
  intros Hb Hab. unfold Qclt. change (this 1) with 1%Q. rewrite this_NewRat.
  apply Qlt_shift_div_r.
  - change 0%Q with (inject_Z 0). rewrite <- Zlt_Qlt. lia.
  - rewrite Qmult_1_l. rewrite <- Zlt_Qlt. lia.
Qed.

Lemma LessThan_irrefl m : LessThan m m = false.
Proof.
  destruct (LessThan m m) eqn:E; [|done].
  apply LessThan_iff in E. by apply Qclt_not_eq in E.
Qed.

(** X14.  For a product with a positive base price whose discount, if
    any, has a percentage between 1 and 100: [HasActiveDiscount] at a
    time answers true exactly when the effective price at that time is
    lower than the base price. *)
Theorem HasActiveDiscount_lowers_price p now :
  0 < amount (basePrice p) ->
  (forall d, discount p = Some d -> (1 <= percentage d <= 100)%Z) ->
  HasActiveDiscount p now = LessThan (EffectivePrice p now) (basePrice p).
Proof.
  intros Hpos Hpct. unfold HasActiveDiscount, EffectivePrice.
  destruct (discount p) as [d|] eqn:Ed; [|by rewrite LessThan_irrefl].
  destruct (IsValidAt d now); simpl; [|by rewrite LessThan_irrefl].
  symmetry. apply LessThan_iff. unfold Apply.
  rewrite SubtractPercentage_amount. unfold big.Mul.
  specialize (Hpct d eq_refl).
  rewrite <- (Qcmult_1_r (amount (basePrice p))) at 2.
  apply Qcmult_lt_mono_pos_l; [done|]. apply NewRat_lt_1; lia.
Qed.

Lemma HasActiveDiscount_lowers_price_witness :
  HasActiveDiscount spec.huge_discounted 2500
  = LessThan (EffectivePrice spec.huge_discounted 2500)
      (basePrice spec.huge_discounted).
Proof.
  apply (HasActiveDiscount_lowers_price spec.huge_discounted 2500).
  - reflexivity.
  - intros d [= <-]. simpl. lia.
Defined.

Lemma Add_Zero_r m : Add m Zero = m.
Proof.
  unfold Add, Zero. cbn [amount]. destruct m as [x]. f_equal. simpl.
  replace (big.NewRat 0 1) with (0 : Qc) by (apply Qc_is_canon; reflexivity).
  change (x + 0 = x). ring.
Qed.

Lemma Add_comm m o : Add m o = Add o m.
Proof.
  unfold Add. f_equal. change (amount m + amount o = amount o + amount m).
  ring.
Qed.

(** X15.  In every price breakdown the effective price and the discount
    amount add up to the base price.  Without an active discount the
    percentage is 0, the amount is zero and the effective price is the
    base price; with one, the percentage is the discount's. *)
Theorem GetPriceBreakdown_adds_up p now :
  let b := services.GetPriceBreakdown p now in
  Add (services.pb_EffectivePrice b) (services.pb_DiscountAmount b)
  = services.pb_BasePrice b
  /\ services.pb_BasePrice b = basePrice p
  /\ services.pb_HasDiscount b = HasActiveDiscount p now
  /\ (services.pb_HasDiscount b = false ->
      services.pb_DiscountPercent b = 0%Z
      /\ services.pb_DiscountAmount b = Zero
      /\ services.pb_EffectivePrice b = basePrice p)
  /\ (services.pb_HasDiscount b = true ->
      exists d, discount p = Some d
                /\ services.pb_DiscountPercent b = percentage d
                /\ services.pb_DiscountAmount b
                   = ApplyPercentage (basePrice p) (percentage d)).
Proof.
  unfold services.GetPriceBreakdown, services.CalculateDiscountAmount,
    HasActiveDiscount, EffectivePrice.
  destruct (discount p) as [d|]; [destruct (IsValidAt d now)|]; simpl.
  - split; [|repeat split; try done; eauto].
    unfold Apply. rewrite Add_comm.
    unfold Add, SubtractPercentage, ApplyPercentage. cbn [amount].
    destruct (basePrice p) as [x]. f_equal. apply Qc_part_rest.
  - split; [apply Add_Zero_r|]. repeat split; done.
  - split; [apply Add_Zero_r|]. repeat split; done.
Qed.

(** X16.  [CalculateSavings] always returns a Money (the error it drops
    cannot occur): zero without a discount or for a quantity of 0 or
    less, and otherwise the quantity times the discount amount of one
    item, which is base price * percentage / 100. *)
Theorem CalculateSavings_total basePrice discount quantity :
  exists total,
    services.CalculateSavings basePrice discount quantity = Some total
    /\ amount total
       = match discount with
         | None => 0
         | Some d =>
             if (quantity <=? 0)%Z then 0
             else amount basePrice * big.NewRat (percentage d) 100
                  * big.NewRat quantity 1
         end.
Proof.
  assert (amount Zero = 0) as Hz by (apply Qc_is_canon; reflexivity).
  unfold services.CalculateSavings.
  destruct discount as [d|]; [|eauto].
  destruct (Z.leb_spec quantity 0); [eauto|].
  unfold Multiply.
  assert ((big.Sign (big.NewRat quantity 1) <? 0)%Z = false) as ->.
  { apply Sign_nonneg. apply NewRat_nonneg; lia. }
  eexists. split; [done|]. reflexivity.
Qed.

End PricingFacts.

(** ** Persistence of the aggregate *)

Section PersistenceFacts.
Import domain mutation.
Local Open Scope Qc_scope.

Lemma NewRat_parts (q : Qc) :
  big.NewRat (Qnum (this q)) (Z.pos (Qden (this q))) = q.
Proof.
  apply Qc_is_canon. rewrite this_NewRat.
  destruct q as [[n d] Hc]. simpl.
  unfold Qeq, Qdiv, Qmult, Qinv, inject_Z. simpl. lia.
Qed.

(** X17.  Writing an aggregate as a row and reading the row back gives
    the aggregate's persistent state, provided the base price is not
    negative, its reduced numerator and denominator fit in [int64], and
    the discount, if any, has a percentage from 1 to 100 and an end not
    before its start. *)
Theorem rowToProduct_productToDBModel p :
  0 <= amount (basePrice p) ->
  is_int64 (Qnum (this (amount (basePrice p)))) ->
  is_int64 (Z.pos (Qden (this (amount (basePrice p))))) ->
  (forall d, discount p = Some d ->
             (1 <= percentage d <= 100)%Z /\ (startDate d <= endDate d)%Z) ->
  product_repo.rowToProduct (repo.productToDBModel p)
  = Ok (spec.persistent p).
Proof.
  intros Hpos Hn Hd Hdisc.
  unfold product_repo.rowToProduct, repo.productToDBModel,
    repo.Numerator, repo.Denominator. cbn -[NewMoney NewDiscount].
  rewrite !wrap64_id by done.
  rewrite NewMoney_ok.
  2:{ done. }
  2:{ unfold Qcle, Qle in Hpos. simpl in Hpos. lia. }
  rewrite NewRat_parts.
  unfold spec.persistent.
  destruct (basePrice p) as [a] eqn:Eb. cbn [amount].
  destruct (discount p) as [d|] eqn:Ed; [|done].
  by rewrite (NewDiscount_valid d (Hdisc d eq_refl)).
Qed.

Lemma rowToProduct_productToDBModel_witness :
  product_repo.rowToProduct (repo.productToDBModel spec.huge_discounted)
  = Ok (spec.persistent spec.huge_discounted).
Proof.
  apply (rowToProduct_productToDBModel spec.huge_discounted).
  - apply NewRat_nonneg; lia.
  - unfold is_int64, MinInt64, MaxInt64. simpl. lia.
  - unfold is_int64, MinInt64, MaxInt64. simpl. lia.
  - intros d [= <-]. simpl. lia.
Defined.

(** *** The update mutation *)

Lemma persisted_clean_no_update p :
  isNew p = false ->
  (forall f, f ∈ spec.persisted_fields -> Dirty (changes p) f = false) ->
  product_repo.UpdateMut p = None.
Proof.
  intros Hnew Hclean. unfold product_repo.UpdateMut. rewrite Hnew.
  destruct (HasChanges (changes p)); [|done]. cbn [negb].
  rewrite !Hclean by (unfold spec.persisted_fields; set_solver).
  rewrite bool_decide_eq_true_2; [done|]. apply map_size_empty.
Qed.

Lemma lookup_if_insert {V} (b : bool) (k j : string) (v : V)
    (m : gmap string V) :
  (if b then <[k := v]> m else m) !! j
  = if b && bool_decide (k = j) then Some v else m !! j.
Proof.
  destruct b; simpl; [|done]. case_bool_decide as E.
  - subst. by rewrite lookup_insert_eq.
  - by rewrite lookup_insert_ne.
Qed.

Lemma lookup_insert_decide {V} (k j : string) (v : V) (m : gmap string V) :
  <[k := v]> m !! j = if bool_decide (k = j) then Some v else m !! j.
Proof. apply (lookup_if_insert true). Qed.

Lemma dom_if_insert_subseteq {V} (b : bool) (k : string) (v : V)
    (m : gmap string V) (S : gset string) :
  k ∈ S -> dom m ⊆ S -> dom (if b then <[k := v]> m else m) ⊆ S.
Proof.
  intros Hk Hm. destruct b; [|done]. rewrite dom_insert.
  apply union_subseteq. split; [by apply singleton_subseteq_l|done].
Qed.

Lemma dom_insert_subseteq' {V} (k : string) (v : V)
    (m : gmap string V) (S : gset string) :
  k ∈ S -> dom m ⊆ S -> dom (<[k := v]> m) ⊆ S.
Proof. apply (dom_if_insert_subseteq true). Qed.

Lemma Dirty_HasChanges ct f : Dirty ct f = true -> HasChanges ct = true.
Proof.
  unfold Dirty, HasChanges. intros H. apply bool_decide_eq_true.
  destruct (dirtyFields ct !! f) as [b|] eqn:E; [|done].
  destruct (decide (size (dirtyFields ct) = 0%nat)) as [Hz|]; [|lia].
  apply map_size_empty_inv in Hz. rewrite Hz in E. done.
Qed.

Lemma size_insert_ne_0 {V} (k : string) (v : V) (m : gmap string V) :
  size (<[k := v]> m) <> 0%nat.
Proof.
  intros Hz. apply map_size_empty_inv in Hz.
  by apply insert_non_empty in Hz.
Qed.

Ltac in_columns :=
  apply (bool_decide_unpack _); vm_compute; exact I.

(** X18.  For a loaded aggregate with at least one of its six
    persisted fields dirty, [UpdateMut] returns an update of the
    products table whose columns are: the key, [updated_at], and for
    each dirty field its column (three columns for the discount) with
    the aggregate's current value; no column of a clean field, never
    the base price and never [created_at]. *)
Theorem UpdateMut_columns p :
  isNew p = false ->
  (exists f, f ∈ spec.persisted_fields /\ Dirty (changes p) f = true) ->
  exists cols,
    product_repo.UpdateMut p = Some (UpdateMap m_product.TableName cols)
    /\ dom cols ⊆ storage.productColumns
    /\ cols !! m_product.ProductID = Some (VString (id p))
    /\ cols !! m_product.UpdatedAt = Some (VTime (updatedAt p))
    /\ cols !! m_product.Name
       = (if Dirty (changes p) FieldName then Some (VString (name p))
          else None)
    /\ cols !! m_product.Description
       = (if Dirty (changes p) FieldDescription
          then Some (VString (description p)) else None)
    /\ cols !! m_product.Category
       = (if Dirty (changes p) FieldCategory
          then Some (VString (category p)) else None)
    /\ cols !! m_product.Status
       = (if Dirty (changes p) FieldStatus then Some (VString (status p))
          else None)
    /\ cols !! m_product.DiscountPercent
       = (if Dirty (changes p) FieldDiscount
          then Some (VNullNumeric (percentage <$> discount p)) else None)
    /\ cols !! m_product.DiscountStartDate
       = (if Dirty (changes p) FieldDiscount
          then Some (VNullTime (startDate <$> discount p)) else None)
    /\ cols !! m_product.DiscountEndDate
       = (if Dirty (changes p) FieldDiscount
          then Some (VNullTime (endDate <$> discount p)) else None)
    /\ cols !! m_product.ArchivedAt
       = (if Dirty (changes p) FieldArchivedAt
          then Some (VNullTime (archivedAt p)) else None)
    /\ cols !! m_product.BasePriceNumerator = None
    /\ cols !! m_product.BasePriceDenominator = None
    /\ cols !! m_product.CreatedAt = None.
Proof.
  intros Hnew (f & Hf & Hdirty).
  unfold product_repo.UpdateMut, m_product_model.UpdateMut. rewrite Hnew.
  rewrite (Dirty_HasChanges _ _ Hdirty). cbn [negb].
  set (bn := Dirty (changes p) FieldName) in *.
  set (bd := Dirty (changes p) FieldDescription) in *.
  set (bc := Dirty (changes p) FieldCategory) in *.
  set (bs := Dirty (changes p) FieldStatus) in *.
  set (bi := Dirty (changes p) FieldDiscount) in *.
  set (ba := Dirty (changes p) FieldArchivedAt) in *.
  assert (bn || bd || bc || bs || bi || ba = true) as Hany.
  { unfold spec.persisted_fields in Hf.
    repeat (apply elem_of_cons in Hf as [->|Hf];
            [subst bn bd bc bs bi ba; rewrite Hdirty;
             by rewrite ?orb_true_r|]).
    by apply elem_of_nil in Hf. }
  clearbody bn bd bc bs bi ba.
  destruct (discount p) as [d|], (archivedAt p) as [a|];
    destruct bn, bd, bc, bs, bi, ba; try discriminate Hany; cbv zeta;
    (rewrite bool_decide_eq_false_2 by apply size_insert_ne_0);
    (eexists; split; [reflexivity|]);
    (split; [in_columns|]); repeat split; reflexivity.
Qed.

Lemma UpdateMut_columns_witness :
  let p := fst (Deactivate
                  (Reconstitute "a" "item" "" "books" spec.price_19_99 None
                     "active" 1%Z 1%Z None) 2500%Z) in
  exists cols,
    product_repo.UpdateMut p = Some (UpdateMap m_product.TableName cols)
    /\ cols !! m_product.Status = Some (VString "inactive")
    /\ cols !! m_product.UpdatedAt = Some (VTime 2500%Z)
    /\ cols !! m_product.Name = None.
Proof.
  cbv zeta.
  destruct (UpdateMut_columns
              (fst (Deactivate
                      (Reconstitute "a" "item" "" "books" spec.price_19_99
                         None "active" 1%Z 1%Z None) 2500%Z)))
    as (cols & Hm & _ & _ & Hu & Hn & _ & _ & Hs & _).
  - reflexivity.
  - exists FieldStatus. split; [|reflexivity].
    apply list_elem_of_In. simpl. tauto.
  - exists cols. split; [exact Hm|]. split; [exact Hs|].
    split; [exact Hu|exact Hn].
Defined.

(** *** Mutate, write, read back *)

Ltac decide_fields :=
  repeat match goal with
         | |- context [bool_decide (?a = ?b)] =>
             is_const a; is_const b;
             let v := eval vm_compute in (bool_decide (a = b)) in
             change (bool_decide (a = b)) with v
         | H : context [bool_decide (?a = ?b)] |- _ =>
             is_const a; is_const b;
             let v := eval vm_compute in (bool_decide (a = b)) in
             change (bool_decide (a = b)) with v in H
         end.

Ltac methods' :=
  unfold Update, Activate, Deactivate, Archive, ApplyDiscount, RemoveDiscount,
    IsArchived, IsActive, mark, emit.

Lemma call_updatedAt p op :
  (forall f, f ∈ spec.persisted_fields ->
             Dirty (changes (fst (spec.call p op))) f = false) ->
  updatedAt (fst (spec.call p op)) = updatedAt p.
Proof.
  intros Hclean.
  pose proof (Hclean FieldName ltac:(unfold spec.persisted_fields; set_solver)) as Hn.
  pose proof (Hclean FieldDescription ltac:(unfold spec.persisted_fields; set_solver)) as Hd.
  pose proof (Hclean FieldCategory ltac:(unfold spec.persisted_fields; set_solver)) as Hc.
  pose proof (Hclean FieldStatus ltac:(unfold spec.persisted_fields; set_solver)) as Hs.
  pose proof (Hclean FieldDiscount ltac:(unfold spec.persisted_fields; set_solver)) as Hi.
  clear Hclean. revert Hn Hd Hc Hs Hi.
  destruct op as [n d c now|now|now|now|d now|now]; simpl; methods'.
  - destruct p as [i n0 d0 c0 bp di st ca ua aa ch ev nw]. simpl.
    repeat case_bool_decide; cbn -[Dirty MarkDirty bool_decide];
      rewrite ?Dirty_MarkDirty_or; intros; decide_fields; cbn [orb] in *;
      try done.
  - repeat case_bool_decide; cbn -[Dirty MarkDirty bool_decide];
      rewrite ?Dirty_MarkDirty_or; intros; decide_fields; cbn [orb] in *;
      try done.
  - repeat case_bool_decide; cbn -[Dirty MarkDirty bool_decide];
      rewrite ?Dirty_MarkDirty_or; intros; decide_fields; cbn [orb] in *;
      try done.
  - repeat case_bool_decide; cbn -[Dirty MarkDirty bool_decide];
      rewrite ?Dirty_MarkDirty_or; intros; decide_fields; cbn [orb] in *;
      try done.
  - case_bool_decide; simpl;
      [destruct (negb (IsValidAt d now) && negb (HasStarted d now));
       [destruct (IsExpired d now)|]|];
      cbn -[Dirty MarkDirty bool_decide];
      rewrite ?Dirty_MarkDirty_or; intros; decide_fields; cbn [orb] in *;
      try done.
  - destruct (discount p) eqn:E; cbn -[Dirty MarkDirty bool_decide];
      rewrite ?Dirty_MarkDirty_or; intros; decide_fields; cbn [orb] in *;
      try done.
Qed.

Lemma run_clean_back p ops f :
  Dirty (changes (spec.run p ops)) f = false -> Dirty (changes p) f = false.
Proof.
  intros Hq. destruct (Dirty (changes p) f) eqn:E; [|done].
  destruct (proj1 (run_frame p ops)) as (M & _). apply M in E. congruence.
Qed.

Lemma run_updatedAt ops : forall p,
  (forall f, f ∈ spec.persisted_fields ->
             Dirty (changes (spec.run p ops)) f = false) ->
  updatedAt (spec.run p ops) = updatedAt p.
Proof.
  induction ops as [|op ops IH]; intros p Hclean; simpl in *; [done|].
  rewrite IH by done. apply call_updatedAt.
  intros f Hf. eapply run_clean_back. by apply Hclean.
Qed.

Lemma call_valid_discount p op :
  (forall d, discount p = Some d -> spec.valid_discount d) ->
  (forall d now, op = spec.OpApplyDiscount d now -> spec.valid_discount d) ->
  forall d, discount (fst (spec.call p op)) = Some d -> spec.valid_discount d.
Proof.
  intros Hp Hop.
  destruct op as [n d c now|now|now|now|d now|now]; simpl; methods'.
  - destruct p as [i n0 d0 c0 bp di st ca ua aa ch ev nw]. simpl in *.
    repeat case_bool_decide; simpl; done.
  - repeat case_bool_decide; simpl; done.
  - repeat case_bool_decide; simpl; done.
  - repeat case_bool_decide; simpl; done.
  - case_bool_decide; simpl;
      [destruct (negb (IsValidAt d now) && negb (HasStarted d now));
       [destruct (IsExpired d now)|]|]; simpl; try done;
      intros d' [= <-]; by eapply Hop.
  - destruct (discount p) eqn:E; simpl; [done|]. by rewrite E.
Qed.

Lemma run_valid_discount ops : forall p,
  (forall d, discount p = Some d -> spec.valid_discount d) ->
  spec.valid_ops ops ->
  forall d, discount (spec.run p ops) = Some d -> spec.valid_discount d.
Proof.
  induction ops as [|op ops IH]; intros p Hp Hops; simpl; [done|].
  apply IH.
  - apply call_valid_discount; [done|]. intros d now ->.
    apply (Hops d now). apply list_elem_of_here.
  - intros d now Hin. apply (Hops d now). by apply list_elem_of_further.
Qed.

(** What a successful [rowToProduct] says of the row. *)
Lemma rowToProduct_inv row p0 :
  product_repo.rowToProduct row = Ok p0 ->
  exists bp,
    NewMoney (m_product.row_BasePriceNumerator row)
      (m_product.row_BasePriceDenominator row) = Ok bp
    /\ (forall d, discount p0 = Some d -> spec.valid_discount d)
    /\ (match m_product.row_DiscountPercent row,
              m_product.row_DiscountStartDate row,
              m_product.row_DiscountEndDate row with
        | Some pct, Some s, Some e => Some (mkDiscount pct s e)
        | _, _, _ => None
        end = discount p0)
    /\ p0 = Reconstitute (m_product.row_ProductID row)
              (m_product.row_Name row) (m_product.row_Description row)
              (m_product.row_Category row) bp (discount p0)
              (m_product.row_Status row) (m_product.row_CreatedAt row)
              (m_product.row_UpdatedAt row) (m_product.row_ArchivedAt row).
Proof.
  unfold product_repo.rowToProduct.
  destruct (NewMoney _ _) as [bp|e] eqn:Em; [|done].
  destruct (m_product.row_DiscountPercent row) as [pct|];
    [destruct (m_product.row_DiscountStartDate row) as [s|];
     [destruct (m_product.row_DiscountEndDate row) as [e|]|]|].
  - destruct (NewDiscount pct s e) as [d|] eqn:Ed; [|done].
    intros [= <-]. exists bp. apply NewDiscount_ok in Ed as (Hp & Hse & ->).
    simpl. split; [done|]. split; [|done].
    intros d' [= <-]. unfold spec.valid_discount. simpl. lia.
  - intros [= <-]. exists bp. simpl. repeat split; done.
  - intros [= <-]. exists bp. simpl. repeat split; done.
  - intros [= <-]. exists bp. simpl. repeat split; done.
Qed.

Lemma newString_if cols col old (b : bool) x :
  cols !! col = (if b then Some (VString x) else None) ->
  storage.newString cols col old = Some (if b then x else old).
Proof. unfold storage.newString. intros ->. by destruct b. Qed.

Lemma newNullNumeric_if cols col old (b : bool) x :
  cols !! col = (if b then Some (VNullNumeric x) else None) ->
  storage.newNullNumeric cols col old = Some (if b then x else old).
Proof. unfold storage.newNullNumeric. intros ->. by destruct b. Qed.

Lemma newNullTime_if cols col old (b : bool) x :
  cols !! col = (if b then Some (VNullTime x) else None) ->
  storage.newNullTime cols col old = Some (if b then x else old).
Proof. unfold storage.newNullTime. intros ->. by destruct b. Qed.

Lemma modified_iff p :
  spec.modified p = true
  <-> exists f, f ∈ spec.persisted_fields /\ Dirty (changes p) f = true.
Proof.
  unfold spec.modified. rewrite existsb_exists.
  split; intros (f & Hf & Hd); exists f; (split; [|done]);
    by apply list_elem_of_In.
Qed.

Lemma modified_false p f :
  spec.modified p = false -> f ∈ spec.persisted_fields ->
  Dirty (changes p) f = false.
Proof.
  intros Hm Hf. destruct (Dirty (changes p) f) eqn:E; [|done].
  assert (spec.modified p = true) by (apply modified_iff; eauto).
  congruence.
Qed.

(** The update of a loaded aggregate with a dirty field, and what the
    server makes of a row with it. *)
Lemma UpdateMut_modified p row :
  isNew p = false -> spec.modified p = true ->
  exists cols,
    product_repo.UpdateMut p = Some (UpdateMap m_product.TableName cols)
    /\ storage.updateProduct cols row = Some (spec.stored row p)
    /\ storage.key cols m_product.ProductID = Some (id p).
Proof.
  intros Hnew Hm. unfold spec.stored. rewrite Hm.
  pose proof Hm as (f & Hf & Hdirty)%modified_iff.
  unfold product_repo.UpdateMut, m_product_model.UpdateMut. rewrite Hnew.
  rewrite (Dirty_HasChanges _ _ Hdirty). cbn [negb].
  unfold spec.modified, spec.persisted_fields in Hm. cbn [existsb] in Hm.
  set (bn := Dirty (changes p) FieldName) in *.
  set (bd := Dirty (changes p) FieldDescription) in *.
  set (bc := Dirty (changes p) FieldCategory) in *.
  set (bs := Dirty (changes p) FieldStatus) in *.
  set (bi := Dirty (changes p) FieldDiscount) in *.
  set (ba := Dirty (changes p) FieldArchivedAt) in *.
  clearbody bn bd bc bs bi ba. clear f Hf Hdirty.
  destruct (discount p) as [d|], (archivedAt p) as [a|];
    destruct bn, bd, bc, bs, bi, ba; try discriminate Hm; cbv zeta;
    (rewrite bool_decide_eq_false_2 by apply size_insert_ne_0);
    (eexists; split; [reflexivity|]); split; vm_compute; reflexivity.
Qed.

Lemma written_stored row p :
  isNew p = false -> spec.written row p = Some (spec.stored row p).
Proof.
  intros Hnew. unfold spec.written.
  destruct (spec.modified p) eqn:Hm.
  - destruct (UpdateMut_modified p row Hnew Hm) as (cols & -> & Hrow & _).
    done.
  - rewrite (persisted_clean_no_update p Hnew)
      by (intros f; apply modified_false, Hm).
    unfold spec.stored. by rewrite Hm.
Qed.

(** The row the changes of a sequence of calls leave loads as the
    aggregate's persistent state. *)
Lemma stored_loads row p0 ops :
  product_repo.rowToProduct row = Ok p0 ->
  spec.valid_ops ops ->
  product_repo.rowToProduct (spec.stored row (spec.run p0 ops))
  = Ok (spec.persistent (spec.run p0 ops)).
Proof.
  intros Hload Hops. set (q := spec.run p0 ops).
  destruct (rowToProduct_inv row p0 Hload) as (bp & Em & Hvd & Hdisc & Hp0).
  destruct (run_frame p0 ops)
    as ((_ & Tn & Td & Tc & Ti & Ts & Ta) & Hid & Hbp & Hca & Hnew).
  pose proof (run_valid_discount ops p0 Hvd Hops) as Hvq.
  cbv zeta in *. fold q in Hid, Hbp, Hca, Hnew, Tn, Td, Tc, Ti, Ts, Ta, Hvq.
  assert (id p0 = m_product.row_ProductID row
          /\ name p0 = m_product.row_Name row
          /\ description p0 = m_product.row_Description row
          /\ category p0 = m_product.row_Category row
          /\ basePrice p0 = bp
          /\ status p0 = m_product.row_Status row
          /\ createdAt p0 = m_product.row_CreatedAt row
          /\ updatedAt p0 = m_product.row_UpdatedAt row
          /\ archivedAt p0 = m_product.row_ArchivedAt row)
    as (Fi & Fn & Fd & Fc & Fb & Fs & Fca & Fu & Fa)
    by (rewrite Hp0; repeat split).
  rewrite Fi in Hid. rewrite Fb in Hbp.
  rewrite Fca in Hca. rewrite Fn in Tn. rewrite Fd in Td. rewrite Fc in Tc.
  rewrite Fs in Ts. rewrite Fa in Ta.
  assert (updatedAt q
          = if spec.modified q then updatedAt q
            else m_product.row_UpdatedAt row) as Hu.
  { destruct (spec.modified q) eqn:Hm; [done|]. rewrite <- Fu.
    apply run_updatedAt. intros f. apply modified_false, Hm. }
  assert (spec.stored row q
          = {| m_product.row_ProductID := m_product.row_ProductID row;
               m_product.row_Name := name q;
               m_product.row_Description := description q;
               m_product.row_Category := category q;
               m_product.row_BasePriceNumerator :=
                 m_product.row_BasePriceNumerator row;
               m_product.row_BasePriceDenominator :=
                 m_product.row_BasePriceDenominator row;
               m_product.row_DiscountPercent :=
                 if Dirty (changes q) FieldDiscount
                 then percentage <$> discount q
                 else m_product.row_DiscountPercent row;
               m_product.row_DiscountStartDate :=
                 if Dirty (changes q) FieldDiscount
                 then startDate <$> discount q
                 else m_product.row_DiscountStartDate row;
               m_product.row_DiscountEndDate :=
                 if Dirty (changes q) FieldDiscount
                 then endDate <$> discount q
                 else m_product.row_DiscountEndDate row;
               m_product.row_Status := status q;
               m_product.row_CreatedAt := m_product.row_CreatedAt row;
               m_product.row_UpdatedAt := updatedAt q;
               m_product.row_ArchivedAt := archivedAt q |}) as ->.
  { rewrite Hu. unfold spec.stored.
    destruct (spec.modified q) eqn:Hm.
    - rewrite Hid.
      destruct (Dirty (changes q) FieldName);
        destruct (Dirty (changes q) FieldDescription);
        destruct (Dirty (changes q) FieldCategory);
        destruct (Dirty (changes q) FieldStatus);
        destruct (Dirty (changes q) FieldArchivedAt);
        rewrite ?(Tn eq_refl), ?(Td eq_refl), ?(Tc eq_refl), ?(Ts eq_refl),
          ?(Ta eq_refl); reflexivity.
    - assert (forall f, In f spec.persisted_fields ->
                        Dirty (changes q) f = false) as Hc'
        by (intros f Hf; apply modified_false; [done|];
            by apply list_elem_of_In).
      rewrite (Hc' FieldDiscount) by (simpl; tauto).
      rewrite (Tn (Hc' FieldName ltac:(simpl; tauto))),
        (Td (Hc' FieldDescription ltac:(simpl; tauto))),
        (Tc (Hc' FieldCategory ltac:(simpl; tauto))),
        (Ts (Hc' FieldStatus ltac:(simpl; tauto))),
        (Ta (Hc' FieldArchivedAt ltac:(simpl; tauto))).
      by destruct row. }
  unfold product_repo.rowToProduct. cbn -[NewMoney NewDiscount].
  rewrite Em. unfold spec.persistent. rewrite Hid, Hbp, Hca.
  destruct (Dirty (changes q) FieldDiscount) eqn:Bi.
  - destruct (discount q) as [d|] eqn:Eq; cbn -[NewDiscount]; [|done].
    by rewrite (NewDiscount_valid d (Hvq d eq_refl)).
  - rewrite (Ti eq_refl), <- Hdisc.
    destruct (m_product.row_DiscountPercent row) as [pct|];
      [destruct (m_product.row_DiscountStartDate row) as [s|];
       [destruct (m_product.row_DiscountEndDate row) as [e|]|]|];
      try reflexivity.
    pose proof (NewDiscount_valid (mkDiscount pct s e)) as Hnd.
    cbn [percentage startDate endDate] in Hnd.
    rewrite Hnd; [reflexivity|]. apply Hvd. by rewrite <- Hdisc.
Qed.

Lemma rowToProduct_fields row p0 :
  product_repo.rowToProduct row = Ok p0 ->
  id p0 = m_product.row_ProductID row /\ isNew p0 = false
  /\ events p0 = [] /\ changes p0 = NewChangeTracker.
Proof.
  intros Hload.
  destruct (rowToProduct_inv row p0 Hload) as (bp & _ & _ & _ & ->).
  done.
Qed.

(** X19.  Load, change, write, read back.  Take a row that loads as an
    aggregate, call any sequence of mutating methods on the aggregate
    (applying only discounts that [NewDiscount] accepts) and apply the
    update mutation of the result, if there is one, to the row: the row
    obtained loads as the aggregate's persistent state.  The key, the
    base price and [created_at] of the row are not touched. *)
Theorem write_read_back row p0 ops :
  product_repo.rowToProduct row = Ok p0 ->
  spec.valid_ops ops ->
  let q := spec.run p0 ops in
  exists row',
    spec.written row q = Some row'
    /\ product_repo.rowToProduct row' = Ok (spec.persistent q)
    /\ m_product.row_ProductID row' = m_product.row_ProductID row
    /\ m_product.row_BasePriceNumerator row'
       = m_product.row_BasePriceNumerator row
    /\ m_product.row_BasePriceDenominator row'
       = m_product.row_BasePriceDenominator row
    /\ m_product.row_CreatedAt row' = m_product.row_CreatedAt row.
Proof.
  intros Hload Hops q. exists (spec.stored row q).
  destruct (rowToProduct_fields row p0 Hload) as (Hid0 & Hnew0 & _).
  destruct (proj2 (run_frame p0 ops)) as (Hid & _ & _ & Hnew).
  cbv zeta in Hid, Hnew. fold q in Hid, Hnew.
  split; [apply written_stored; congruence|].
  split; [by apply stored_loads|].
  unfold spec.stored.
  destruct (spec.modified q); repeat split; try reflexivity.
  cbn. congruence.
Qed.

Lemma write_read_back_witness :
  let row := spec.row "a" "active" "books" 1%Z in
  let p0 := Reconstitute "a" "item" "" "books" spec.price_19_99 None
              "active" 1%Z 1%Z None in
  let q := spec.run p0 [spec.OpApplyDiscount spec.twenty_percent 1500%Z;
                        spec.OpDeactivate 1600%Z] in
  exists row',
    spec.written row q = Some row'
    /\ product_repo.rowToProduct row' = Ok (spec.persistent q)
    /\ m_product.row_Status row' = "inactive"
    /\ m_product.row_DiscountPercent row' = Some 20%Z.
Proof.
  cbv zeta.
  destruct (write_read_back (spec.row "a" "active" "books" 1%Z)
              (Reconstitute "a" "item" "" "books" spec.price_19_99 None
                 "active" 1%Z 1%Z None)
              [spec.OpApplyDiscount spec.twenty_percent 1500%Z;
               spec.OpDeactivate 1600%Z])
    as (row' & Hw & Hr & _).
  - reflexivity.
  - intros d now Hin.
    apply elem_of_cons in Hin as [Hin|Hin]; [injection Hin as -> _|].
    + unfold spec.valid_discount. simpl. lia.
    + apply elem_of_cons in Hin as [Hin|Hin]; [discriminate Hin|].
      by apply elem_of_nil in Hin.
  - exists row'. split; [exact Hw|]. split; [exact Hr|].
    cbv zeta in Hw. vm_compute in Hw. injection Hw as <-. split; reflexivity.
Defined.

(** *** The insert mutation *)

Lemma insertProduct_columns row :
  storage.insertProduct (m_product_model.columns row) = Some row.
Proof. destruct row. vm_compute. reflexivity. Qed.

(** X20.  [InsertMut] and [UpdateMut] share the work: a new aggregate
    gets the insert, with all thirteen columns of its row, and no
    update; a loaded one gets no insert, and an update exactly when one
    of its six persisted fields is dirty.  The row the server builds
    from the insert is the row of the aggregate. *)
Theorem InsertMut_UpdateMut p :
  (isNew p = true ->
   product_repo.InsertMut p
   = Some (InsertMap m_product.TableName
             (m_product_model.columns (repo.productToDBModel p)))
   /\ storage.insertProduct
        (m_product_model.columns (repo.productToDBModel p))
      = Some (repo.productToDBModel p)
   /\ product_repo.UpdateMut p = None)
  /\ (isNew p = false ->
      product_repo.InsertMut p = None
      /\ (product_repo.UpdateMut p = None
          <-> forall f, f ∈ spec.persisted_fields ->
                        Dirty (changes p) f = false)).
Proof.
  split; intros Hnew.
  - unfold product_repo.InsertMut, product_repo.UpdateMut. rewrite Hnew.
    split; [done|]. split; [apply insertProduct_columns|done].
  - split; [unfold product_repo.InsertMut; by rewrite Hnew|]. split.
    + intros Hnone f Hf. destruct (Dirty (changes p) f) eqn:E; [|done].
      assert (spec.modified p = true) as Hm by (apply modified_iff; eauto).
      destruct (UpdateMut_modified p (repo.productToDBModel p) Hnew Hm)
        as (cols & Hsome & _).
      congruence.
    + by apply persisted_clean_no_update.
Qed.

End PersistenceFacts.

(** ** The commands *)

Section CommandFacts.
Import domain mutation committer.

Ltac methods :=
  unfold Update, Activate, Deactivate, Archive, ApplyDiscount, RemoveDiscount,
    IsArchived, IsActive, mark, emit.

Ltac decide_fields :=
  repeat match goal with
         | |- context [bool_decide (?a = ?b)] =>
             is_const a; is_const b;
             let v := eval vm_compute in (bool_decide (a = b)) in
             change (bool_decide (a = b)) with v
         | H : context [bool_decide (?a = ?b)] |- _ =>
             is_const a; is_const b;
             let v := eval vm_compute in (bool_decide (a = b)) in
             change (bool_decide (a = b)) with v in H
         end.

Ltac split_discount d now :=
  destruct (negb (IsValidAt d now) && negb (HasStarted d now));
  [destruct (IsExpired d now)|].

(** The four use cases follow one scheme: load, call, commit. *)
Lemma execute_scheme it db cmd :
  spec.execute it db cmd =
    match product_repo.GetByID (storage.products db) (spec.target cmd) with
    | Err e => (db, Some (Domain e))
    | Ok p0 =>
        match spec.call_of it cmd with
        | Err e => (db, Some (Domain e))
        | Ok op =>
            match spec.call p0 op with
            | (_, Some e) => (db, Some (Domain e))
            | (q, None) => usecases.commitUpdate it db q
            end
        end
    end.
Proof.
  destruct cmd as [req|k|k|req]; simpl;
    unfold usecases.update_product, usecases.deactivate_product,
      usecases.remove_discount, usecases.apply_discount;
    destruct (product_repo.GetByID _ _) as [p0|e]; try done.
  destruct (NewDiscount _ _ _); done.
Qed.

Lemma Apply_failure db plan err :
  snd (Apply db plan) = Some err -> fst (Apply db plan) = db.
Proof.
  unfold Apply. destruct (IsEmpty plan); [done|].
  destruct (storage.Apply db (Mutations plan)); done.
Qed.



Lemma insertOutbox_row it k e :
  exists cols,
    outbox_repo.InsertFromDomainEventMut
      {| outbox_repo.clock := usecases.clock it |} e (usecases.uuid it k)
    = InsertMap m_outbox.TableName cols
    /\ storage.key cols m_outbox.EventID = Some (usecases.uuid it k)
    /\ storage.insertOutbox cols = Some (spec.outbox_row it k e).
Proof.
  unfold spec.outbox_row, outbox_repo.InsertFromDomainEventMut,
    outbox_repo.InsertMut, m_outbox.InsertMut.
  cbn [outbox_repo.ID outbox_repo.EventType outbox_repo.AggregateID
       outbox_repo.Payload outbox_repo.Status outbox_repo.clock
       m_outbox.row_EventID m_outbox.row_EventType m_outbox.row_AggregateID
       m_outbox.row_Payload m_outbox.row_Status m_outbox.row_CreatedAt].
  generalize (outbox_repo.serializeEvent e) as payload.
  generalize (EventType e) as type, (AggregateID e) as aggregate.
  generalize (usecases.uuid it k) as u, (usecases.clock it) as now.
  intros. eexists. split; [reflexivity|]. split; vm_compute; reflexivity.
Qed.











End CommandFacts.

(** ** Creating a product *)

Section CreateFacts.
Import domain mutation committer.

Lemma NewRat_reduced n d :
  (0 < d)%Z ->
  (Z.abs (Qnum (this (big.NewRat n d))) <= Z.abs n)%Z
  /\ (Z.pos (Qden (this (big.NewRat n d))) <= d)%Z.
Proof.
  intros Hd. destruct d as [|d|d]; try lia.
  unfold big.NewRat. cbn [this Q2Qc].
  assert (inject_Z n / inject_Z (Z.pos d) = n * 1 # 1 * d)%Q as -> by done.
  rewrite Z.mul_1_r, Pos.mul_1_l. unfold Qred.
  pose proof (Z.ggcd_correct_divisors n (Z.pos d)) as Hdiv.
  pose proof (Z.ggcd_gcd n (Z.pos d)) as Hg.
  pose proof (Z.gcd_nonneg n (Z.pos d)) as Hg0.
  destruct (Z.ggcd n (Z.pos d)) as [g [a b]]. simpl in *.
  destruct Hdiv as [Hn Hdd]. subst g.
  set (g := Z.gcd n (Z.pos d)) in *.
  pose proof (Pos2Z.is_pos d) as Hp.
  assert (0 < g)%Z as Hg1.
  { destruct (Z.eq_dec g 0) as [E|]; [rewrite E in Hdd|]; lia. }
  assert (0 < b)%Z as Hb by nia.
  rewrite Z2Pos.id by done. split; nia.
Qed.

Lemma NewRat_ne_0 n d : (0 < n)%Z -> (0 < d)%Z -> big.NewRat n d <> 0%Qc.
Proof.
  intros Hn Hd E. pose proof (this_NewRat n d) as H. rewrite E in H.
  destruct d as [|d|d]; try lia.
  unfold Qeq, Qdiv, Qmult, Qinv, inject_Z in H. simpl in H. lia.
Qed.

(** The price of a new product goes through its two int64 columns and
    comes back. *)
Lemma NewMoney_parts m :
  (0 <= amount m)%Qc ->
  is_int64 (Qnum (this (amount m))) ->
  is_int64 (Z.pos (Qden (this (amount m)))) ->
  NewMoney (repo.Numerator m) (repo.Denominator m) = Ok m.
Proof.
  intros Hpos Hn Hd. unfold repo.Numerator, repo.Denominator.
  rewrite !wrap64_id by done.
  rewrite NewMoney_ok.
  - rewrite NewRat_parts. by destruct m.
  - done.
  - unfold Qcle, Qle in Hpos. simpl in Hpos. lia.
Qed.

Lemma key_columns row :
  storage.key (m_product_model.columns row) m_product.ProductID
  = Some (m_product.row_ProductID row).
Proof. destruct row. vm_compute. reflexivity. Qed.

Lemma NewProduct_ok pid pname pdescription pcategory m now :
  spec.valid_name pname -> spec.valid_category pcategory ->
  amount m <> 0%Qc ->
  NewProduct pid pname pdescription pcategory (Some m) now
  = Ok {| id := pid; name := pname; description := pdescription;
          category := pcategory; basePrice := m; discount := None;
          status := ProductStatusDraft; createdAt := now;
          updatedAt := now; archivedAt := None;
          changes := NewChangeTracker;
          events := [ProductCreatedEvent pid now pname pdescription
                       pcategory m];
          isNew := true |}.
Proof.
  unfold spec.valid_name, spec.valid_category, NewProduct.
  intros [Hn Hnl] [Hc Hcl] Hm.
  rewrite (bool_decide_eq_false_2 (pname = _)) by done.
  rewrite (bool_decide_eq_false_2 (_ < String.length pname)%nat) by lia.
  rewrite (bool_decide_eq_false_2 (pcategory = _)) by done.
  rewrite (bool_decide_eq_false_2 (_ < String.length pcategory)%nat) by lia.
  destruct (IsZero m) eqn:Ez; [|done].
  unfold IsZero in Ez. apply Sign_zero in Ez. done.
Qed.

(** The commit of a new aggregate with one event. *)
Lemma commit_new it db p e :
  isNew p = true -> events p = [e] ->
  let plan :=
    usecases.addEvents it 1
      (match product_repo.InsertMut p with
       | Some mut => Add NewPlan (Some mut)
       | None => NewPlan
       end) (events p) in
  Apply db plan
  = match storage.products db !! id p,
          storage.outbox_events db !! usecases.uuid it 1 with
    | None, None =>
        ({| storage.products :=
              <[id p := repo.productToDBModel p]> (storage.products db);
            storage.outbox_events :=
              <[usecases.uuid it 1 := spec.outbox_row it 1 e]>
                (storage.outbox_events db) |}, None)
    | _, _ => (db, Some Spanner)
    end.
Proof.
  intros Hnew Hev. cbv zeta. unfold product_repo.InsertMut.
  rewrite Hnew, Hev. cbn [negb].
  cbn [usecases.addEvents].
  destruct (insertOutbox_row it 1 e) as (ocols & -> & Hokey & Hins).
  unfold m_product_model.InsertMut.
  unfold Apply, IsEmpty, Mutations, Add, NewPlan. cbn [mutations app length].
  rewrite bool_decide_eq_false_2 by done.
  cbn [storage.Apply storage.apply1].
  rewrite (bool_decide_eq_true_2 (m_product.TableName = _)) by done.
  rewrite key_columns, insertProduct_columns. cbn [mbind option_bind].
  cbn [repo.productToDBModel m_product.row_ProductID].
  destruct (storage.products db !! id p); [done|].
  rewrite (bool_decide_eq_false_2 (m_outbox.TableName = m_product.TableName))
    by done.
  rewrite (bool_decide_eq_true_2 (m_outbox.TableName = _)) by done.
  rewrite Hokey, Hins. cbn [mbind option_bind storage.outbox_events].
  destruct (storage.outbox_events db !! usecases.uuid it 1); done.
Qed.

(** What the create command does with a request with a valid name and
    category and a price given by two positive int64 values: the
    product's row and one outbox row, both or neither, and the row
    loads as the new product. *)
Lemma create_product_ok it db req :
  let n := usecases.create_BasePriceNumerator req in
  let d := usecases.create_BasePriceDenominator req in
  let k := usecases.uuid it 0 in
  let now := usecases.clock it in
  let price := {| amount := big.NewRat n d |} in
  spec.valid_name (usecases.create_Name req) ->
  spec.valid_category (usecases.create_Category req) ->
  (0 < n <= MaxInt64)%Z -> (0 < d <= MaxInt64)%Z ->
  exists row,
    usecases.create_product it db req
    = match storage.products db !! k,
            storage.outbox_events db !! usecases.uuid it 1 with
      | None, None =>
          ({| storage.products := <[k := row]> (storage.products db);
              storage.outbox_events :=
                <[usecases.uuid it 1 :=
                    spec.outbox_row it 1
                      (ProductCreatedEvent k now (usecases.create_Name req)
                         (usecases.create_Description req)
                         (usecases.create_Category req) price)]>
                  (storage.outbox_events db) |}, (k, None))
      | _, _ => (db, ("", Some Spanner))
      end
    /\ m_product.row_ProductID row = k
    /\ product_repo.rowToProduct row
       = Ok (Reconstitute k (usecases.create_Name req)
               (usecases.create_Description req)
               (usecases.create_Category req) price None ProductStatusDraft
               now now None).
Proof.
  intros n d k now price Hname Hcat Hn Hd.
  assert (amount price <> 0%Qc) as Hne by (apply NewRat_ne_0; lia).
  set (p := {| id := k; name := usecases.create_Name req;
               description := usecases.create_Description req;
               category := usecases.create_Category req;
               basePrice := price; discount := None;
               status := ProductStatusDraft; createdAt := now;
               updatedAt := now; archivedAt := None;
               changes := NewChangeTracker;
               events := [ProductCreatedEvent k now (usecases.create_Name req)
                            (usecases.create_Description req)
                            (usecases.create_Category req) price];
               isNew := true |}).
  exists (repo.productToDBModel p). split; [|split; [done|]].
  - unfold usecases.create_product. fold n d.
    rewrite NewMoney_ok by lia. fold price k now.
    rewrite (NewProduct_ok k _ _ _ price now Hname Hcat Hne). fold p.
    pose proof (commit_new it db p _ eq_refl eq_refl) as Hc.
    cbv zeta in Hc. rewrite Hc. cbn [id p].
    destruct (storage.products db !! k); [done|].
    destruct (storage.outbox_events db !! usecases.uuid it 1); done.
  - unfold product_repo.rowToProduct, repo.productToDBModel.
    cbn -[NewMoney NewDiscount repo.Numerator repo.Denominator price].
    rewrite NewMoney_parts; [done| |  |].
    + apply NewRat_nonneg; lia.
    + destruct (NewRat_reduced n d) as [H1 _]; [lia|].
      unfold is_int64, MinInt64, MaxInt64 in *. cbn [amount price]. lia.
    + destruct (NewRat_reduced n d) as [_ H2]; [lia|].
      unfold is_int64, MinInt64, MaxInt64 in *. cbn [amount price]. lia.
Qed.

(** X24.  A create command that returns an error has written nothing
    and returns the empty identifier.  The price is checked first: a
    zero denominator is reported as [ErrInvalidMoney] and a negative
    numerator as [ErrNegativeMoney] whatever the name and the category
    are. *)
Theorem create_product_failure it db req :
  let r := usecases.create_product it db req in
  (forall err, snd (snd r) = Some err -> fst r = db /\ fst (snd r) = "")
  /\ (usecases.create_BasePriceDenominator req = 0%Z ->
      r = (db, ("", Some (Domain ErrInvalidMoney))))
  /\ (usecases.create_BasePriceDenominator req <> 0%Z ->
      (usecases.create_BasePriceNumerator req < 0)%Z ->
      r = (db, ("", Some (Domain ErrNegativeMoney)))).
Proof.
  cbv zeta. unfold usecases.create_product, NewMoney. split; [|split].
  - intros err.
    destruct (_ =? _)%Z; [by intros [= <-]|].
    destruct (_ <? _)%Z; [by intros [= <-]|].
    destruct (NewProduct _ _ _ _ _ _) as [p|e]; [|by intros [= <-]].
    match goal with |- context [Apply db ?plan] => set (pl := plan) end.
    pose proof (Apply_failure db pl) as Hf.
    destruct (Apply db pl) as [db' [e|]]; simpl in *; [|done].
    intros _. split; [by apply (Hf e)|done].
  - intros ->. done.
  - intros Hd Hn.
    destruct (Z.eqb_spec (usecases.create_BasePriceDenominator req) 0);
      [done|].
    destruct (Z.ltb_spec (usecases.create_BasePriceNumerator req) 0);
      [done|lia].
Qed.

Lemma NewRat_opp n d : d <> 0%Z -> big.NewRat n d = big.NewRat (- n) (- d).
Proof.
  intros Hd. apply Qc_is_canon. rewrite !this_NewRat.
  destruct d as [|d|d]; [done| |];
    unfold Qeq, Qdiv, Qmult, Qinv, inject_Z; simpl; lia.
Qed.

Lemma NewRat_num_neg n d :
  (n < 0)%Z -> (0 < d)%Z -> (Qnum (this (big.NewRat n d)) < 0)%Z.
Proof.
  intros Hn Hd. pose proof (this_NewRat n d) as H.
  destruct d as [|d|d]; try lia.
  set (q := big.NewRat n (Z.pos d)) in *. clearbody q.
  unfold Qeq, Qdiv, Qmult, Qinv, inject_Z in H. simpl in H.
  pose proof (Pos2Z.is_pos (Qden (this q))).
  pose proof (Pos2Z.is_pos d). nia.
Qed.

(** X25.  A create request with a positive numerator and a negative
    denominator passes: the product is stored and its identifier
    returned.  The stored price is negative, so the product cannot be
    loaded, and every later command on it fails with
    [ErrNegativeMoney] and changes nothing. *)
Theorem create_product_negative_denominator it db req :
  let n := usecases.create_BasePriceNumerator req in
  let d := usecases.create_BasePriceDenominator req in
  let k := usecases.uuid it 0 in
  spec.valid_name (usecases.create_Name req) ->
  spec.valid_category (usecases.create_Category req) ->
  (0 < n <= MaxInt64)%Z -> (MinInt64 < d < 0)%Z ->
  storage.products db !! k = None ->
  storage.outbox_events db !! usecases.uuid it 1 = None ->
  let db' := fst (usecases.create_product it db req) in
  snd (usecases.create_product it db req) = (k, None)
  /\ product_repo.GetByID (storage.products db') k = Err ErrNegativeMoney
  /\ forall it' cmd,
      spec.target cmd = k ->
      spec.execute it' db' cmd = (db', Some (Domain ErrNegativeMoney)).
Proof.
  intros n d k Hname Hcat Hn Hd Hfree Hfree1.
  set (price := {| amount := big.NewRat n d |}).
  assert (amount price <> 0%Qc) as Hne.
  { cbn [amount price]. rewrite NewRat_opp by lia. intros E.
    pose proof (NewRat_num_neg (- n) (- d)) as Hneg. rewrite E in Hneg.
    simpl in Hneg. lia. }
  set (now := usecases.clock it).
  set (p := {| id := k; name := usecases.create_Name req;
               description := usecases.create_Description req;
               category := usecases.create_Category req;
               basePrice := price; discount := None;
               status := ProductStatusDraft; createdAt := now;
               updatedAt := now; archivedAt := None;
               changes := NewChangeTracker;
               events := [ProductCreatedEvent k now (usecases.create_Name req)
                            (usecases.create_Description req)
                            (usecases.create_Category req) price];
               isNew := true |}).
  assert (usecases.create_product it db req
          = ({| storage.products :=
                  <[k := repo.productToDBModel p]> (storage.products db);
                storage.outbox_events :=
                  <[usecases.uuid it 1 :=
                      spec.outbox_row it 1
                        (ProductCreatedEvent k now (usecases.create_Name req)
                           (usecases.create_Description req)
                           (usecases.create_Category req) price)]>
                    (storage.outbox_events db) |}, (k, None))) as ->.
  { unfold usecases.create_product. fold n d.
    rewrite NewMoney_ok by lia. fold price k now.
    rewrite (NewProduct_ok k _ _ _ price now Hname Hcat Hne). fold p.
    pose proof (commit_new it db p _ eq_refl eq_refl) as Hc.
    cbv zeta in Hc. rewrite Hc. cbn [id p]. by rewrite Hfree, Hfree1. }
  cbn [fst snd]. split; [done|].
  assert (product_repo.GetByID
            (<[k := repo.productToDBModel p]> (storage.products db)) k
          = Err ErrNegativeMoney) as Hget.
  { unfold product_repo.GetByID. rewrite lookup_insert_eq.
    unfold product_repo.rowToProduct, repo.productToDBModel.
    cbn -[NewMoney NewDiscount repo.Numerator repo.Denominator price].
    unfold repo.Numerator, repo.Denominator. cbn [amount price].
    rewrite NewRat_opp by lia.
    destruct (NewRat_reduced (- n) (- d)) as [H1 H2]; [lia|].
    pose proof (NewRat_num_neg (- n) (- d)) as Hneg.
    pose proof (Pos2Z.is_pos (Qden (this (big.NewRat (- n) (- d))))) as Hp.
    unfold MinInt64, MaxInt64 in *.
    rewrite !wrap64_id by (unfold is_int64, MinInt64, MaxInt64; lia).
    unfold NewMoney.
    destruct (Z.eqb_spec (Z.pos (Qden (this (big.NewRat (- n) (- d))))) 0);
      [lia|].
    destruct (Z.ltb_spec (Qnum (this (big.NewRat (- n) (- d)))) 0);
      [done|lia]. }
  split; [exact Hget|].
  intros it' cmd Hk. rewrite execute_scheme. cbn [storage.products].
  by rewrite Hk, Hget.
Qed.

Lemma create_product_negative_denominator_witness :
  let req := usecases.mkCreateRequest "Laptop" "" "Electronics" 1999 (-100) in
  let db' := fst (usecases.create_product spec.desk spec.shop req) in
  snd (usecases.create_product spec.desk spec.shop req) = ("u-0", None)
  /\ spec.execute spec.desk db' (spec.CmdDeactivate "u-0")
     = (db', Some (Domain ErrNegativeMoney)).
Proof.
  destruct (create_product_negative_denominator spec.desk spec.shop
              (usecases.mkCreateRequest "Laptop" "" "Electronics" 1999
                 (-100)))
    as (Hid & _ & Hcmd).
  - split; [done|simpl; unfold MaxProductNameLength; lia].
  - split; [done|simpl; unfold MaxCategoryLength; lia].
  - simpl. unfold MaxInt64. lia.
  - simpl. unfold MinInt64. lia.
  - reflexivity.
  - reflexivity.
  - split; [exact Hid|]. apply Hcmd. reflexivity.
Defined.

End CreateFacts.

(** ** The read side against the write side *)

Section ReadSideFacts.
Import domain contracts.

Ltac lookup_params :=
  repeat (rewrite lookup_insert_eq || (rewrite lookup_insert_ne by done)).

Lemma CountByCategory_eq r c :
  repo.CountByCategory r c
  = Z.of_nat
      (length
         (List.filter
            (fun row =>
               bool_decide (m_product.row_Category row = c)
               && bool_decide (m_product.row_Status row
                               ≠ ProductStatusArchived))
            (repo.client r))).
Proof.
  unfold repo.CountByCategory, spanner.QueryCount. cbv zeta. do 2 f_equal.
  apply List.filter_ext. intros row. unfold spanner.selected.
  cbn [forallb spanner.Where spanner.Params].
  erewrite holds_category_eq, holds_status_ne by (lookup_params; reflexivity).
  by rewrite andb_true_r.
Qed.

(** X26.  [CountByCategory] counts the rows of the category that are
    not archived.  For a category other than the empty string this is
    the total that [List] reports for the category filter alone,
    whatever the page. *)
Theorem CountByCategory_List r c pg res :
  c <> "" ->
  repo.List r {| filter_Category := Some c; filter_Status := None;
                 filter_ActiveOnly := false |} pg = Some res ->
  TotalCount res = repo.CountByCategory r c
  /\ repo.CountByCategory r c
     = Z.of_nat
         (length
            (List.filter
               (fun row =>
                  bool_decide (m_product.row_Category row = c)
                  && bool_decide (m_product.row_Status row
                                  ≠ ProductStatusArchived))
               (repo.client r))).
Proof.
  intros Hc Hlist. split; [|apply CountByCategory_eq].
  rewrite List_eq in Hlist.
  destruct ((Limit pg <? 0) || (Offset pg <? 0)); [done|].
  injection Hlist as <-. cbn [TotalCount]. rewrite CountByCategory_eq.
  do 2 f_equal. apply List.filter_ext. intros row. unfold spec.matches.
  cbn [filter_ActiveOnly filter_Status filter_Category].
  by rewrite (bool_decide_eq_true_2 (c <> "")).
Qed.

Lemma CountByCategory_List_witness :
  exists res,
    repo.List spec.catalog
      {| filter_Category := Some "books"; filter_Status := None;
         filter_ActiveOnly := false |} {| Limit := 2; Offset := 0 |}
    = Some res
    /\ TotalCount res = repo.CountByCategory spec.catalog "books"
    /\ repo.CountByCategory spec.catalog "books" = 4.
Proof.
  eexists. split; [rewrite List_eq; reflexivity|].
  destruct (CountByCategory_List spec.catalog "books"
              {| Limit := 2; Offset := 0 |}
              {| Products :=
                   repo.rowToReadModel spec.catalog
                   <$> spec.page (repo.client spec.catalog)
                         {| filter_Category := Some "books";
                            filter_Status := None;
                            filter_ActiveOnly := false |} 2 0;
                 TotalCount := 4; HasMore := true |}) as [Ht Hc].
  - done.
  - rewrite List_eq. reflexivity.
  - split; [exact Ht|]. rewrite Hc. reflexivity.
Defined.

(** X27.  The read model against the aggregate.  For a row that loads
    as an aggregate, and whose numerator and denominator times 100 stay
    within [int64], the effective price pair of the read model is, as a
    fraction, the aggregate's effective price at the same instant; the
    base price pair is the aggregate's base price. *)
Theorem read_model_agrees r row p :
  product_repo.rowToProduct row = Ok p ->
  is_int64 (m_product.row_BasePriceNumerator row * 100) ->
  is_int64 (m_product.row_BasePriceDenominator row * 100) ->
  let rm := repo.rowToReadModel r row in
  big.NewRat (EffectivePriceNum rm) (EffectivePriceDenom rm)
  = amount (EffectivePrice p (repo.clock r))
  /\ big.NewRat (BasePriceNumerator rm) (BasePriceDenominator rm)
     = amount (basePrice p).
Proof.
  intros Hload Hn Hd rm.
  destruct (rowToProduct_inv row p Hload) as (bp & Em & Hvd & Hdisc & Hp).
  assert (basePrice p = bp) as Hbp by (by rewrite Hp).
  unfold NewMoney in Em.
  destruct (Z.eqb_spec (m_product.row_BasePriceDenominator row) 0) as [|Hden];
    [done|].
  destruct (Z.ltb_spec (m_product.row_BasePriceNumerator row) 0) as [|Hnum];
    [done|].
  injection Em as <-. subst rm. cbn [repo.rowToReadModel EffectivePriceNum
    EffectivePriceDenom BasePriceNumerator BasePriceDenominator].
  split; [|by rewrite Hbp].
  destruct (m_product.row_DiscountPercent row) as [pct|] eqn:Ep;
    [destruct (m_product.row_DiscountStartDate row) as [s|] eqn:Es;
     [destruct (m_product.row_DiscountEndDate row) as [e|] eqn:Ee|]|].
  - pose proof (Hvd _ (eq_sym Hdisc)) as [Hpct Hse]. simpl in Hpct, Hse.
    destruct (decide (s <= repo.clock r <= e)%Z) as [Hin|Hout].
    + destruct (effectivePrice_inside r row pct s e Ep Es Ee Hin) as [_ ->];
        try done.
      * unfold is_int64, MinInt64, MaxInt64 in *. lia.
      * unfold is_int64, MinInt64, MaxInt64 in *. nia.
      * rewrite (EffectivePrice_inside p _ (repo.clock r) (eq_sym Hdisc))
          by done.
        by rewrite Hbp.
    + rewrite (effectivePrice_outside r row pct s e Ep Es Ee) by lia.
      rewrite (EffectivePrice_outside p _ (repo.clock r) (eq_sym Hdisc))
        by (simpl; lia).
      by rewrite Hbp.
  - rewrite effectivePrice_no_discount by auto.
    rewrite EffectivePrice_no_discount by done. by rewrite Hbp.
  - rewrite effectivePrice_no_discount by auto.
    rewrite EffectivePrice_no_discount by done. by rewrite Hbp.
  - rewrite effectivePrice_no_discount by auto.
    rewrite EffectivePrice_no_discount by done. by rewrite Hbp.
Qed.

Lemma read_model_agrees_witness :
  let p := Reconstitute "a" "item" "" "books" spec.price_19_99
             (Some spec.twenty_percent) "active" 1 1 None in
  let r := {| repo.client := [repo.productToDBModel p];
              repo.clock := 2500 |} in
  let rm := repo.rowToReadModel r (repo.productToDBModel p) in
  big.NewRat (EffectivePriceNum rm) (EffectivePriceDenom rm)
  = amount (EffectivePrice p 2500)
  /\ (EffectivePriceNum rm, EffectivePriceDenom rm)
     = (159920%Z, 10000%Z).
Proof.
  cbv zeta. split; [|reflexivity].
  apply (read_model_agrees
           {| repo.client :=
                [repo.productToDBModel
                   (Reconstitute "a" "item" "" "books" spec.price_19_99
                      (Some spec.twenty_percent) "active" 1 1 None)];
              repo.clock := 2500 |}
           (repo.productToDBModel
              (Reconstitute "a" "item" "" "books" spec.price_19_99
                 (Some spec.twenty_percent) "active" 1 1 None))
           (Reconstitute "a" "item" "" "books" spec.price_19_99
              (Some spec.twenty_percent) "active" 1 1 None)).
  - reflexivity.
  - unfold is_int64. apply (bool_decide_unpack _). vm_compute. exact I.
  - unfold is_int64. apply (bool_decide_unpack _). vm_compute. exact I.
Defined.

End ReadSideFacts.

(** ** The gRPC handler *)

Section TransportFacts.
Import domain committer.

Ltac methods :=
  unfold Update, Activate, Deactivate, Archive, ApplyDiscount, RemoveDiscount,
    IsArchived, IsActive, mark, emit.

Ltac split_discount d now :=
  destruct (negb (IsValidAt d now) && negb (HasStarted d now));
  [destruct (IsExpired d now)|].







Lemma NewProduct_err pid pname pdescription pcategory price now e :
  NewProduct pid pname pdescription pcategory price now = Err e ->
  product.mapDomainErrorToGRPC (Some (Domain e)) = Some codes.InvalidArgument.
Proof.
  unfold NewProduct. repeat case_bool_decide; try (by intros [= <-]).
  destruct price as [m|]; [|by intros [= <-]].
  destruct (IsZero m); [by intros [= <-]|done].
Qed.

(** X29.  The CreateProduct handler, for a request whose price fields
    are int64 values.  When it replies, the reply carries the
    identifier drawn for the product, the price of the request has a
    positive numerator and denominator, and the product loads from the
    database as a draft with the requested values and that price.
    When it returns a status, nothing was written, and the code is
    InvalidArgument or Internal. *)
Theorem CreateProduct_reply it db req :
  (forall m, pb.BasePrice req = Some m ->
             is_int64 (pb.Numerator m) /\ is_int64 (pb.Denominator m)) ->
  let k := usecases.uuid it 0 in
  let now := usecases.clock it in
  match product.CreateProduct it db req with
  | (db', (Some reply, None)) =>
      pb.ProductId reply = k
      /\ exists m,
          pb.BasePrice req = Some m
          /\ (0 < pb.Numerator m)%Z /\ (0 < pb.Denominator m)%Z
          /\ product_repo.GetByID (storage.products db') k
             = Ok (Reconstitute k (pb.Name req) (pb.Description req)
                     (pb.Category req)
                     {| amount :=
                          big.NewRat (pb.Numerator m) (pb.Denominator m) |}
                     None ProductStatusDraft now now None)
  | (db', (None, Some c)) =>
      db' = db /\ (c = codes.InvalidArgument \/ c = codes.Internal)
  | _ => False
  end.
Proof.
  intros Hint k now. unfold product.CreateProduct.
  destruct (product.validateCreateRequest req) eqn:Hv; [by auto|].
  unfold product.validateCreateRequest in Hv.
  destruct (pb.BasePrice req) as [m|] eqn:Hbp; simpl in Hv;
    repeat case_bool_decide; try done.
  destruct (Z.leb_spec (pb.Denominator m) 0) as [|Hd]; [done|].
  destruct (Z.leb_spec (pb.Numerator m) 0) as [|Hn]; [done|].
  destruct (Hint m eq_refl) as [[_ Hn64] [_ Hd64]].
  unfold product.mapToCreateProductRequest. rewrite Hbp.
  cbn [pb.GetNumerator pb.GetDenominator].
  destruct (Z.eqb_spec (pb.Denominator m) 0) as [|_]; [lia|].
  set (appReq := usecases.mkCreateRequest _ _ _ _ _).
  destruct (NewProduct k (pb.Name req) (pb.Description req) (pb.Category req)
              (Some {| amount :=
                         big.NewRat (pb.Numerator m) (pb.Denominator m) |})
              now) as [p|e] eqn:Enp.
  - destruct (NewProduct_inv _ _ _ _ _ _ _ Enp) as (Hname & Hcat & _).
    destruct (create_product_ok it db appReq Hname Hcat)
      as (row & -> & _ & Hrow); [simpl; lia..|].
    fold k now. simpl.
    destruct (storage.products db !! k);
      [split; [done|by right]|].
    destruct (storage.outbox_events db !! usecases.uuid it 1);
      [split; [done|by right]|].
    split; [done|]. exists m. do 3 (split; [done|]).
    unfold product_repo.GetByID. cbn [storage.products].
    by rewrite lookup_insert_eq.
  - unfold usecases.create_product. subst appReq.
    cbn [usecases.create_Name usecases.create_Description
         usecases.create_Category usecases.create_BasePriceNumerator
         usecases.create_BasePriceDenominator].
    rewrite NewMoney_ok by lia. fold k now. rewrite Enp.
    rewrite (NewProduct_err _ _ _ _ _ _ _ Enp). auto.
Qed.

Lemma CreateProduct_reply_witness :
  exists db',
    product.CreateProduct spec.desk spec.shop
      (pb.mkCreateProductRequest "Laptop" "" "Electronics"
         (Some (pb.mkMoney 3998 200)))
    = (db', (Some {| pb.ProductId := "u-0" |}, None))
    /\ product_repo.GetByID (storage.products db') "u-0"
       = Ok (Reconstitute "u-0" "Laptop" "" "Electronics"
               {| amount := big.NewRat 3998 200 |} None ProductStatusDraft
               2500 2500 None).
Proof.
  pose proof (CreateProduct_reply spec.desk spec.shop
                (pb.mkCreateProductRequest "Laptop" "" "Electronics"
                   (Some (pb.mkMoney 3998 200)))) as H.
  cbv zeta in H.
  destruct (product.CreateProduct spec.desk spec.shop
              (pb.mkCreateProductRequest "Laptop" "" "Electronics"
                 (Some (pb.mkMoney 3998 200))))
    as [db' [[[reply]|] [c|]]] eqn:E; try discriminate E.
  exists db'.
  destruct H as (Hid & m & [= <-] & _ & _ & Hget).
  - intros m [= <-]. unfold is_int64, MinInt64, MaxInt64. simpl. lia.
  - simpl in Hid. subst reply. split; [reflexivity|exact Hget].
Defined.

End TransportFacts.

(** ** The commit plan *)

Section CommitPlanFacts.
Import mutation committer.

(** X30.  A commit plan built with [AddAll] holds the mutations it held
    before followed by the new ones that are not nil, in the order
    given; [Count] counts them and [IsEmpty] says whether there is
    none. *)
Theorem AddAll_mutations p ms :
  Mutations (AddAll p ms) = (Mutations p ++ omap (fun m => m) ms)%list
  /\ Count (AddAll p ms)
     = (Count p + length (omap (fun m : option Mutation => m) ms))%nat
  /\ (IsEmpty (AddAll p ms) = true
      <-> Mutations p = [] /\ Forall (fun m => m = None) ms).
Proof.
  assert (Mutations (AddAll p ms)
          = (Mutations p ++ omap (fun m => m) ms)%list) as Hm.
  { unfold AddAll, Mutations. revert p.
    induction ms as [|[m|] ms IH]; intros p; simpl.
    - by rewrite app_nil_r.
    - rewrite IH. simpl. by rewrite <- app_assoc.
    - apply IH. }
  split; [exact Hm|]. unfold Count, IsEmpty. unfold Mutations in Hm.
  rewrite Hm, length_app. split; [done|].
  rewrite bool_decide_eq_true, ?length_app, Nat.eq_add_0.
  rewrite !length_zero_iff_nil.
  unfold Mutations. split; intros [Hp Hms]; (split; [done|]).
  - clear -Hms. induction ms as [|[m|] ms IH]; simpl in *; [done|done|].
    constructor; [done|by apply IH].
  - clear -Hms. induction Hms as [|m ms -> _ IH]; simpl; done.
Qed.

End CommitPlanFacts.
